(** * import_models.py: a shallow embedding and its verified properties

    The script synchronises model files from a source models directory
    into a destination models directory, maintains the destination
    manifest [best_models.json] and optionally prunes model files the
    manifest does not list.

    The embedding follows [scripts/import_models.py] function by
    function.  The file system is a finite map from paths to nodes
    (regular files carrying content and modification time, or
    directories); every function of the script is a computation in a
    state-and-exception monad over that file system and a clock.

    Modelling scope.
    - A path is the list of its components, innermost first; [p </> n]
      appends the single component [n].  This is what [pathlib] does
      with a plain name: one that is not empty, is neither "." nor
      "..", and holds no separator ([plain_name] below).  Other names
      are outside the model, and so are symbolic links, permission
      bits and file systems that fold case.
    - A directory is listed in the order of the map's keys, the same at
      every listing; the order the operating system gives is not
      specified.
    - A failed read raises [FileNotFoundError] or [IsADirectoryError];
      a read below a regular file is not told apart from a read of a
      missing file.  The script catches every exception of a read
      alike.
    - [hashlib.md5], [json.load] and [json.dump] are parameters of the
      development: no property below depends on how they compute.
      [json.dump] is taken to succeed on the data it is handed, so that
      [write_json] fails on paths only; strings that cannot be encoded
      as UTF-8 are outside the model.
    - The clock gives years of four digits, 1000 to 9999.
    - Console output ([print], [eprint]) is not modelled.  The
      [verbose] flag gates output and is dropped from the signatures:
      the embedding is of a run without it.  (With it the script also
      takes the [len] of the source manifest before it asks for its
      items.) *)

From Stdlib Require Import String Ascii List Bool Arith Lia OrderedTypeEx.
From stdpp Require Import gmap strings list fin_maps sorting pretty.

Local Open Scope string_scope.
Local Open Scope list_scope.

(** ** Paths *)

Module Path.

(** Components, innermost first: [["model_1.json"; "A"; "models"]] is
    [/models/A/model_1.json] and [[]] is the root. *)
Abbreviation t := (list string).

(** [self / name], for a single-component [name]. *)
Definition joinpath (p : t) (name : string) : t := name :: p.

(** [self.parent]: the root is its own parent. *)
Definition parent (p : t) : t := tail p.

(** [self.name]: the final component, empty for the root. *)
Definition name (p : t) : string := hd "" p.

(** [self.suffix]: from the last dot of the name on, when that dot is
    neither the first nor the last character of the name. *)
Fixpoint last_dot (s : string) : option string :=
  match s with
  | EmptyString => None
  | String c s' =>
      match last_dot s' with
      | Some r => Some r
      | None => if Ascii.eqb c "." then Some s else None
      end
  end.

Definition suffix (p : t) : string :=
  match name p with
  | EmptyString => ""
  | String c rest =>
      match last_dot rest with
      | Some r => if String.eqb r "." then "" else r
      | None => ""
      end
  end.

(** [self.with_suffix(s)] for a non-empty name: the old suffix is cut
    off and [s] appended. *)
Definition with_suffix (p : t) (s : string) : t :=
  let n := name p in
  let stem :=
    String.substring 0 (String.length n - String.length (suffix p)) n in
  joinpath (parent p) (stem ++ s).

End Path.

Abbreviation path := (list string).
Infix "</>" := Path.joinpath (at level 40, left associativity).

(** ** Glob patterns

    [fnmatch] as used by [Path.glob] on a single component: [*] matches
    any run of characters, [?] one character, anything else itself
    (case-sensitively, as on POSIX). *)

Fixpoint fnmatch (pat : string) : string -> bool :=
  match pat with
  | EmptyString =>
      fun s => match s with EmptyString => true | String _ _ => false end
  | String c pat' =>
      if Ascii.eqb c "*" then
        fix star (s : string) : bool :=
          fnmatch pat' s ||
          match s with
          | EmptyString => false
          | String _ s' => star s'
          end
      else if Ascii.eqb c "?" then
        fun s =>
          match s with
          | EmptyString => false
          | String _ s' => fnmatch pat' s'
          end
      else
        fun s =>
          match s with
          | EmptyString => false
          | String d s' => Ascii.eqb c d && fnmatch pat' s'
          end
  end.

(** [str.startswith]. *)
Definition startswith (s pre : string) : bool := String.prefix pre s.

(** ** Python dictionaries and JSON values

    A dictionary is kept in insertion order, as Python keeps it:
    iteration order decides the order in which files are processed.
    Keys are unique in every dictionary Python builds; [dict_get] reads
    the first binding and [dict_set] rewrites it in place or appends. *)

Definition dict (V : Type) := list (string * V).

Fixpoint dict_get {V} (k : string) (d : dict V) : option V :=
  match d with
  | [] => None
  | (k', v) :: d' => if String.eqb k' k then Some v else dict_get k d'
  end.

Fixpoint dict_set {V} (k : string) (v : V) (d : dict V) : dict V :=
  match d with
  | [] => [(k, v)]
  | (k', v') :: d' =>
      if String.eqb k' k then (k', v) :: d' else (k', v') :: dict_set k v d'
  end.

Definition dict_contains {V} (k : string) (d : dict V) : bool :=
  match dict_get k d with Some _ => true | None => false end.

Definition dict_keys {V} (d : dict V) : list string := map fst d.

(** The values [json.load] produces. *)
#[warnings="-register-all"]
Inductive json :=
| JNull
| JBool (b : bool)
| JInt (n : Z)
| JFloat (repr : string)
| JStr (s : string)
| JList (l : list json)
| JDict (d : list (string * json)).

(** ** Time *)

Record datetime := Datetime {
  year : nat; month : nat; day : nat;
  hour : nat; minute : nat; second : nat
}.

Definition digit (n : nat) : ascii := ascii_of_nat (48 + n mod 10).

Definition pad2 (n : nat) : string :=
  String (digit (n / 10)) (String (digit n) "").

Definition pad4 (n : nat) : string :=
  String (digit (n / 1000)) (String (digit (n / 100)) (pad2 n)).

(** [now.strftime("%Y-%m-%d")] *)
Definition strftime_date (d : datetime) : string :=
  pad4 (year d) ++ "-" ++ pad2 (month d) ++ "-" ++ pad2 (day d).

(** [now.strftime("%H:%M:%S")] *)
Definition strftime_time (d : datetime) : string :=
  pad2 (hour d) ++ ":" ++ pad2 (minute d) ++ ":" ++ pad2 (second d).

(** ** The file system and the world *)

Inductive node :=
| File (content : string) (mtime : datetime)
| Dir.

(** The world a run acts on: the file tree, and a clock given as the
    sequence of its readings together with the number of readings
    already taken by [datetime.now()]. *)
Record world := World {
  files : gmap path node;
  clock : nat -> datetime;
  ticks : nat
}.

Definition set_files (f : gmap path node -> gmap path node) (w : world) : world :=
  {| files := f (files w); clock := clock w; ticks := ticks w |}.

Definition current_time (w : world) : datetime := clock w (ticks w).

(** ** Exceptions and the monad of the script *)

Inductive exn :=
| FileNotFoundError
| FileExistsError
| IsADirectoryError
| NotADirectoryError
| SameFileError
| JSONDecodeError
| TypeError
| AttributeError.

Inductive outcome (A : Type) :=
| Return (a : A)
| Raise (e : exn).
Arguments Return {A} a.
Arguments Raise {A} e.

(** A computation transforms the world and either returns or raises;
    effects made before an exception persist. *)
Definition IO (A : Type) : Type := world -> world * outcome A.

Definition ret {A} (a : A) : IO A := fun w => (w, Return a).

Definition raise {A} (e : exn) : IO A := fun w => (w, Raise e).

Definition bind {A B} (m : IO A) (k : A -> IO B) : IO B :=
  fun w =>
    match m w with
    | (w', Return a) => k a w'
    | (w', Raise e) => (w', Raise e)
    end.

(** [try: m  except Exception as e: h e] *)
Definition try_except {A} (m : IO A) (h : exn -> IO A) : IO A :=
  fun w =>
    match m w with
    | (w', Return a) => (w', Return a)
    | (w', Raise e) => h e w'
    end.

Declare Scope io_scope.
Delimit Scope io_scope with io.
Notation "x <- m ;; k" := (bind m (fun x => k))
  (at level 100, m at next level, right associativity) : io_scope.
Notation "m ;;; k" := (bind m (fun _ => k))
  (at level 100, right associativity) : io_scope.
Local Open Scope io_scope.

(** [for x in l: s = body x s], with the loop-carried state [s]. *)
Fixpoint for_each {A S} (l : list A) (body : A -> S -> IO S) (s : S) : IO S :=
  match l with
  | [] => ret s
  | x :: l' => s' <- body x s ;; for_each l' body s'
  end.

(** ** File-system primitives *)

Definition lookup_node (p : path) (w : world) : option node := files w !! p.

(** [Path.exists] *)
Definition path_exists (p : path) : IO bool :=
  fun w => (w, Return (match lookup_node p w with Some _ => true | None => false end)).

(** [Path.is_dir] *)
Definition is_dir (p : path) : IO bool :=
  fun w => (w, Return (match lookup_node p w with Some Dir => true | _ => false end)).

(** [open(p, "r").read()] *)
Definition read_file (p : path) : IO string :=
  fun w =>
    match lookup_node p w with
    | Some (File c _) => (w, Return c)
    | Some Dir => (w, Raise IsADirectoryError)
    | None => (w, Raise FileNotFoundError)
    end.

(** [open(p, "w")], write [c], close: the directory holding [p] must
    exist; the file is created or truncated and stamped with the
    current time. *)
Definition write_file (p : path) (c : string) : IO unit :=
  fun w =>
    match lookup_node p w with
    | Some Dir => (w, Raise IsADirectoryError)
    | _ =>
        match lookup_node (Path.parent p) w with
        | Some Dir => (set_files (insert p (File c (current_time w))) w, Return tt)
        | Some (File _ _) => (w, Raise NotADirectoryError)
        | None => (w, Raise FileNotFoundError)
        end
    end.

(** [os.mkdir] *)
Definition os_mkdir (p : path) : IO unit :=
  fun w =>
    match lookup_node p w with
    | Some _ => (w, Raise FileExistsError)
    | None =>
        match lookup_node (Path.parent p) w with
        | Some Dir => (set_files (insert p Dir) w, Return tt)
        | Some (File _ _) => (w, Raise NotADirectoryError)
        | None => (w, Raise FileNotFoundError)
        end
    end.

(** [Path.mkdir(parents=False, exist_ok=True)] *)
Definition mkdir_exist_ok (p : path) : IO unit :=
  try_except (os_mkdir p)
    (fun e =>
       match e with
       | FileNotFoundError => raise e
       | _ => d <- is_dir p ;; if d then ret tt else raise e
       end).

(** [Path.mkdir(parents=True, exist_ok=True)], as pathlib writes it:
    try [os.mkdir]; when the parent is missing, make the parent first
    and retry; any other error is forgiven when the path is already a
    directory. *)
Fixpoint mkdir_parents (p : path) : IO unit :=
  try_except (os_mkdir p)
    (fun e =>
       match e with
       | FileNotFoundError =>
           match p with
           | [] => raise e
           | _ :: q => mkdir_parents q ;;; mkdir_exist_ok p
           end
       | _ => d <- is_dir p ;; if d then ret tt else raise e
       end).

(** [Path.unlink] *)
Definition unlink (p : path) : IO unit :=
  fun w =>
    match lookup_node p w with
    | Some (File _ _) => (set_files (delete p) w, Return tt)
    | Some Dir => (w, Raise IsADirectoryError)
    | None => (w, Raise FileNotFoundError)
    end.

(** [Path.replace]: rename a regular file over [target].  The script
    renames only the temporary manifest it has just written. *)
Definition replace (p target : path) : IO unit :=
  fun w =>
    match lookup_node p w with
    | None => (w, Raise FileNotFoundError)
    | Some Dir => (w, Raise IsADirectoryError)
    | Some (File c m) =>
        match lookup_node target w with
        | Some Dir => (w, Raise IsADirectoryError)
        | _ =>
            match lookup_node (Path.parent target) w with
            | Some Dir =>
                (set_files (fun fs => delete p (<[target := File c m]> fs)) w,
                 Return tt)
            | Some (File _ _) => (w, Raise NotADirectoryError)
            | None => (w, Raise FileNotFoundError)
            end
        end
    end.

(** [q] lies directly in [p]. *)
Definition child_of (p q : path) : Prop := q <> [] /\ Path.parent q = p.

#[global] Instance child_of_dec p q : Decision (child_of p q) := _.

(** The entries of directory [p], in the order the system lists them. *)
Definition children (fs : gmap path node) (p : path) : list path :=
  filter (child_of p) (map_to_list fs).*1.

(** [Path.iterdir], consumed at once. *)
Definition iterdir (p : path) : IO (list path) :=
  fun w =>
    match lookup_node p w with
    | Some Dir => (w, Return (children (files w) p))
    | Some (File _ _) => (w, Raise NotADirectoryError)
    | None => (w, Raise FileNotFoundError)
    end.

(** [list(Path.glob(pat))] for a one-component pattern: nothing is
    found below a path that is not a directory. *)
Definition glob (p : path) (pat : string) : IO (list path) :=
  fun w =>
    match lookup_node p w with
    | Some Dir =>
        (w, Return (filter (fun q => Is_true (fnmatch pat (Path.name q)))
                           (children (files w) p)))
    | _ => (w, Return [])
    end.

(** Paths of one directory compare by their final component. *)
Definition path_le (p q : path) : Prop :=
  Is_true (String.leb (Path.name p) (Path.name q)).

#[global] Instance path_le_dec (p q : path) : Decision (path_le p q) := _.

(** [sorted(paths)] *)
Definition sorted (l : list path) : list path := merge_sort path_le l.

(** [datetime.datetime.now()]: takes the next reading of the clock. *)
Definition datetime_now : IO datetime :=
  fun w =>
    ({| files := files w; clock := clock w; ticks := S (ticks w) |},
     Return (current_time w)).

(** ** The script *)

Definition BEST_MODELS_FILENAME : string := "best_models.json".

(** The pattern both [sync_all_models] and [cleanup_old_models] glob
    for. *)
Definition MODEL_GLOB : string := "model_*.json".

(** The command-line arguments [main] reads, with the two roots already
    resolved to paths. *)
Record args := Args {
  arg_src : path;
  arg_dest : path;
  arg_all : bool;
  arg_cleanup : bool;
  arg_overwrite : bool;
  arg_dry_run : bool
}.

Section Script.

(** [hashlib.md5(...).hexdigest()] of a content. *)
Variable md5 : string -> string.

(** [json.load]: [None] when the text does not parse. *)
Variable json_load : string -> option json.

(** [json.dump(data, indent=2, ensure_ascii=False)] *)
Variable json_dump : json -> string.

Definition read_json (p : path) : IO json :=
  text <- read_file p ;;
  match json_load text with
  | Some j => ret j
  | None => raise JSONDecodeError
  end.

Definition write_json (p : path) (data : json) : IO unit :=
  let tmp := Path.with_suffix p (Path.suffix p ++ ".tmp") in
  write_file tmp (json_dump data ++ String "010" "") ;;;
  replace tmp p.

Definition file_md5 (p : path) : IO string :=
  c <- read_file p ;; ret (md5 c).

Definition ensure_dir (p : path) : IO unit := mkdir_parents p.

Definition files_identical (src dst : path) : IO bool :=
  e <- path_exists dst ;;
  if negb e then ret false
  else
    try_except
      (a <- file_md5 src ;; b <- file_md5 dst ;; ret (String.eqb a b))
      (fun _ => ret false).

(** [shutil.copy2]: a directory destination receives the file under
    the source's name; content and modification time are copied. *)
Definition copy2 (src dst : path) : IO unit :=
  d <- is_dir dst ;;
  let dst := if d then dst </> Path.name src else dst in
  if decide (src = dst) then raise SameFileError
  else
    fun w =>
      match lookup_node src w with
      | None => (w, Raise FileNotFoundError)
      | Some Dir => (w, Raise IsADirectoryError)
      | Some (File c m) =>
          match lookup_node dst w with
          | Some Dir => (w, Raise IsADirectoryError)
          | _ =>
              match lookup_node (Path.parent dst) w with
              | Some Dir => (set_files (insert dst (File c m)) w, Return tt)
              | Some (File _ _) => (w, Raise NotADirectoryError)
              | None => (w, Raise FileNotFoundError)
              end
          end
      end.

(** [copy] is the part of the function after the [if dest_file.exists()]
    block, reached when neither [return False] was taken. *)
Definition copy_model_file (src_file dest_file : path)
    (overwrite dry_run : bool) : IO bool :=
  let copy : IO bool :=
    if dry_run then ret true
    else
      ensure_dir (Path.parent dest_file) ;;;
      copy2 src_file dest_file ;;;
      ret true in
  e <- path_exists dest_file ;;
  if e then
    same <- files_identical src_file dest_file ;;
    if same then ret false
    else if negb overwrite then ret false
    else copy
  else copy.

(** [d.items()]: only a dictionary has the method.  (Under [verbose]
    the script calls [len] on the value first, which for some values
    raises earlier; either way nothing has been done yet.) *)
Definition items (j : json) : IO (list (string * json)) :=
  match j with
  | JDict d => ret d
  | _ => raise AttributeError
  end.

(** [isinstance(entry, dict) and "model_file" in entry] *)
Definition has_model_file (entry : json) : bool :=
  match entry with
  | JDict d => dict_contains "model_file" d
  | _ => false
  end.

(** [entry["model_file"]], read after [has_model_file]. *)
Definition model_file_of (entry : json) : json :=
  match entry with
  | JDict d => default JNull (dict_get "model_file" d)
  | _ => JNull
  end.

(** The body of the loop of [sync_best_models], for one manifest
    entry. *)
Definition sync_best_entry (src_models_dir dest_models_dir : path)
    (overwrite dry_run : bool) (item : string * json)
    (synced_models : dict string) : IO (dict string) :=
  let '(ruleset, entry) := item in
  if negb (has_model_file entry) then ret synced_models
  else
    match model_file_of entry with
    | JStr model_filename =>
        let src_model_file := src_models_dir </> ruleset </> model_filename in
        let dest_model_file := dest_models_dir </> ruleset </> model_filename in
        e <- path_exists src_model_file ;;
        if negb e then ret synced_models
        else
          copied <- copy_model_file src_model_file dest_model_file
                      overwrite dry_run ;;
          ret (if copied
               then dict_set ruleset model_filename synced_models
               else synced_models)
    | _ =>
        (* a path joined with anything but a string *)
        raise TypeError
    end.

Definition sync_best_models (src_models_dir dest_models_dir : path)
    (overwrite dry_run : bool) : IO (dict string) :=
  let src_best_json := src_models_dir </> BEST_MODELS_FILENAME in
  e <- path_exists src_best_json ;;
  if negb e then ret []
  else
    r <- try_except (j <- read_json src_best_json ;; ret (Some j))
                    (fun _ => ret None) ;;
    match r with
    | None => ret []
    | Some src_best =>
        entries <- items src_best ;;
        for_each entries
          (sync_best_entry src_models_dir dest_models_dir overwrite dry_run)
          []
    end.

(** [not d.is_dir() or d.name.startswith('.')] *)
Definition skipped_dir (d : path) : IO bool :=
  b <- is_dir d ;; ret (negb b || startswith (Path.name d) ".").

(** The body of the inner loop of [sync_all_models], for one model
    file of a ruleset. *)
Definition sync_all_file (dest_models_dir : path) (overwrite dry_run : bool)
    (ruleset : string) (model_file : path) (synced_models : dict string)
    : IO (dict string) :=
  let dest_model_file := dest_models_dir </> ruleset </> Path.name model_file in
  copied <- copy_model_file model_file dest_model_file overwrite dry_run ;;
  ret (if copied
       then dict_set ruleset (Path.name model_file) synced_models
       else synced_models).

(** The body of the outer loop, for one entry of the source root. *)
Definition sync_all_ruleset (dest_models_dir : path) (overwrite dry_run : bool)
    (ruleset_dir : path) (synced_models : dict string) : IO (dict string) :=
  skip <- skipped_dir ruleset_dir ;;
  if skip then ret synced_models
  else
    let ruleset := Path.name ruleset_dir in
    found <- glob ruleset_dir MODEL_GLOB ;;
    let model_files := sorted found in
    for_each model_files
      (sync_all_file dest_models_dir overwrite dry_run ruleset)
      synced_models.

Definition sync_all_models (src_models_dir dest_models_dir : path)
    (overwrite dry_run : bool) : IO (dict string) :=
  dirs <- iterdir src_models_dir ;;
  for_each dirs (sync_all_ruleset dest_models_dir overwrite dry_run) [].

(** [best_model_files.add((ruleset, entry["model_file"]))]: a list or
    a dictionary cannot be hashed, and adding it raises. *)
Definition add_best (ruleset : string) (v : json)
    (s : list (string * json)) : IO (list (string * json)) :=
  match v with
  | JList _ | JDict _ => raise TypeError
  | _ => ret ((ruleset, v) :: s)
  end.

(** [(ruleset, name) in best_model_files]: a tuple equals one of the
    set when the rulesets agree and the stored value is the string
    [name]. *)
Definition is_best (ruleset name : string) (s : list (string * json)) : bool :=
  existsb (fun '(r, v) =>
             String.eqb r ruleset &&
             match v with JStr f => String.eqb f name | _ => false end)
          s.

(** The first loop of [cleanup_old_models]: the set of best model
    files, from the entries of the manifest. *)
Definition collect_best (item : string * json) (best : list (string * json))
    : IO (list (string * json)) :=
  let '(ruleset, entry) := item in
  if has_model_file entry
  then add_best ruleset (model_file_of entry) best
  else ret best.

(** The body of the inner loop, for one model file of a ruleset. *)
Definition cleanup_file (best_model_files : list (string * json))
    (dry_run : bool) (ruleset : string) (model_file : path)
    (deleted_count : nat) : IO nat :=
  if is_best ruleset (Path.name model_file) best_model_files
  then ret deleted_count
  else if dry_run then ret deleted_count
  else
    unlink model_file ;;;
    ret (S deleted_count).

(** The body of the outer loop, for one entry of the destination root. *)
Definition cleanup_ruleset (best_model_files : list (string * json))
    (dry_run : bool) (ruleset_dir : path) (deleted_count : nat) : IO nat :=
  skip <- skipped_dir ruleset_dir ;;
  if skip then ret deleted_count
  else
    let ruleset := Path.name ruleset_dir in
    model_files <- glob ruleset_dir MODEL_GLOB ;;
    for_each model_files
      (cleanup_file best_model_files dry_run ruleset)
      deleted_count.

Definition cleanup_old_models (dest_models_dir : path) (dry_run : bool)
    : IO unit :=
  let dest_best_json := dest_models_dir </> BEST_MODELS_FILENAME in
  e <- path_exists dest_best_json ;;
  if negb e then ret tt
  else
    r <- try_except (j <- read_json dest_best_json ;; ret (Some j))
                    (fun _ => ret None) ;;
    match r with
    | None => ret tt
    | Some dest_best =>
        entries <- items dest_best ;;
        best_model_files <- for_each entries collect_best [] ;;
        dirs <- iterdir dest_models_dir ;;
        for_each dirs (cleanup_ruleset best_model_files dry_run) 0 ;;;
        ret tt
    end.

(** The manifest entry written for a synced model. *)
Definition best_entry (model_filename : string) (now : datetime) : json :=
  JDict [("model_file", JStr model_filename);
         ("date", JStr (strftime_date now));
         ("time", JStr (strftime_time now))].

(** [dest_best[ruleset] = entry]: only a dictionary takes a string
    key. *)
Definition setitem (j : json) (k : string) (v : json) : IO json :=
  match j with
  | JDict d => ret (JDict (dict_set k v d))
  | _ => raise TypeError
  end.

Definition update_dest_best_models (dest_models_dir : path)
    (synced_models : dict string) (dry_run : bool) : IO unit :=
  match synced_models with
  | [] => ret tt
  | _ =>
      let dest_best_json := dest_models_dir </> BEST_MODELS_FILENAME in
      e <- path_exists dest_best_json ;;
      dest_best <-
        (if e then try_except (read_json dest_best_json)
                              (fun _ => ret (JDict []))
         else ret (JDict [])) ;;
      now <- datetime_now ;;
      dest_best <-
        for_each synced_models
          (fun '(ruleset, model_filename) dest_best =>
             setitem dest_best ruleset (best_entry model_filename now))
          dest_best ;;
      if dry_run then ret tt
      else write_json dest_best_json dest_best
  end.

Definition main (a : args) : IO nat :=
  e <- path_exists (arg_src a) ;;
  if negb e then ret 2
  else
    synced_models <-
      (if arg_all a
       then sync_all_models (arg_src a) (arg_dest a) (arg_overwrite a) (arg_dry_run a)
       else sync_best_models (arg_src a) (arg_dest a) (arg_overwrite a) (arg_dry_run a)) ;;
    match synced_models with
    | [] => ret tt
    | _ => update_dest_best_models (arg_dest a) synced_models (arg_dry_run a)
    end ;;;
    (if arg_cleanup a
     then cleanup_old_models (arg_dest a) (arg_dry_run a)
     else ret tt) ;;;
    ret 0.

(** ** Specification-side readings of the file system *)

(** The identity check as a function of the tree: the destination
    exists and both paths are regular files with equal digests. *)
Definition identical (fs : gmap path node) (src dst : path) : bool :=
  match fs !! src, fs !! dst with
  | Some (File cs _), Some (File cd _) => String.eqb (md5 cs) (md5 cd)
  | _, _ => false
  end.

(** The copy decision as a function of the tree. *)
Definition would_copy (fs : gmap path node) (src dst : path) (overwrite : bool)
    : bool :=
  match fs !! dst with
  | None => true
  | Some _ => negb (identical fs src dst) && overwrite
  end.

(** *** Sync-best, read off the tree *)

(** The entries [sync_best_models] loops over: those of the source
    manifest when it reads as a mapping, none otherwise. *)
Definition source_entries (fs : gmap path node) (src_models_dir : path)
    : list (string * json) :=
  match fs !! (src_models_dir </> BEST_MODELS_FILENAME) with
  | Some (File text _) =>
      match json_load text with
      | Some (JDict d) => d
      | _ => []
      end
  | _ => []
  end.

(** [quiet fs src dest overwrite item]: in the tree [fs] the loop body
    of [sync_best_models] passes over [item] without a copy and
    without an error. *)
Definition quiet (fs : gmap path node) (src_models_dir dest_models_dir : path)
    (overwrite : bool) (item : string * json) : bool :=
  let '(ruleset, entry) := item in
  if negb (has_model_file entry) then true
  else
    match model_file_of entry with
    | JStr model_filename =>
        let src_model_file := src_models_dir </> ruleset </> model_filename in
        let dest_model_file := dest_models_dir </> ruleset </> model_filename in
        match fs !! src_model_file with
        | None => true
        | Some _ => negb (would_copy fs src_model_file dest_model_file overwrite)
        end
    | _ => false
    end.

(** *** The copies of a sync-all run, as a trace

    A second reading of [sync_all_models], for comparison with the
    first: the same two loops, but recording every call of
    [copy_model_file] with its ruleset, file name and return value,
    in the order of the calls. *)

Definition trace_file (dest_models_dir : path) (overwrite dry_run : bool)
    (ruleset : string) (model_file : path)
    (trace : list (string * string * bool)) : IO (list (string * string * bool)) :=
  let dest_model_file := dest_models_dir </> ruleset </> Path.name model_file in
  copied <- copy_model_file model_file dest_model_file overwrite dry_run ;;
  ret (trace ++ [(ruleset, Path.name model_file, copied)]).

Definition trace_ruleset (dest_models_dir : path) (overwrite dry_run : bool)
    (ruleset_dir : path) (trace : list (string * string * bool))
    : IO (list (string * string * bool)) :=
  skip <- skipped_dir ruleset_dir ;;
  if skip then ret trace
  else
    found <- glob ruleset_dir MODEL_GLOB ;;
    for_each (sorted found)
      (trace_file dest_models_dir overwrite dry_run (Path.name ruleset_dir))
      trace.

Definition sync_all_trace (src_models_dir dest_models_dir : path)
    (overwrite dry_run : bool) : IO (list (string * string * bool)) :=
  dirs <- iterdir src_models_dir ;;
  for_each dirs (trace_ruleset dest_models_dir overwrite dry_run) [].

(** The calls a dry sync-all makes for one entry of the source root, as
    a function of the tree: for a directory that is not hidden, its
    entries matching the model glob, in ascending name order, each with
    the copy decision. *)
Definition dry_events (fs : gmap path node) (dest_models_dir : path)
    (overwrite : bool) (ruleset_dir : path) : list (string * string * bool) :=
  match fs !! ruleset_dir with
  | Some Dir =>
      if startswith (Path.name ruleset_dir) "." then []
      else
        map (fun model_file =>
               (Path.name ruleset_dir, Path.name model_file,
                would_copy fs model_file
                  (dest_models_dir </> Path.name ruleset_dir
                                   </> Path.name model_file)
                  overwrite))
            (sorted (filter (fun q => Is_true (fnmatch MODEL_GLOB (Path.name q)))
                            (children fs ruleset_dir)))
  | _ => []
  end.

End Script.

(** ** Specification-side definitions

    Predicates and functions in which the properties below are stated;
    none of them is part of the script. *)

(** *** Sync-best *)

(** Neither root lies in the other. *)
Definition disjoint_roots (src dest : path) : Prop :=
  ~ src `suffix_of` dest /\ ~ dest `suffix_of` src.

(** The destination path of a manifest entry is a directory. *)
Definition dest_is_dir (fs : gmap path node) (dest_models_dir : path)
    (item : string * json) : bool :=
  match model_file_of (snd item) with
  | JStr model_filename =>
      match fs !! (dest_models_dir </> fst item </> model_filename) with
      | Some Dir => true
      | _ => false
      end
  | _ => false
  end.

(** No manifest entry of [d] has a directory where its model file
    goes. *)
Definition no_dir_targets (fs : gmap path node) (dest_models_dir : path)
    (d : list (string * json)) : bool :=
  forallb (fun item => negb (dest_is_dir fs dest_models_dir item)) d.

(** What one live copy to [target] may change: [target] itself, which
    is then a regular file, and missing paths on the way to it, which
    become directories. *)
Definition copy_frame (w w' : world) (target : path) : Prop :=
  forall x : path,
    files w' !! x = files w !! x \/
    (x = target /\ exists c m, files w' !! x = Some (File c m)) \/
    (files w !! x = None /\ files w' !! x = Some Dir /\
     x `suffix_of` Path.parent target /\ x <> []).

(** *** Sync-all *)

(** [m], with [f] applied to what it returns. *)
Definition io_map {A B} (f : A -> B) (m : IO A) : IO B :=
  a <- m ;; ret (f a).

(** The sync result a trace leads to: every copy overwrites the entry
    of its ruleset. *)
Definition record (trace : list (string * string * bool))
    (synced_models : dict string) : dict string :=
  fold_left (fun synced '(ruleset, name, copied) =>
               if copied : bool then dict_set ruleset name synced else synced)
            trace synced_models.

(** The name of the last copy of a trace for [ruleset]. *)
Definition last_copied (ruleset : string)
    (trace : list (string * string * bool)) : option string :=
  fold_left (fun acc '(r, name, copied) =>
               if copied && String.eqb r ruleset then Some name else acc)
            trace None.

(** The file names of a trace for [ruleset], in the order of the
    calls. *)
Definition names_of (ruleset : string)
    (trace : list (string * string * bool)) : list string :=
  map (fun e => snd (fst e))
      (filter (fun e => fst (fst e) = ruleset) trace).

(** Ascending order of names, by code point. *)
Definition string_le (a b : string) : Prop := Is_true (String.leb a b).

(** [ordered_trace pending tr]: in the trace [tr] the file names of every
    ruleset ascend, match the model glob and belong to a ruleset that is
    not hidden; the rulesets of the directories still [pending] have no
    call yet. *)
Definition ordered_trace (pending : list path)
    (tr : list (string * string * bool)) : Prop :=
  forall c,
    StronglySorted string_le (names_of c tr) /\
    (c ∈ map Path.name pending -> names_of c tr = []) /\
    (forall n, n ∈ names_of c tr ->
               fnmatch MODEL_GLOB n = true /\ startswith c "." = false).

(** *** The manifest update *)

(** The manifest [update_dest_best_models] starts from: the mapping
    read from the destination manifest, or a fresh one when the file is
    missing or cannot be read; [None] when the file holds JSON that is
    not a mapping. *)
Definition existing_manifest (json_load : string -> option json)
    (w : world) (dest : path) : option (dict json) :=
  match files w !! (dest </> BEST_MODELS_FILENAME) with
  | Some (File text _) =>
      match json_load text with
      | Some (JDict d) => Some d
      | Some _ => None
      | None => Some []
      end
  | _ => Some []
  end.

(** The upserts of one update, all stamped [now]. *)
Definition upsert_all (now : datetime) (synced_models : dict string)
    (d : dict json) : dict json :=
  fold_left (fun d '(ruleset, model_filename) =>
               dict_set ruleset (best_entry model_filename now) d)
            synced_models d.

Definition is_digit (c : ascii) : bool :=
  Nat.leb 48 (nat_of_ascii c) && Nat.leb (nat_of_ascii c) 57.

(** The shape [dddd-dd-dd]. *)
Definition date_format (s : string) : bool :=
  match s with
  | String y1 (String y2 (String y3 (String y4 (String s1
      (String m1 (String m2 (String s2 (String d1 (String d2 "")))))))))
    => forallb is_digit [y1; y2; y3; y4; m1; m2; d1; d2] &&
       Ascii.eqb s1 "-" && Ascii.eqb s2 "-"
  | _ => false
  end.

(** The shape [dd:dd:dd]. *)
Definition time_format (s : string) : bool :=
  match s with
  | String h1 (String h2 (String s1 (String m1 (String m2 (String s2
      (String c1 (String c2 "")))))))
    => forallb is_digit [h1; h2; m1; m2; c1; c2] &&
       Ascii.eqb s1 ":" && Ascii.eqb s2 ":"
  | _ => false
  end.

(** *** Directory creation *)

(** [creatable fs p]: [p] is a directory, or is missing below a chain
    of missing paths that ends in a directory. *)
Fixpoint creatable (fs : gmap path node) (p : path) : bool :=
  match fs !! p with
  | Some Dir => true
  | Some (File _ _) => false
  | None =>
      match p with
      | [] => false
      | _ :: q => creatable fs q
      end
  end.

(** What a successful [mkdir_parents p] may change: paths that were
    missing and lie on the way to [p] become directories. *)
Definition mkdir_frame (w w' : world) (p : path) : Prop :=
  clock w' = clock w /\ ticks w' = ticks w /\
  forall x : path,
    files w' !! x = files w !! x \/
    (files w !! x = None /\ files w' !! x = Some Dir /\
     x `suffix_of` p /\ x <> []).

(** *** Cleanup *)

(** [(ruleset, name)] is the pair of a well-formed entry of the
    manifest [d]. *)
Definition is_referenced (d : dict json) (ruleset name : string) : bool :=
  existsb (fun '(r, entry) =>
             String.eqb r ruleset && has_model_file entry &&
             match model_file_of entry with
             | JStr f => String.eqb f name
             | _ => false
             end)
          d.

(** Every [model_file] value of the manifest can be hashed, so that
    building the set of best files does not raise. *)
Definition hashable (v : json) : bool :=
  match v with
  | JList _ | JDict _ => false
  | _ => true
  end.

Definition manifest_hashable (d : dict json) : bool :=
  forallb (fun '(_, entry) =>
             negb (has_model_file entry) || hashable (model_file_of entry))
          d.

(** [stale fs dest d p]: [p] is an entry [dest/ruleset/name] of the tree
    [fs] whose ruleset is a directory that is not hidden, whose name
    matches the model glob, and whose pair the manifest [d] does not
    reference. *)
Definition stale (fs : gmap path node) (dest : path) (d : dict json)
    (p : path) : bool :=
  match p with
  | name :: ruleset :: root =>
      bool_decide (root = dest) &&
      match fs !! (dest </> ruleset) with Some Dir => true | _ => false end &&
      negb (startswith ruleset ".") &&
      fnmatch MODEL_GLOB name &&
      match fs !! p with Some _ => true | None => false end &&
      negb (is_referenced d ruleset name)
  | _ => false
  end.

(** [only_deletes Q w w']: from [w] to [w'] nothing changed but that
    some regular files satisfying [Q] are gone. *)
Definition only_deletes (Q : path -> Prop) (w w' : world) : Prop :=
  clock w' = clock w /\ ticks w' = ticks w /\
  forall p : path,
    files w' !! p = files w !! p \/
    (Q p /\ files w' !! p = None /\ exists c t, files w !! p = Some (File c t)).

(** The paths the cleanup pass can reach: [dest/ruleset/name] with a
    ruleset that is not hidden and a name matching the model glob. *)
Definition unlinkable (dest : path) (p : path) : Prop :=
  exists name ruleset,
    p = dest </> ruleset </> name /\
    fnmatch MODEL_GLOB name = true /\
    startswith ruleset "." = false.

(** [doomed w ds best p]: [p] is an entry the cleanup pass unlinks when
    it scans the directories [ds] of [w] with the set [best]. *)
Definition doomed (w : world) (ds : list path) (best : list (string * json))
    (p : path) : Prop :=
  exists d, d ∈ ds /\ files w !! d = Some Dir /\
    startswith (Path.name d) "." = false /\
    child_of d p /\ fnmatch MODEL_GLOB (Path.name p) = true /\
    is_Some (files w !! p) /\
    is_best (Path.name d) (Path.name p) best = false.

(** *** Dry runs *)

(** A computation that leaves the file tree as it found it, whether
    it returns or raises. *)
Definition keeps_files {A} (m : IO A) : Prop :=
  forall w, files (fst (m w)) = files w.

(** *** What a sync may change *)

(** [sync_frame dest w w']: from [w] to [w'] every path is as before,
    or was missing and is now a directory on the way to a ruleset
    directory of [dest], or was no directory and is now a regular file
    at a model path [dest/ruleset/name] (or [dest/ruleset/name/name],
    where [shutil.copy2] writes when [dest/ruleset/name] is a
    directory). *)
Definition sync_frame (dest : path) (w w' : world) : Prop :=
  clock w' = clock w /\ ticks w' = ticks w /\
  forall x : path,
    files w' !! x = files w !! x \/
    (files w !! x = None /\ files w' !! x = Some Dir /\
     exists ruleset, x `suffix_of` dest </> ruleset) \/
    (files w !! x <> Some Dir /\
     (exists c m, files w' !! x = Some (File c m)) /\
     exists ruleset name,
       x = dest </> ruleset </> name \/ x = dest </> ruleset </> name </> name).

(** *** Plain names *)

(** A name that [pathlib] joins to a path as the single component it
    is: not empty, neither "." nor "..", and free of separators (slash
    and backslash) and of the null character. *)
Fixpoint free_of_separators (s : string) : bool :=
  match s with
  | EmptyString => true
  | String c s' =>
      negb (Ascii.eqb c "/") && negb (Ascii.eqb c "092") &&
      negb (Ascii.eqb c "000") && free_of_separators s'
  end.

Definition plain_name (s : string) : bool :=
  negb (String.eqb s "") && negb (String.eqb s ".") &&
  negb (String.eqb s "..") && free_of_separators s.

(** The ruleset and the model file name of a manifest entry are
    plain. *)
Definition plain_entry (item : string * json) : bool :=
  plain_name (fst item) &&
  match model_file_of (snd item) with
  | JStr model_filename => plain_name model_filename
  | _ => true
  end.

Definition plain_manifest (d : list (string * json)) : bool :=
  forallb plain_entry d.

(** ** Sample data

    Small concrete worlds on which the properties below are exercised. *)

Definition sample_time : datetime := Datetime 2024 1 2 3 4 5.

Definition sample_clock (n : nat) : datetime := Datetime 2025 6 7 8 9 n.

Definition sample_md5 (content : string) : string := content.

Definition double_quote : string := String "034" "".

Definition quoted (s : string) : string :=
  double_quote +:+ s +:+ double_quote.

(** A serializer for the samples: the compact form of [json.dumps],
    for strings that need no escapes. *)
Fixpoint sample_json_dump (j : json) : string :=
  match j with
  | JNull => "null"
  | JBool b => if b then "true" else "false"
  | JInt n => pretty n
  | JFloat repr => repr
  | JStr s => quoted s
  | JList l =>
      "[" +:+
      (fix elements (l : list json) : string :=
         match l with
         | [] => ""
         | [x] => sample_json_dump x
         | x :: l' => sample_json_dump x +:+ ", " +:+ elements l'
         end) l +:+ "]"
  | JDict d =>
      "{" +:+
      (fix members (d : list (string * json)) : string :=
         match d with
         | [] => ""
         | [(k, v)] => quoted k +:+ ": " +:+ sample_json_dump v
         | (k, v) :: d' =>
             quoted k +:+ ": " +:+ sample_json_dump v +:+ ", " +:+ members d'
         end) d +:+ "}"
  end.

(** A manifest naming [model_001.json] as the best model of ruleset
    [A]. *)
Definition sample_manifest : dict json :=
  [("A", JDict [("model_file", JStr "model_001.json");
                ("date", JStr "2024-01-02");
                ("time", JStr "03:04:05")])].

Definition sample_manifest_text : string :=
  sample_json_dump (JDict sample_manifest).

(** [json.load] on the texts the samples hold. *)
Definition sample_json_load (text : string) : option json :=
  if String.eqb text sample_manifest_text then Some (JDict sample_manifest)
  else if String.eqb text "{}" then Some (JDict [])
  else None.

(** Source and destination both hold ruleset [A]; the destination copy
    of [model_001.json] differs from the source's, and the destination
    also holds a second model file, a file that is no model, and a
    hidden directory. *)
Definition sample_world : world :=
  World
    (list_to_map
       [([], Dir); (["src"], Dir); (["dest"], Dir);
        (["best_models.json"; "src"], File sample_manifest_text sample_time);
        (["A"; "src"], Dir);
        (["model_001.json"; "A"; "src"], File "one" sample_time);
        (["best_models.json"; "dest"], File sample_manifest_text sample_time);
        (["A"; "dest"], Dir);
        (["model_001.json"; "A"; "dest"], File "older" sample_time);
        (["model_000.json"; "A"; "dest"], File "zero" sample_time);
        (["notes.txt"; "A"; "dest"], File "notes" sample_time);
        ([".cache"; "dest"], Dir);
        (["model_009.json"; ".cache"; "dest"], File "nine" sample_time)])
    sample_clock 0.

(** As [sample_world], with a directory named like a model file in the
    destination ruleset. *)
Definition sample_world_dir : world :=
  set_files (insert ["model_old.json"; "A"; "dest"] Dir) sample_world.

(** A source root with ruleset [C] holding [model_001.json] and
    [model_002.json], a hidden directory, and an empty destination
    root. *)
Definition sample_all_world : world :=
  World
    (list_to_map
       [([], Dir); (["src"], Dir); (["dest"], Dir);
        (["C"; "src"], Dir); ([".cache"; "src"], Dir);
        (["model_002.json"; "C"; "src"], File "two" sample_time);
        (["model_001.json"; "C"; "src"], File "one" sample_time);
        (["notes.txt"; "C"; "src"], File "notes" sample_time);
        (["model_009.json"; ".cache"; "src"], File "nine" sample_time)])
    sample_clock 0.

(** [json.load] for the samples that read a manifest back: a text
    parses to the value among [known] that serializes to it, with or
    without the newline that ends a written manifest. *)
Definition sample_json_load_among (known : list json) (text : string)
    : option json :=
  List.find (fun j =>
               String.eqb text (sample_json_dump j +:+ String "010" "") ||
               String.eqb text (sample_json_dump j))
            known.

(** The sample manifest after an update for [A -> model_001.json] at
    the first reading of the sample clock. *)
Definition sample_updated_manifest : dict json :=
  [("A", best_entry "model_001.json" (sample_clock 0))].

Definition sample_known : list json :=
  [JDict sample_manifest; JDict sample_updated_manifest; JDict []].

(** As [sample_world], with a destination manifest that does not
    parse. *)
Definition sample_world_corrupt : world :=
  set_files (insert ["best_models.json"; "dest"] (File "{" sample_time))
    sample_world.


(** A manifest that reads as a mapping and holds a list as the
    [model_file] of [A]. *)
Definition sample_manifest_unhashable : dict json :=
  [("A", JDict [("model_file", JList [JStr "model_001.json"])])].

(** As [sample_world], with that manifest at the destination. *)
Definition sample_world_unhashable : world :=
  set_files
    (insert ["best_models.json"; "dest"]
       (File (sample_json_dump (JDict sample_manifest_unhashable)) sample_time))
    sample_world.

(** The manifest a sync of all models writes on [sample_all_world]. *)
Definition sample_all_updated_manifest : dict json :=
  [("C", best_entry "model_002.json" (sample_clock 0))].

(** * Properties *)

(** ** The model glob on sample names *)

Example fnmatch_model : fnmatch MODEL_GLOB "model_001.json" = true.
Proof. reflexivity. Qed.

Example fnmatch_empty_star : fnmatch MODEL_GLOB "model_.json" = true.
Proof. reflexivity. Qed.

Example fnmatch_manifest : fnmatch MODEL_GLOB "best_models.json" = false.
Proof. reflexivity. Qed.

Example fnmatch_tmp : fnmatch MODEL_GLOB "model_001.json.tmp" = false.
Proof. reflexivity. Qed.

Example fnmatch_case : fnmatch MODEL_GLOB "Model_001.json" = false.
Proof. reflexivity. Qed.

Example fnmatch_prefix : fnmatch MODEL_GLOB "old_model_001.json" = false.
Proof. reflexivity. Qed.

Example tmp_sibling :
  Path.with_suffix ["best_models.json"; "dest"]
    (Path.suffix ["best_models.json"; "dest"] ++ ".tmp")
  = ["best_models.json.tmp"; "dest"].
Proof. reflexivity. Qed.

Example strftime_sample :
  strftime_date sample_time = "2024-01-02" /\
  strftime_time sample_time = "03:04:05".
Proof. split; reflexivity. Qed.

Lemma fnmatch_literal c pat d s :
  Ascii.eqb c "*" = false -> Ascii.eqb c "?" = false ->
  fnmatch (String c pat) (String d s) = Ascii.eqb c d && fnmatch pat s.
Proof. intros H1 H2. cbn -[Ascii.eqb]. by rewrite H1, H2. Qed.

Ltac fnmatch_head name :=
  destruct name as [|? name]; [done|];
  rewrite fnmatch_literal by reflexivity;
  let H := fresh in let Hc := fresh in
  intros H; apply andb_true_iff in H as [Hc H];
  apply Ascii.eqb_eq in Hc; subst; revert H.

Lemma fnmatch_json t : fnmatch ".json" t = true <-> t = ".json".
Proof.
  split; [|intros ->; reflexivity].
  do 5 fnmatch_head t. by destruct t.
Qed.

Lemma fnmatch_star_json_unfold t :
  fnmatch "*.json" t
  = fnmatch ".json" t ||
    match t with
    | EmptyString => false
    | String _ t' => fnmatch "*.json" t'
    end.
Proof. by destruct t. Qed.

Lemma fnmatch_star_json t :
  fnmatch "*.json" t = true <-> exists mid, t = mid +:+ ".json".
Proof.
  split.
  - induction t as [|c t IH]; [done|].
    rewrite fnmatch_star_json_unfold. intros H.
    apply orb_true_iff in H as [H|H].
    + apply fnmatch_json in H. exists "". by rewrite H.
    + destruct (IH H) as [mid ->]. by exists (String c mid).
  - intros [mid ->]. induction mid as [|c mid IH]; [reflexivity|].
    rewrite fnmatch_star_json_unfold.
    change (String c mid +:+ ".json") with (String c (mid +:+ ".json")).
    cbv iota. rewrite IH. apply orb_true_r.
Qed.

(** The model glob matches exactly the names [model_<anything>.json]. *)
Lemma fnmatch_model_glob name :
  fnmatch MODEL_GLOB name = true <->
  exists mid, name = "model_" +:+ mid +:+ ".json".
Proof.
  unfold MODEL_GLOB. split.
  - do 6 fnmatch_head name.
    intros H. apply fnmatch_star_json in H as [mid ->]. by exists mid.
  - intros [mid ->]. change (fnmatch "*.json" (mid +:+ ".json") = true).
    apply fnmatch_star_json. by exists mid.
Qed.

(** ** The monad *)

Ltac io_unfold :=
  unfold bind, ret, raise, try_except, path_exists, is_dir, read_file,
    lookup_node in *.

Lemma for_each_cons {A S} (x : A) (l : list A) (body : A -> S -> IO S) s w :
  for_each (x :: l) body s w
  = match body x s w with
    | (w', Return s') => for_each l body s' w'
    | (w', Raise e) => (w', Raise e)
    end.
Proof. reflexivity. Qed.

Lemma for_each_app {A S} (l1 l2 : list A) (body : A -> S -> IO S) (s : S) w :
  for_each (l1 ++ l2) body s w
  = (s' <- for_each l1 body s ;; for_each l2 body s') w.
Proof.
  revert s w. induction l1 as [|x l1 IH]; intros s w; simpl.
  - reflexivity.
  - unfold bind in *.
    destruct (body x s w) as [w1 [s1|e]]; [|reflexivity].
    apply IH.
Qed.

(** ** Directory creation *)

Lemma set_files_lookup f w : files (set_files f w) = f (files w).
Proof. reflexivity. Qed.

Lemma mkdir_frame_refl w p : mkdir_frame w w p.
Proof. repeat split; auto. Qed.

Lemma mkdir_frame_trans w1 w2 w3 p q :
  q `suffix_of` p ->
  mkdir_frame w1 w2 q -> mkdir_frame w2 w3 p -> mkdir_frame w1 w3 p.
Proof.
  intros Hqp (Hc1 & Ht1 & H1) (Hc2 & Ht2 & H2).
  split; [congruence|]. split; [congruence|].
  intros x.
  destruct (H2 x) as [E2|(N2 & D2 & S2 & ?)], (H1 x) as [E1|(N1 & D1 & S1 & ?)].
  - left; congruence.
  - right. repeat split; [done|congruence| |done]. by etrans.
  - right. repeat split; [congruence|done|done|done].
  - congruence.
Qed.

Lemma os_mkdir_spec p w :
  match os_mkdir p w with
  | (w', Return _) =>
      files w !! p = None /\ files w !! Path.parent p = Some Dir /\
      w' = set_files (insert p Dir) w
  | (w', Raise e) =>
      w' = w /\
      match e with
      | FileExistsError => is_Some (files w !! p)
      | FileNotFoundError => files w !! p = None /\ files w !! Path.parent p = None
      | NotADirectoryError =>
          files w !! p = None /\ exists c m, files w !! Path.parent p = Some (File c m)
      | _ => False
      end
  end.
Proof.
  unfold os_mkdir, lookup_node.
  destruct (files w !! p) as [n|] eqn:Hp; [eauto|].
  destruct (files w !! Path.parent p) as [[c m|]|] eqn:Hq; eauto 6.
Qed.

Lemma mkdir_frame_insert w p :
  files w !! p = None -> files w !! Path.parent p = Some Dir ->
  mkdir_frame w (set_files (insert p Dir) w) p.
Proof.
  intros Hp Hq. repeat split; auto. intros x.
  destruct (decide (x = p)) as [->|Hne].
  - right. rewrite set_files_lookup, lookup_insert_eq.
    repeat split; try done. intros ->. simpl in Hq. congruence.
  - left. rewrite set_files_lookup, lookup_insert_ne by done. done.
Qed.

Lemma mkdir_exist_ok_spec p w :
  match mkdir_exist_ok p w with
  | (w', r) =>
      mkdir_frame w w' p /\
      (r = Return tt -> files w' !! p = Some Dir) /\
      (files w !! Path.parent p = Some Dir -> files w !! p <> None ->
       (exists c m, files w !! p = Some (File c m)) \/ r = Return tt) /\
      (files w !! Path.parent p = Some Dir -> files w !! p = None -> r = Return tt)
  end.
Proof.
  unfold mkdir_exist_ok, try_except.
  pose proof (os_mkdir_spec p w) as H.
  destruct (os_mkdir p w) as [w' [[]|e]].
  - destruct H as (Hp & Hq & ->). split; [by apply mkdir_frame_insert|].
    rewrite set_files_lookup, lookup_insert_eq. naive_solver.
  - destruct H as [-> H].
    destruct e; try done; io_unfold.
    + destruct H as [Hp Hq]. split; [apply mkdir_frame_refl|]. naive_solver.
    + destruct H as [n Hn]. rewrite Hn.
      destruct n as [c m|]; (split; [apply mkdir_frame_refl|]); naive_solver.
    + destruct H as (Hp & c & m & Hq). rewrite Hp.
      split; [apply mkdir_frame_refl|]. naive_solver.
Qed.

Lemma mkdir_parents_spec p : forall w,
  match mkdir_parents p w with
  | (w', r) =>
      mkdir_frame w w' p /\
      (r = Return tt -> files w' !! p = Some Dir) /\
      (creatable (files w) p = true -> r = Return tt)
  end.
Proof.
  induction p as [|n q IH]; intros w; simpl mkdir_parents; unfold try_except.
  - pose proof (os_mkdir_spec [] w) as H.
    destruct (os_mkdir [] w) as [w' [[]|e]].
    + destruct H as (Hp & Hq & ->). simpl in Hq. congruence.
    + destruct H as [-> H]. destruct e; try done; io_unfold; simpl.
      * destruct H as [Hp _]. rewrite Hp.
        split; [apply mkdir_frame_refl|]. naive_solver.
      * destruct H as [nd Hn]. rewrite Hn.
        destruct nd; (split; [apply mkdir_frame_refl|]); naive_solver.
      * destruct H as (Hp & c & m & Hq). simpl in Hq. congruence.
  - pose proof (os_mkdir_spec (n :: q) w) as H.
    destruct (os_mkdir (n :: q) w) as [w' [[]|e]].
    + destruct H as (Hp & Hq & ->). split; [by apply mkdir_frame_insert|].
      rewrite set_files_lookup, lookup_insert_eq. naive_solver.
    + destruct H as [-> H]. destruct e; try done.
      * destruct H as [Hp Hq]. simpl in Hq.
        unfold bind. specialize (IH w).
        destruct (mkdir_parents q w) as [w1 [[]|e1]].
        -- destruct IH as (Hf & Hd & Hc). specialize (Hd eq_refl).
           pose proof (mkdir_exist_ok_spec (n :: q) w1) as H1.
           destruct (mkdir_exist_ok (n :: q) w1) as [w2 r2].
           destruct H1 as (Hf2 & Hd2 & _ & Hok).
           split; [|split; [done|]].
           ++ eapply mkdir_frame_trans; [|exact Hf|exact Hf2].
              by apply suffix_cons_r.
           ++ intros _. apply Hok; [done|].
              destruct Hf as (_ & _ & Hf).
              destruct (Hf (n :: q)) as [E|(_ & _ & S & _)].
              ** congruence.
              ** apply suffix_cons_not in S. done.
        -- destruct IH as (Hf & _ & Hc). split; [|split; [done|]].
           ++ eapply mkdir_frame_trans; [|exact Hf|apply mkdir_frame_refl].
              by apply suffix_cons_r.
           ++ simpl. rewrite Hp. intros Hcr. specialize (Hc Hcr). done.
      * io_unfold. destruct H as [nd Hn]. rewrite Hn. simpl. rewrite Hn.
        destruct nd; (split; [apply mkdir_frame_refl|]); naive_solver.
      * io_unfold. destruct H as (Hp & c & m & Hq). rewrite Hp. simpl in *.
        rewrite Hp. split; [apply mkdir_frame_refl|]. split; [done|].
        destruct q; simpl; rewrite Hq; done.
Qed.

(** ** Hashing and the copy decision *)

Section CopyProperties.

Variable md5 : string -> string.

Lemma files_identical_eq src dst w :
  files_identical md5 src dst w = (w, Return (identical md5 (files w) src dst)).
Proof.
  unfold files_identical, file_md5, identical. io_unfold.
  destruct (files w !! dst) as [[cd md|]|] eqn:Hd; simpl;
    destruct (files w !! src) as [[cs ms|]|] eqn:Hs; simpl;
    rewrite ?Hd; reflexivity.
Qed.

Lemma copy_model_file_skip src dst ow dry w :
  would_copy md5 (files w) src dst ow = false ->
  copy_model_file md5 src dst ow dry w = (w, Return false).
Proof.
  unfold would_copy, copy_model_file. intros H.
  unfold bind at 1. unfold path_exists, lookup_node.
  destruct (files w !! dst) as [nd|] eqn:Hd; [|done].
  unfold bind at 1. rewrite files_identical_eq.
  destruct (identical md5 (files w) src dst); [done|].
  destruct ow; done.
Qed.

Lemma copy_model_file_dry src dst ow w :
  copy_model_file md5 src dst ow true w
  = (w, Return (would_copy md5 (files w) src dst ow)).
Proof.
  unfold would_copy, copy_model_file.
  unfold bind at 1. unfold path_exists, lookup_node.
  destruct (files w !! dst) as [nd|] eqn:Hd; [|done].
  unfold bind at 1. rewrite files_identical_eq.
  destruct (identical md5 (files w) src dst); [done|].
  destruct ow; done.
Qed.

Lemma copy_model_file_live src dst ow w :
  would_copy md5 (files w) src dst ow = true ->
  copy_model_file md5 src dst ow false w
  = (ensure_dir (Path.parent dst) ;;; copy2 src dst ;;; ret true) w.
Proof.
  unfold would_copy, copy_model_file. intros H.
  unfold bind at 1. unfold path_exists, lookup_node.
  destruct (files w !! dst) as [nd|] eqn:Hd; [|done].
  unfold bind at 1. rewrite files_identical_eq.
  destruct (identical md5 (files w) src dst); [done|].
  destruct ow; done.
Qed.

Lemma copy2_spec src dst w :
  files w !! dst <> Some Dir ->
  match copy2 src dst w with
  | (w', Return _) =>
      exists c m, files w !! src = Some (File c m) /\ src <> dst /\
                  files w !! Path.parent dst = Some Dir /\
                  w' = set_files (insert dst (File c m)) w
  | (w', Raise _) =>
      w' = w /\
      ~ (src <> dst /\ (exists c m, files w !! src = Some (File c m)) /\
         files w !! Path.parent dst = Some Dir)
  end.
Proof.
  intros Hd. unfold copy2. io_unfold.
  assert (Hnd : match files w !! dst with Some Dir => true | _ => false end
                = false) by (by destruct (files w !! dst) as [[]|]).
  rewrite Hnd.
  destruct (decide (src = dst)) as [->|Hne].
  { split; [done|]. by intros [? _]. }
  destruct (files w !! src) as [[c m|]|] eqn:Hs.
  2,3: by (split; [|intros (_ & (c0 & m0 & ?) & _)]).
  destruct (files w !! dst) as [[cd md|]|] eqn:Hdst; [|done|];
    (destruct (files w !! Path.parent dst) as [[c' m'|]|] eqn:Hp;
     [by (split; [|intros (_ & _ & ?)])
     |exists c, m; done
     |by (split; [|intros (_ & _ & ?)])]).
Qed.

(** What a live copy that returns has done, for a destination that is
    not a directory. *)
Lemma copy_model_file_live_effect src dst ow w w' b :
  files w !! dst <> Some Dir ->
  copy_model_file md5 src dst ow false w = (w', Return b) ->
  b = would_copy md5 (files w) src dst ow /\
  (b = false -> w' = w) /\
  (b = true ->
   exists c m, files w !! src = Some (File c m) /\ src <> dst /\
     files w' !! dst = Some (File c m) /\
     clock w' = clock w /\ ticks w' = ticks w /\
     forall x, x <> dst ->
       files w' !! x = files w !! x \/
       (files w !! x = None /\ files w' !! x = Some Dir /\
        x `suffix_of` Path.parent dst /\ x <> [])).
Proof.
  intros Hd Hrun.
  destruct (would_copy md5 (files w) src dst ow) eqn:Hwc.
  - rewrite copy_model_file_live in Hrun by done.
    unfold bind at 1 in Hrun. unfold ensure_dir in Hrun.
    pose proof (mkdir_parents_spec (Path.parent dst) w) as Hmk.
    destruct (mkdir_parents (Path.parent dst) w) as [w1 [[]|e]]; [|done].
    destruct Hmk as ((Hc1 & Ht1 & Hf) & Hdir & _). specialize (Hdir eq_refl).
    assert (Hd1 : files w1 !! dst = files w !! dst).
    { destruct (Hf dst) as [E|(_ & _ & S & Hnil)]; [done|].
      destruct dst as [|n q]; simpl in *.
      - by apply suffix_nil_inv in S.
      - by apply suffix_cons_not in S. }
    unfold bind at 1 in Hrun.
    pose proof (copy2_spec src dst w1) as Hcp. rewrite Hd1 in Hcp.
    specialize (Hcp Hd).
    destruct (copy2 src dst w1) as [w2 [[]|e]]; [|done].
    destruct Hcp as (c & m & Hs & Hne & Hp & ->).
    unfold ret in Hrun. simplify_eq. split; [done|]. split; [done|].
    intros _. exists c, m.
    assert (Hs0 : files w !! src = Some (File c m)).
    { destruct (Hf src) as [E|(_ & E & _)]; congruence. }
    repeat split; try done.
    + rewrite set_files_lookup, lookup_insert_eq. done.
    + intros x Hx. rewrite set_files_lookup, lookup_insert_ne by done. apply Hf.
  - rewrite copy_model_file_skip in Hrun by done. simplify_eq. done.
Qed.

Lemma copy_model_file_live_returns src dst ow w c m :
  files w !! src = Some (File c m) ->
  files w !! dst <> Some Dir ->
  creatable (files w) (Path.parent dst) = true ->
  exists w', copy_model_file md5 src dst ow false w
             = (w', Return (would_copy md5 (files w) src dst ow)).
Proof.
  intros Hs Hd Hcr.
  destruct (would_copy md5 (files w) src dst ow) eqn:Hwc.
  - rewrite copy_model_file_live by done.
    unfold bind at 1. unfold ensure_dir.
    pose proof (mkdir_parents_spec (Path.parent dst) w) as Hmk.
    destruct (mkdir_parents (Path.parent dst) w) as [w1 r].
    destruct Hmk as ((Hc1 & Ht1 & Hf) & Hdir & Hok).
    rewrite (Hok Hcr) in *. specialize (Hdir eq_refl).
    assert (Hd1 : files w1 !! dst = files w !! dst).
    { destruct (Hf dst) as [E|(_ & _ & S & Hnil)]; [done|].
      destruct dst as [|n q]; simpl in *.
      - by apply suffix_nil_inv in S.
      - by apply suffix_cons_not in S. }
    assert (Hs1 : files w1 !! src = Some (File c m)).
    { destruct (Hf src) as [E|(E & _ & _)]; congruence. }
    assert (Hne : src <> dst).
    { intros ->. unfold would_copy, identical in Hwc. rewrite Hs in Hwc.
      rewrite String.eqb_refl in Hwc. done. }
    unfold bind at 1.
    pose proof (copy2_spec src dst w1) as Hcp. rewrite Hd1 in Hcp.
    specialize (Hcp Hd).
    destruct (copy2 src dst w1) as [w2 [[]|e]]; [eauto|].
    destruct Hcp as [_ Hcp]. exfalso. apply Hcp. eauto.
  - rewrite copy_model_file_skip by done. eauto.
Qed.

Lemma would_copy_true_iff fs src dst ow cs ms :
  fs !! src = Some (File cs ms) ->
  fs !! dst <> Some Dir ->
  would_copy md5 fs src dst ow = true <->
  fs !! dst = None \/
  (exists cd md, fs !! dst = Some (File cd md) /\ md5 cd <> md5 cs /\ ow = true).
Proof.
  intros Hs Hd. unfold would_copy, identical. rewrite Hs.
  destruct (fs !! dst) as [[cd md|]|] eqn:Hdst; [|done|naive_solver].
  destruct (String.eqb_spec (md5 cs) (md5 cd)) as [E|N]; simpl.
  - split; [done|]. intros [?|(? & ? & ? & ? & ?)]; simplify_eq; congruence.
  - split.
    + intros ->. right. exists cd, md. repeat split; congruence.
    + intros [?|(? & ? & ? & ? & ?)]; simplify_eq. done.
Qed.

(** C1.  For a regular source file [S] and a destination [D] that is
    missing or a regular file (with [D]'s directory present or
    creatable when the copy is live), [copy_model_file] returns, and it
    returns [true] exactly when [D] is missing, or [D] exists with an
    MD5 differing from [S]'s and [overwrite] is set.  It returns [false]
    when the digests agree, whatever [overwrite] and the modification
    times are, and when they differ without [overwrite]; a [false]
    leaves the whole world as it was.  After a live [true], [D] holds
    [S]'s content and modification time. *)
Theorem copy_model_file_decision S D overwrite dry_run w cs ms :
  files w !! S = Some (File cs ms) ->
  files w !! D <> Some Dir ->
  (dry_run = false -> creatable (files w) (Path.parent D) = true) ->
  exists w' b,
    copy_model_file md5 S D overwrite dry_run w = (w', Return b) /\
    (b = true <->
       files w !! D = None \/
       (exists cd md, files w !! D = Some (File cd md) /\
                      md5 cd <> md5 cs /\ overwrite = true)) /\
    (forall cd md, files w !! D = Some (File cd md) ->
                   md5 cd = md5 cs -> b = false) /\
    (forall cd md, files w !! D = Some (File cd md) ->
                   md5 cd <> md5 cs -> overwrite = false -> b = false) /\
    (b = false -> w' = w) /\
    (b = true -> dry_run = false -> files w' !! D = Some (File cs ms)).
Proof.
  intros Hs Hd Hcr.
  pose proof (would_copy_true_iff (files w) S D overwrite cs ms Hs Hd) as Hiff.
  assert (Hrun : exists w',
    copy_model_file md5 S D overwrite dry_run w
    = (w', Return (would_copy md5 (files w) S D overwrite)) /\
    (would_copy md5 (files w) S D overwrite = false -> w' = w) /\
    (would_copy md5 (files w) S D overwrite = true -> dry_run = false ->
     files w' !! D = Some (File cs ms))).
  { destruct dry_run.
    - exists w. rewrite copy_model_file_dry. done.
    - destruct (copy_model_file_live_returns S D overwrite w cs ms Hs Hd)
        as [w' Hw']; [by apply Hcr|].
      exists w'. split; [done|].
      destruct (copy_model_file_live_effect S D overwrite w w' _ Hd Hw')
        as (_ & Hfalse & Htrue).
      split; [done|]. intros Hb _.
      destruct (Htrue Hb) as (c & m & Hsrc & _ & Hdst & _). congruence. }
  destruct Hrun as (w' & Hrun & Hfalse & Htrue).
  exists w', (would_copy md5 (files w) S D overwrite).
  split; [done|]. split; [done|].
  split; [|split; [|done]].
  - intros cd md HD Heq.
    destruct (would_copy md5 (files w) S D overwrite) eqn:E; [|done].
    destruct (proj1 Hiff eq_refl) as [?|(? & ? & ? & ? & ?)]; simplify_eq.
  - intros cd md HD Hne How.
    destruct (would_copy md5 (files w) S D overwrite) eqn:E; [|done].
    destruct (proj1 Hiff eq_refl) as [?|(? & ? & ? & ? & ?)]; simplify_eq.
Qed.

(** C7.  [files_identical] never raises.  When hashing either file
    fails it answers [false], and [copy_model_file] then goes on as for
    differing contents: a skip without [overwrite], the copy with it. *)
Theorem hashing_failure_is_not_identical (src dst : path) (w : world) :
  (exists b, files_identical md5 src dst w = (w, Return b)) /\
  ((exists e, snd (file_md5 md5 src w) = Raise e) \/
   (exists e, snd (file_md5 md5 dst w) = Raise e) ->
   files_identical md5 src dst w = (w, Return false) /\
   (is_Some (files w !! dst) ->
    copy_model_file md5 src dst false false w = (w, Return false) /\
    copy_model_file md5 src dst false true w = (w, Return false) /\
    copy_model_file md5 src dst true true w = (w, Return true) /\
    copy_model_file md5 src dst true false w
    = (ensure_dir (Path.parent dst) ;;; copy2 src dst ;;; ret true) w)).
Proof.
  split; [rewrite files_identical_eq; eauto|].
  intros Hfail.
  assert (Hid : identical md5 (files w) src dst = false).
  { unfold identical. unfold file_md5 in Hfail. io_unfold.
    destruct (files w !! src) as [[cs ms|]|]; [|done..].
    destruct (files w !! dst) as [[cd md|]|]; [|done..].
    destruct Hfail as [[e He]|[e He]]; simpl in He; done. }
  split; [by rewrite files_identical_eq, Hid|].
  intros [nd Hnd].
  assert (Hwc : forall ow, would_copy md5 (files w) src dst ow = ow).
  { intros ow. unfold would_copy. rewrite Hnd, Hid. done. }
  rewrite !copy_model_file_dry, !Hwc.
  rewrite copy_model_file_skip by apply Hwc.
  rewrite copy_model_file_live by apply Hwc. done.
Qed.

End CopyProperties.

(** ** Dry runs *)

Lemma keeps_files_ret {A} (a : A) : keeps_files (ret a).
Proof. done. Qed.

Lemma keeps_files_raise {A} e : keeps_files (@raise A e).
Proof. done. Qed.

Lemma keeps_files_bind {A B} (m : IO A) (k : A -> IO B) :
  keeps_files m -> (forall a, keeps_files (k a)) -> keeps_files (bind m k).
Proof.
  intros Hm Hk w. unfold bind. specialize (Hm w).
  destruct (m w) as [w1 [a|e]]; simpl in *; [|done].
  rewrite Hk. done.
Qed.

Lemma keeps_files_try {A} (m : IO A) h :
  keeps_files m -> (forall e, keeps_files (h e)) -> keeps_files (try_except m h).
Proof.
  intros Hm Hh w. unfold try_except. specialize (Hm w).
  destruct (m w) as [w1 [a|e]]; simpl in *; [done|].
  rewrite Hh. done.
Qed.

Lemma keeps_files_for_each {A S} (l : list A) (body : A -> S -> IO S) s :
  (forall x s, keeps_files (body x s)) -> keeps_files (for_each l body s).
Proof.
  intros Hb. revert s. induction l as [|x l IH]; intros s; simpl.
  - apply keeps_files_ret.
  - apply keeps_files_bind; auto.
Qed.

Lemma keeps_files_path_exists p : keeps_files (path_exists p).
Proof. done. Qed.

Lemma keeps_files_is_dir p : keeps_files (is_dir p).
Proof. done. Qed.

Lemma keeps_files_read_file p : keeps_files (read_file p).
Proof. intros w. unfold read_file. repeat case_match; done. Qed.

Lemma keeps_files_iterdir p : keeps_files (iterdir p).
Proof. intros w. unfold iterdir. repeat case_match; done. Qed.

Lemma keeps_files_glob p pat : keeps_files (glob p pat).
Proof. intros w. unfold glob. repeat case_match; done. Qed.

Lemma keeps_files_datetime_now : keeps_files datetime_now.
Proof. done. Qed.

Lemma keeps_files_items j : keeps_files (items j).
Proof. destruct j; done. Qed.

Lemma keeps_files_setitem j k v : keeps_files (setitem j k v).
Proof. destruct j; done. Qed.

Lemma keeps_files_add_best r v s : keeps_files (add_best r v s).
Proof. destruct v; done. Qed.

Lemma keeps_files_skipped_dir d : keeps_files (skipped_dir d).
Proof. done. Qed.

Create HintDb keeps discriminated.

#[local] Hint Resolve keeps_files_ret keeps_files_raise keeps_files_path_exists
  keeps_files_is_dir keeps_files_read_file keeps_files_iterdir
  keeps_files_glob keeps_files_datetime_now keeps_files_items
  keeps_files_setitem keeps_files_add_best keeps_files_skipped_dir : keeps.

Ltac keeps_step :=
  match goal with
  | |- keeps_files (bind _ _) => apply keeps_files_bind; [|intros ?]
  | |- keeps_files (try_except _ _) => apply keeps_files_try; [|intros ?]
  | |- keeps_files (for_each _ _ _) => apply keeps_files_for_each; intros ? ?
  | |- keeps_files (if ?b then _ else _) => destruct b
  | |- keeps_files (match ?x with _ => _ end) => destruct x
  | |- keeps_files (let '(_, _) := ?x in _) => destruct x
  | |- keeps_files ((let '(_, _) := ?x in _) _) => destruct x
  | |- keeps_files _ => solve [auto with keeps]
  end.

Section DryRun.

Variable md5 : string -> string.
Variable json_load : string -> option json.
Variable json_dump : json -> string.

Lemma keeps_files_read_json p : keeps_files (read_json json_load p).
Proof. unfold read_json. repeat keeps_step. Qed.

Lemma keeps_files_copy_dry src dst ow :
  keeps_files (copy_model_file md5 src dst ow true).
Proof. intros w. rewrite copy_model_file_dry. done. Qed.

Lemma keeps_files_sync_best_dry src dest ow :
  keeps_files (sync_best_models md5 json_load src dest ow true).
Proof.
  pose proof keeps_files_read_json. pose proof keeps_files_copy_dry.
  unfold sync_best_models, sync_best_entry. repeat keeps_step.
Qed.

Lemma keeps_files_sync_all_dry src dest ow :
  keeps_files (sync_all_models md5 src dest ow true).
Proof.
  pose proof keeps_files_copy_dry.
  unfold sync_all_models, sync_all_ruleset, sync_all_file. repeat keeps_step.
Qed.

Lemma keeps_files_cleanup_dry dest :
  keeps_files (cleanup_old_models json_load dest true).
Proof.
  pose proof keeps_files_read_json.
  unfold cleanup_old_models, cleanup_ruleset, cleanup_file, collect_best.
  repeat keeps_step.
Qed.

Lemma keeps_files_update_dry dest synced :
  keeps_files (update_dest_best_models json_load json_dump dest synced true).
Proof.
  pose proof keeps_files_read_json.
  unfold update_dest_best_models. repeat keeps_step.
Qed.

(** C5.  Whatever the other flags and the initial state, a run of
    [main] with [dry_run] set leaves every file, the destination
    manifest among them, as it was.  And the decision of
    [copy_model_file] is the same dry and live: the dry call reports
    [b] without touching the world, and from the same state the live
    call skips when [b] is [false] and carries out the copy when [b] is
    [true]. *)
Theorem dry_run_no_mutation src dest all cleanup overwrite w :
  files (fst (main md5 json_load json_dump
                (Args src dest all cleanup overwrite true) w)) = files w /\
  forall S D, exists b,
    copy_model_file md5 S D overwrite true w = (w, Return b) /\
    copy_model_file md5 S D overwrite false w
    = (if b
       then (ensure_dir (Path.parent D) ;;; copy2 S D ;;; ret true) w
       else (w, Return false)).
Proof.
  split.
  - pose proof keeps_files_sync_best_dry. pose proof keeps_files_sync_all_dry.
    pose proof keeps_files_cleanup_dry. pose proof keeps_files_update_dry.
    assert (K : keeps_files (main md5 json_load json_dump
                               (Args src dest all cleanup overwrite true)));
      [|apply K].
    unfold main; simpl. repeat keeps_step.
  - intros S D. exists (would_copy md5 (files w) S D overwrite).
    split; [apply copy_model_file_dry|].
    destruct (would_copy md5 (files w) S D overwrite) eqn:E.
    + by apply copy_model_file_live.
    + by apply copy_model_file_skip.
Qed.

End DryRun.

Lemma bool_decide_ext_if {A} (P Q : Prop) `{Decision P, Decision Q} (a b : A) :
  (P <-> Q) ->
  (if bool_decide P then a else b) = (if bool_decide Q then a else b).
Proof. intros HPQ. by rewrite (bool_decide_ext P Q HPQ). Qed.

(** ** Directory listings *)

Lemma elem_of_children fs p q :
  q ∈ children fs p <-> is_Some (fs !! q) /\ child_of p q.
Proof.
  unfold children. rewrite list_elem_of_filter, list_elem_of_fmap.
  split.
  - intros [Hc [[k v] [-> Hin]]]. apply elem_of_map_to_list in Hin.
    simpl. eauto.
  - intros [[v Hv] Hc]. split; [done|]. exists (q, v).
    split; [done|]. by apply elem_of_map_to_list.
Qed.

Lemma NoDup_children fs p : NoDup (children fs p).
Proof. apply NoDup_filter, NoDup_fst_map_to_list. Qed.

Lemma child_of_inv p q : child_of p q -> q = Path.name q :: p.
Proof. intros [Hne <-]. destruct q; done. Qed.

Lemma child_of_cons n p : child_of p (n :: p).
Proof. done. Qed.

(** ** Deletion *)

Lemma only_deletes_refl Q w : only_deletes Q w w.
Proof. repeat split; auto. Qed.

Lemma only_deletes_trans Q w1 w2 w3 :
  only_deletes Q w1 w2 -> only_deletes Q w2 w3 -> only_deletes Q w1 w3.
Proof.
  intros (Hc1 & Ht1 & H1) (Hc2 & Ht2 & H2).
  split; [congruence|]. split; [congruence|]. intros p.
  destruct (H2 p) as [E2|(Q2 & N2 & c2 & t2 & F2)],
           (H1 p) as [E1|(Q1 & N1 & c1 & t1 & F1)].
  - left; congruence.
  - right. split; [done|]. split; [congruence|eauto].
  - right. split; [done|]. split; [done|]. exists c2, t2. congruence.
  - congruence.
Qed.

Lemma only_deletes_weaken (Q Q' : path -> Prop) w w' :
  (forall p, Q p -> Q' p) -> only_deletes Q w w' -> only_deletes Q' w w'.
Proof.
  intros HQ (Hc & Ht & H). repeat split; try done. intros p.
  destruct (H p) as [E|(Hq & N & F)]; [by left|right; auto].
Qed.

Lemma only_deletes_dir Q w w' p :
  only_deletes Q w w' -> files w !! p = Some Dir -> files w' !! p = Some Dir.
Proof.
  intros (_ & _ & H) Hp. destruct (H p) as [E|(_ & _ & c & t & F)]; congruence.
Qed.

Lemma only_deletes_bind {A B} Q (m : IO A) (k : A -> IO B) w :
  only_deletes Q w (fst (m w)) ->
  (forall a w1, m w = (w1, Return a) -> only_deletes Q w1 (fst (k a w1))) ->
  only_deletes Q w (fst (bind m k w)).
Proof.
  intros Hm Hk. unfold bind. destruct (m w) as [w1 [a|e]]; simpl in *; [|done].
  eapply only_deletes_trans; [exact Hm|]. by apply Hk.
Qed.

Lemma only_deletes_for_each {A S} Q (l : list A) (body : A -> S -> IO S) :
  (forall x s w, x ∈ l -> only_deletes Q w (fst (body x s w))) ->
  forall s w, only_deletes Q w (fst (for_each l body s w)).
Proof.
  induction l as [|x l IH]; intros Hb s w; simpl.
  - apply only_deletes_refl.
  - apply only_deletes_bind.
    + apply Hb. left.
    + intros s1 w1 _. apply IH. intros y s' w' Hy. apply Hb. by right.
Qed.

Lemma unlink_spec p w :
  match unlink p w with
  | (w', Return _) =>
      (exists c t, files w !! p = Some (File c t)) /\
      w' = set_files (delete p) w
  | (w', Raise _) =>
      w' = w /\ (files w !! p = None \/ files w !! p = Some Dir)
  end.
Proof.
  unfold unlink, lookup_node.
  destruct (files w !! p) as [[c t|]|]; eauto.
Qed.

Lemma only_deletes_unlink (Q : path -> Prop) p w :
  Q p -> only_deletes Q w (fst (unlink p w)).
Proof.
  intros HQ. pose proof (unlink_spec p w) as H.
  destruct (unlink p w) as [w' [[]|e]]; simpl.
  - destruct H as [(c & t & F) ->]. repeat split; try done. intros x.
    rewrite set_files_lookup. destruct (decide (x = p)) as [->|Hne].
    + right. rewrite lookup_delete_eq. eauto.
    + left. by rewrite lookup_delete_ne.
  - destruct H as [-> _]. apply only_deletes_refl.
Qed.

Lemma glob_spec p pat w :
  exists l, glob p pat w = (w, Return l) /\ NoDup l /\
    forall q, q ∈ l <->
      files w !! p = Some Dir /\ is_Some (files w !! q) /\
      child_of p q /\ fnmatch pat (Path.name q) = true.
Proof.
  unfold glob, lookup_node.
  destruct (files w !! p) as [[c t|]|] eqn:Hp.
  - exists []. split; [done|]. split; [constructor|].
    intros q. rewrite elem_of_nil. split; [done|]. by intros [? _].
  - eexists. split; [done|]. split; [apply NoDup_filter, NoDup_children|].
    intros q. rewrite list_elem_of_filter, elem_of_children, Is_true_true.
    tauto.
  - exists []. split; [done|]. split; [constructor|].
    intros q. rewrite elem_of_nil. split; [done|]. by intros [? _].
Qed.

Lemma iterdir_spec p w :
  match iterdir p w with
  | (w', Return l) =>
      w' = w /\ files w !! p = Some Dir /\ l = children (files w) p
  | (w', Raise _) => w' = w /\ files w !! p <> Some Dir
  end.
Proof.
  unfold iterdir, lookup_node. destruct (files w !! p) as [[c t|]|]; done.
Qed.

Lemma for_each_unchanged {A S} (l : list A) (body : A -> S -> IO S) :
  (forall x s w, fst (body x s w) = w) ->
  forall s w, fst (for_each l body s w) = w.
Proof.
  intros Hb. induction l as [|x l IH]; intros s w; simpl; [done|].
  unfold bind. specialize (Hb x s w).
  destruct (body x s w) as [w1 [s1|e]]; simpl in *; subst; [apply IH|done].
Qed.

Lemma iterdir_dir p w :
  files w !! p = Some Dir -> iterdir p w = (w, Return (children (files w) p)).
Proof. intros Hp. unfold iterdir, lookup_node. by rewrite Hp. Qed.

Section Cleanup.

Variable json_load : string -> option json.

Lemma only_deletes_cleanup_file Q best dry r m cnt w :
  Q m -> only_deletes Q w (fst (cleanup_file best dry r m cnt w)).
Proof.
  intros HQ. unfold cleanup_file.
  destruct (is_best r (Path.name m) best); [apply only_deletes_refl|].
  destruct dry; [apply only_deletes_refl|].
  apply only_deletes_bind; [by apply only_deletes_unlink|].
  intros; apply only_deletes_refl.
Qed.

Lemma only_deletes_cleanup_ruleset dest best dry c cnt w :
  only_deletes (unlinkable dest) w
    (fst (cleanup_ruleset best dry (dest </> c) cnt w)).
Proof.
  unfold cleanup_ruleset, skipped_dir. io_unfold. simpl.
  destruct (negb _ || startswith c ".") eqn:Hskip;
    [apply only_deletes_refl|].
  apply orb_false_iff in Hskip as [_ Hhid].
  destruct (glob_spec (dest </> c) MODEL_GLOB w) as (l & -> & _ & Hl).
  apply only_deletes_for_each. intros m s w' Hm.
  apply only_deletes_cleanup_file.
  apply Hl in Hm as (_ & _ & Hch & Hfn).
  exists (Path.name m), c. split; [by apply child_of_inv|done].
Qed.

Lemma read_json_unchanged p w : fst (read_json json_load p w) = w.
Proof.
  unfold read_json, read_file. io_unfold.
  destruct (files w !! p) as [[c t|]|]; try done.
  destruct (json_load c); done.
Qed.

Lemma collect_best_unchanged item best w : fst (collect_best item best w) = w.
Proof.
  unfold collect_best, add_best. destruct item as [r entry].
  destruct (has_model_file entry); [|done].
  destruct (model_file_of entry); done.
Qed.

(** Whatever its outcome, the cleanup pass changes nothing but to
    unlink regular files it can reach. *)
Lemma cleanup_only_deletes dest dry w :
  only_deletes (unlinkable dest) w
    (fst (cleanup_old_models json_load dest dry w)).
Proof.
  unfold cleanup_old_models.
  apply only_deletes_bind; [apply only_deletes_refl|]. intros e w1 _.
  destruct (negb e); [apply only_deletes_refl|].
  apply only_deletes_bind.
  { unfold try_except, bind.
    pose proof (read_json_unchanged (dest </> BEST_MODELS_FILENAME) w1) as H.
    destruct (read_json json_load _ w1) as [w2 [j|ex]]; simpl in *; subst;
      apply only_deletes_refl. }
  intros [dest_best|] w2 _; [|apply only_deletes_refl].
  apply only_deletes_bind.
  { destruct dest_best; apply only_deletes_refl. }
  intros entries w3 _.
  apply only_deletes_bind.
  { rewrite for_each_unchanged; [apply only_deletes_refl|].
    apply collect_best_unchanged. }
  intros best w4 _.
  apply only_deletes_bind.
  { pose proof (iterdir_spec dest w4) as H.
    destruct (iterdir dest w4) as [w5 [l|ex]]; simpl;
      destruct H as [-> _]; apply only_deletes_refl. }
  intros dirs w5 Hit.
  pose proof (iterdir_spec dest w4) as H. rewrite Hit in H.
  destruct H as (-> & _ & ->).
  apply only_deletes_bind; [|intros; apply only_deletes_refl].
  apply only_deletes_for_each. intros d s w' Hin.
  apply elem_of_children in Hin as [_ Hch].
  rewrite (child_of_inv _ _ Hch). apply only_deletes_cleanup_ruleset.
Qed.

(** C10.  Whatever its outcome, dry or live, [cleanup_old_models]
    leaves in place the manifest [best_models.json], the temporary
    sibling [best_models.json.tmp] that [write_json] uses, every path
    whose name does not match [model_*.json], every entry of a hidden
    ruleset directory, and every entry lying directly in the
    destination root. *)
Theorem cleanup_spares dest dry_run w :
  let w' := fst (cleanup_old_models json_load dest dry_run w) in
  let manifest := dest </> BEST_MODELS_FILENAME in
  let tmp := Path.with_suffix manifest (Path.suffix manifest ++ ".tmp") in
  files w' !! manifest = files w !! manifest /\
  files w' !! tmp = files w !! tmp /\
  fnmatch MODEL_GLOB (Path.name manifest) = false /\
  fnmatch MODEL_GLOB (Path.name tmp) = false /\
  (forall p, fnmatch MODEL_GLOB (Path.name p) = false ->
             files w' !! p = files w !! p) /\
  (forall ruleset name, startswith ruleset "." = true ->
     files w' !! (dest </> ruleset </> name)
     = files w !! (dest </> ruleset </> name)) /\
  (forall name, files w' !! (dest </> name) = files w !! (dest </> name)).
Proof.
  intros w' manifest tmp.
  destruct (cleanup_only_deletes dest dry_run w) as (_ & _ & H).
  fold w' in H.
  assert (Htop : forall name, files w' !! (dest </> name) = files w !! (dest </> name)).
  { intros name. destruct (H (dest </> name)) as [E|((n & c & Hp & _) & _)];
      [done|].
    apply (f_equal length) in Hp. simpl in Hp. lia. }
  split; [apply Htop|]. split; [apply Htop|].
  split; [reflexivity|]. split; [reflexivity|]. split; [|split; [|done]].
  - intros p Hp. destruct (H p) as [E|((n & c & -> & Hn & _) & _)]; [done|].
    change (Path.name (dest </> c </> n)) with n in Hp. congruence.
  - intros c n Hc.
    destruct (H (dest </> c </> n)) as [E|((n' & c' & Hp & _ & Hc') & _)];
      [done|].
    simplify_eq. congruence.
Qed.

Lemma read_json_ok p w text t j :
  files w !! p = Some (File text t) -> json_load text = Some j ->
  read_json json_load p w = (w, Return j).
Proof.
  intros Hp Hj. unfold read_json, read_file. io_unfold. by rewrite Hp, Hj.
Qed.

(** *** What a completed cleanup pass has deleted *)

Lemma collect_best_step r0 entry acc w :
  negb (has_model_file entry) || hashable (model_file_of entry) = true ->
  exists acc',
    collect_best (r0, entry) acc w = (w, Return acc') /\
    forall r n, is_best r n acc' = is_referenced [(r0, entry)] r n || is_best r n acc.
Proof.
  intros Hh. unfold collect_best, add_best, is_referenced.
  destruct (has_model_file entry) eqn:Hm; simpl in *.
  - destruct (model_file_of entry) eqn:Hv; try done;
      (eexists; split; [reflexivity|]; intros ? ?; simpl;
       by rewrite Hm, ?andb_true_r, ?andb_false_r, ?orb_false_r).
  - exists acc. split; [done|]. intros r n. simpl.
    by rewrite Hm, andb_false_r.
Qed.

Lemma collect_best_spec d : forall acc w,
  manifest_hashable d = true ->
  exists best,
    for_each d collect_best acc w = (w, Return best) /\
    forall r n, is_best r n best = is_referenced d r n || is_best r n acc.
Proof.
  induction d as [|[r0 entry] d IH]; intros acc w Hh.
  - exists acc. done.
  - simpl in Hh. apply andb_true_iff in Hh as [Hh0 Hh].
    destruct (collect_best_step r0 entry acc w Hh0) as (acc' & Hstep & Hacc).
    destruct (IH acc' w Hh) as (best & Hrun & Hb).
    exists best. rewrite for_each_cons, Hstep. split; [done|].
    intros r n. rewrite Hb, Hacc. simpl. rewrite orb_false_r.
    rewrite !orb_assoc. f_equal. apply orb_comm.
Qed.

Lemma cleanup_files_live best r ms : NoDup ms -> forall cnt w,
  (forall m, m ∈ ms -> is_best r (Path.name m) best = false ->
             exists c t, files w !! m = Some (File c t)) ->
  exists w' cnt',
    for_each ms (cleanup_file best false r) cnt w = (w', Return cnt') /\
    clock w' = clock w /\ ticks w' = ticks w /\
    forall p,
      files w' !! p =
      if bool_decide (p ∈ ms /\ is_best r (Path.name p) best = false)
      then None else files w !! p.
Proof.
  induction 1 as [|m ms Hnin Hnd IH]; intros cnt w Hfile.
  - exists w, cnt. repeat split; done.
  - rewrite for_each_cons. unfold cleanup_file at 1.
    destruct (is_best r (Path.name m) best) eqn:Hb.
    + destruct (IH cnt w) as (w' & cnt' & Hrun & Hc & Ht & Hl).
      { intros m' Hm'. apply Hfile. by right. }
      unfold ret. rewrite Hrun. exists w', cnt'. repeat split; try done.
      intros p. rewrite Hl. apply bool_decide_ext_if.
      rewrite elem_of_cons. split; [tauto|].
      intros [[->|?] ?]; [congruence|tauto].
    + destruct (Hfile m) as (c & t & Hm); [by left|done|].
      unfold bind. pose proof (unlink_spec m w) as Hu.
      destruct (unlink m w) as [w1 [[]|e]].
      2: { destruct Hu as [_ [?|?]]; congruence. }
      destruct Hu as [_ ->]. unfold ret.
      destruct (IH (S cnt) (set_files (delete m) w)) as (w' & cnt' & Hrun & Hc & Ht & Hl).
      { intros m' Hm' Hb'. rewrite set_files_lookup, lookup_delete_ne.
        - apply Hfile; [by right|done].
        - intros ->. done. }
      rewrite Hrun. exists w', cnt'. repeat split; try done.
      intros p. rewrite Hl, set_files_lookup.
      destruct (decide (p = m)) as [->|Hne].
      * rewrite lookup_delete_eq, (bool_decide_eq_true_2 (_ ∈ m :: ms /\ _)).
        -- by destruct (bool_decide _).
        -- split; [by left|done].
      * rewrite lookup_delete_ne by done. apply bool_decide_ext_if.
        rewrite elem_of_cons. tauto.
Qed.
Lemma doomed_cons w d ds best p :
  doomed w (d :: ds) best p <-> doomed w [d] best p \/ doomed w ds best p.
Proof.
  unfold doomed. split.
  - intros (d' & Hin & H). apply elem_of_cons in Hin as [->|Hin].
    + left. exists d. split; [by left|done].
    + right. eauto.
  - intros [(d' & Hin & H)|(d' & Hin & H)].
    + apply list_elem_of_singleton in Hin as ->. exists d. split; [by left|done].
    + exists d'. split; [by right|done].
Qed.

Lemma tail_neq {A} (l : list A) : l <> [] -> tail l <> l.
Proof.
  intros Hne E. apply (f_equal length) in E. destruct l; simpl in *; [done|lia].
Qed.

Lemma cleanup_ruleset_live best d cnt w :
  (forall p, doomed w [d] best p -> exists c t, files w !! p = Some (File c t)) ->
  exists w1 cnt1,
    cleanup_ruleset best false d cnt w = (w1, Return cnt1) /\
    clock w1 = clock w /\ ticks w1 = ticks w /\
    forall p,
      (doomed w [d] best p -> files w1 !! p = None) /\
      (~ doomed w [d] best p -> files w1 !! p = files w !! p).
Proof.
  intros Hfile. unfold cleanup_ruleset, skipped_dir. io_unfold.
  destruct (negb _ || startswith (Path.name d) ".") eqn:Hskip.
  - exists w, cnt. repeat split; try done.
    intros (d' & Hin & Hd & Hh & _). exfalso.
    apply list_elem_of_singleton in Hin as ->.
    rewrite Hd, Hh in Hskip. done.
  - apply orb_false_iff in Hskip as [Hd Hhid].
    assert (Hdir : files w !! d = Some Dir).
    { destruct (files w !! d) as [[]|]; done. }
    clear Hd.
    destruct (glob_spec d MODEL_GLOB w) as (l & -> & Hnd & Hl).
    assert (Hiff : forall p,
      doomed w [d] best p <->
      p ∈ l /\ is_best (Path.name d) (Path.name p) best = false).
    { intros p. rewrite Hl. unfold doomed. split.
      - intros (d' & Hin & H). apply list_elem_of_singleton in Hin as ->.
        tauto.
      - intros H. exists d. split; [by left|tauto]. }
    destruct (cleanup_files_live best (Path.name d) l Hnd cnt w)
      as (w1 & cnt1 & Hrun & Hc & Ht & Hlk).
    { intros m Hm Hb. apply Hfile, Hiff. done. }
    exists w1, cnt1. repeat split; try done.
    + intros Hp. rewrite Hlk, bool_decide_eq_true_2; [done|by apply Hiff].
    + intros Hp. rewrite Hlk, bool_decide_eq_false_2; [done|].
      intros H. by apply Hp, Hiff.
Qed.

Lemma cleanup_rulesets_live dest best ds :
  NoDup ds -> (forall d, d ∈ ds -> child_of dest d) -> forall cnt w,
  (forall p, doomed w ds best p -> exists c t, files w !! p = Some (File c t)) ->
  exists w' cnt',
    for_each ds (cleanup_ruleset best false) cnt w = (w', Return cnt') /\
    clock w' = clock w /\ ticks w' = ticks w /\
    forall p,
      (doomed w ds best p -> files w' !! p = None) /\
      (~ doomed w ds best p -> files w' !! p = files w !! p).
Proof.
  induction 1 as [|d ds Hnin Hnd IH]; intros Hch cnt w Hfile.
  - exists w, cnt. repeat split; try done.
    intros (d & Hin & _). by apply elem_of_nil in Hin.
  - destruct (cleanup_ruleset_live best d cnt w) as (w1 & cnt1 & Hrun1 & Hc1 & Ht1 & H1).
    { intros p Hp. apply Hfile, doomed_cons. by left. }
    assert (Hd0 : child_of dest d) by (apply Hch; by left).
    (* entries of the later directories are out of reach of this step *)
    assert (Hsame : forall d' p, d' ∈ ds -> p = d' \/ child_of d' p ->
                                 files w1 !! p = files w !! p).
    { intros d' p Hin Hp. apply H1. intros (d0 & Hin0 & _ & _ & Hc0 & _).
      apply list_elem_of_singleton in Hin0 as ->.
      destruct Hp as [->|Hp].
      - assert (Hd' : child_of dest d') by (apply Hch; by right).
        destruct Hc0 as [_ E0], Hd' as [_ E1], Hd0 as [Hne E2].
        rewrite E1 in E0. subst d. by apply tail_neq in E2.
      - destruct Hc0 as [_ E0], Hp as [_ E1]. rewrite E1 in E0. by subst. }
    assert (Hiff : forall p, doomed w1 ds best p <-> doomed w ds best p).
    { intros p. unfold doomed. split.
      - intros (d' & Hin & Hd & Hh & Hc & Hf & Hs & Hb). exists d'.
        rewrite (Hsame d' d') in Hd by auto.
        rewrite (Hsame d' p) in Hs by auto. done.
      - intros (d' & Hin & Hd & Hh & Hc & Hf & Hs & Hb). exists d'.
        rewrite (Hsame d' d') by auto. rewrite (Hsame d' p) by auto. done. }
    destruct (IH (fun d' Hd' => Hch d' (list_elem_of_further _ _ _ Hd')) cnt1 w1)
      as (w' & cnt' & Hrun & Hc & Ht & H2).
    { intros p Hp. pose proof Hp as (d' & Hin & _ & _ & Hcp & _).
      rewrite (Hsame d' p) by auto.
      apply Hfile, doomed_cons. right. by apply Hiff. }
    exists w', cnt'. rewrite for_each_cons, Hrun1.
    split; [done|]. split; [congruence|]. split; [congruence|].
    intros p. split.
    + intros Hp. apply doomed_cons in Hp as [Hp|Hp].
      * destruct (H2 p) as [Hdel Hkeep], (H1 p) as [Hdel1 _].
        specialize (Hdel1 Hp).
        assert (Hnot : ~ doomed w1 ds best p).
        { intros (_ & _ & _ & _ & _ & _ & [v Hv] & _). congruence. }
        rewrite (Hkeep Hnot). done.
      * apply H2, Hiff. done.
    + intros Hp.
      assert (Hn1 : ~ doomed w [d] best p).
      { intros H. apply Hp, doomed_cons. by left. }
      assert (Hn2 : ~ doomed w1 ds best p).
      { intros H. apply Hp, doomed_cons. right. by apply Hiff. }
      destruct (H2 p) as [_ Hkeep], (H1 p) as [_ Hkeep1].
      rewrite (Hkeep Hn2), (Hkeep1 Hn1). done.
Qed.

Lemma stale_doomed w dest d best p :
  (forall r n, is_best r n best = is_referenced d r n) ->
  stale (files w) dest d p = true <->
  doomed w (children (files w) dest) best p.
Proof.
  intros Hb. unfold stale, doomed. split.
  - destruct p as [|n [|c root]]; try done.
    rewrite !andb_true_iff, bool_decide_eq_true, negb_true_iff, negb_true_iff.
    intros (((((-> & Hd) & Hh) & Hf) & Hs) & Hr).
    exists (dest </> c).
    destruct (files w !! (dest </> c)) as [[]|] eqn:Hdir; try done.
    split; [apply elem_of_children; split; [by rewrite Hdir|done]|].
    split; [done|]. split; [done|]. split; [done|]. split; [done|].
    split; [by destruct (files w !! (n :: c :: dest))|].
    simpl. rewrite Hb. done.
  - intros (d0 & Hin & Hd & Hh & Hc & Hf & Hs & Hbest).
    apply elem_of_children in Hin as [_ Hc0].
    destruct d0 as [|c d0]; [by destruct Hc0|].
    destruct Hc0 as [_ E]. simpl in E. subst d0.
    destruct p as [|n p]; [by destruct Hc|].
    destruct Hc as [_ E]. simpl in E. subst p. simpl in *.
    rewrite bool_decide_eq_true_2 by done.
    unfold Path.joinpath. rewrite Hd, Hh, Hf, <- Hb, Hbest.
    destruct Hs as [v ->]. done.
Qed.

(** C2.  With a destination manifest that reads as a mapping (whose
    [model_file] values can be hashed), and no directory among the
    entries to delete, a live [cleanup_old_models] returns, and what it
    has deleted is exactly the [stale] entries: those lying in a
    ruleset directory of the destination root that is not hidden, whose
    name matches [model_*.json] and whose (ruleset, name) pair no
    well-formed manifest entry references.  Every other path, the
    referenced files and the files not matching the glob among them,
    is as before. *)
Theorem cleanup_deletes_exactly dest w text mtime d :
  files w !! dest = Some Dir ->
  files w !! (dest </> BEST_MODELS_FILENAME) = Some (File text mtime) ->
  json_load text = Some (JDict d) ->
  manifest_hashable d = true ->
  (forall p, stale (files w) dest d p = true -> files w !! p <> Some Dir) ->
  exists w',
    cleanup_old_models json_load dest false w = (w', Return tt) /\
    clock w' = clock w /\ ticks w' = ticks w /\
    forall p,
      files w' !! p = if stale (files w) dest d p then None else files w !! p.
Proof.
  intros Hdest Hman Hload Hhash Hnodir.
  destruct (collect_best_spec d [] w Hhash) as (best & Hcol & Hbest).
  assert (Hb : forall r n, is_best r n best = is_referenced d r n).
  { intros r n. rewrite Hbest. simpl. apply orb_false_r. }
  destruct (cleanup_rulesets_live dest best (children (files w) dest)
              (NoDup_children _ _)) with (cnt := 0) (w := w)
    as (w' & cnt' & Hrun & Hc & Ht & H).
  { intros d0 Hd0. by apply elem_of_children in Hd0 as [_ ?]. }
  { intros p Hp. apply (stale_doomed w dest d best p Hb) in Hp.
    pose proof Hp as Hst. apply Hnodir in Hp.
    unfold stale in Hst. destruct p as [|n [|c root]]; try done.
    destruct (files w !! (n :: c :: root)) as [[c0 t0|]|]; try done.
    - eauto.
    - by rewrite !andb_false_r in Hst. }
  exists w'. split.
  { unfold cleanup_old_models, bind, try_except, path_exists, lookup_node.
    rewrite Hman. simpl. rewrite (read_json_ok _ _ _ _ _ Hman Hload). simpl.
    rewrite Hcol, (iterdir_dir _ _ Hdest), Hrun. done. }
  split; [done|]. split; [done|].
  intros p. destruct (stale (files w) dest d p) eqn:Hst.
  - apply H, (stale_doomed w dest d best p Hb). done.
  - apply H. intros Hd. apply (stale_doomed w dest d best p Hb) in Hd.
    congruence.
Qed.

(** *** A deletion that fails *)

Lemma cleanup_file_dir best r m cnt w :
  is_best r (Path.name m) best = false -> files w !! m = Some Dir ->
  cleanup_file best false r m cnt w = (w, Raise IsADirectoryError).
Proof.
  intros Hb Hm. unfold cleanup_file, bind, unlink, lookup_node.
  by rewrite Hb, Hm.
Qed.

Lemma cleanup_files_raises best r ms : forall cnt w m,
  m ∈ ms -> is_best r (Path.name m) best = false ->
  files w !! m = Some Dir ->
  exists w' e, for_each ms (cleanup_file best false r) cnt w = (w', Raise e).
Proof.
  induction ms as [|x ms IH]; intros cnt w m Hin Hb Hm.
  - by apply elem_of_nil in Hin.
  - rewrite for_each_cons.
    pose proof (only_deletes_cleanup_file (fun _ => True) best false r x cnt w I)
      as Hod.
    destruct (cleanup_file best false r x cnt w) as [w1 [c1|e]] eqn:Hx;
      [|eauto].
    apply elem_of_cons in Hin as [Heq|Hin]; [subst x|].
    + rewrite cleanup_file_dir in Hx by done. done.
    + apply (IH c1 w1 m Hin Hb). by eapply only_deletes_dir.
Qed.

Lemma only_deletes_cleanup_ruleset_any best dry d cnt w :
  only_deletes (fun _ => True) w (fst (cleanup_ruleset best dry d cnt w)).
Proof.
  unfold cleanup_ruleset, skipped_dir. io_unfold.
  destruct (negb _ || startswith (Path.name d) ".");
    [apply only_deletes_refl|].
  destruct (glob_spec d MODEL_GLOB w) as (l & -> & _ & Hl).
  apply only_deletes_for_each. intros m s w' Hm.
  by apply only_deletes_cleanup_file.
Qed.

Lemma cleanup_ruleset_raises best d m cnt w :
  files w !! d = Some Dir -> startswith (Path.name d) "." = false ->
  child_of d m -> fnmatch MODEL_GLOB (Path.name m) = true ->
  files w !! m = Some Dir ->
  is_best (Path.name d) (Path.name m) best = false ->
  exists w' e, cleanup_ruleset best false d cnt w = (w', Raise e).
Proof.
  intros Hd Hh Hc Hf Hm Hb. unfold cleanup_ruleset, skipped_dir. io_unfold.
  rewrite Hd, Hh. simpl.
  destruct (glob_spec d MODEL_GLOB w) as (l & -> & _ & Hl).
  apply (cleanup_files_raises best _ l cnt w m); try done.
  apply Hl. rewrite Hm. eauto.
Qed.

Lemma cleanup_rulesets_raises best ds : forall cnt w d m,
  d ∈ ds ->
  files w !! d = Some Dir -> startswith (Path.name d) "." = false ->
  child_of d m -> fnmatch MODEL_GLOB (Path.name m) = true ->
  files w !! m = Some Dir ->
  is_best (Path.name d) (Path.name m) best = false ->
  exists w' e, for_each ds (cleanup_ruleset best false) cnt w = (w', Raise e).
Proof.
  induction ds as [|x ds IH]; intros cnt w d m Hin Hd Hh Hc Hf Hm Hb.
  - by apply elem_of_nil in Hin.
  - rewrite for_each_cons.
    pose proof (only_deletes_cleanup_ruleset_any best false x cnt w) as Hod.
    destruct (cleanup_ruleset best false x cnt w) as [w1 [c1|e]] eqn:Hx;
      [|eauto].
    apply elem_of_cons in Hin as [Heq|Hin]; [subst x|].
    + destruct (cleanup_ruleset_raises best d m cnt w) as (w2 & e & Hr);
        try done.
      congruence.
    + apply (IH c1 w1 d m Hin); try done; by eapply only_deletes_dir.
Qed.

Lemma cleanup_files_abort best r pre m post cnt w :
  NoDup (pre ++ m :: post) ->
  (forall x, x ∈ pre -> is_best r (Path.name x) best = false ->
             exists c t, files w !! x = Some (File c t)) ->
  is_best r (Path.name m) best = false -> files w !! m = Some Dir ->
  exists w',
    for_each (pre ++ m :: post) (cleanup_file best false r) cnt w
    = (w', Raise IsADirectoryError) /\
    (forall x, x ∈ pre -> is_best r (Path.name x) best = false ->
               files w' !! x = None) /\
    (forall q, q ∈ post -> files w' !! q = files w !! q).
Proof.
  intros Hnd Hpre Hb Hm.
  apply NoDup_app in Hnd as (Hnd1 & Hdisj & Hnd2).
  destruct (cleanup_files_live best r pre Hnd1 cnt w Hpre)
    as (w1 & cnt1 & Hrun & _ & _ & Hlk).
  exists w1. rewrite for_each_app. unfold bind. rewrite Hrun, for_each_cons.
  rewrite cleanup_file_dir; [|done|].
  - split; [done|]. split.
    + intros x Hx Hbx. rewrite Hlk, bool_decide_eq_true_2; done.
    + intros q Hq. rewrite Hlk, bool_decide_eq_false_2; [done|].
      intros [Hin _]. apply (Hdisj q Hin). by right.
  - rewrite Hlk, bool_decide_eq_false_2; [done|].
    intros [Hin _]. apply (Hdisj m Hin). by left.
Qed.

(** C3, as the code has it.  The cleanup pass does not isolate a
    failing deletion.  When an entry it is to delete cannot be
    unlinked (here: it is a directory), the error leaves
    [cleanup_old_models] as a raised exception; by then the pass has
    done nothing but unlink regular files.  In the loop over one
    ruleset the entries listed before the failing one have been
    deleted and those listed after it have not been visited. *)
Theorem cleanup_unlink_error_propagates dest w text mtime d p :
  files w !! dest = Some Dir ->
  files w !! (dest </> BEST_MODELS_FILENAME) = Some (File text mtime) ->
  json_load text = Some (JDict d) ->
  manifest_hashable d = true ->
  stale (files w) dest d p = true ->
  files w !! p = Some Dir ->
  (exists w' e,
     cleanup_old_models json_load dest false w = (w', Raise e) /\
     only_deletes (unlinkable dest) w w') /\
  (forall best r pre m post cnt w0,
     NoDup (pre ++ m :: post) ->
     (forall x, x ∈ pre -> is_best r (Path.name x) best = false ->
                exists c t, files w0 !! x = Some (File c t)) ->
     is_best r (Path.name m) best = false -> files w0 !! m = Some Dir ->
     exists w',
       for_each (pre ++ m :: post) (cleanup_file best false r) cnt w0
       = (w', Raise IsADirectoryError) /\
       (forall x, x ∈ pre -> is_best r (Path.name x) best = false ->
                  files w' !! x = None) /\
       (forall q, q ∈ post -> files w' !! q = files w0 !! q)).
Proof.
  intros Hdest Hman Hload Hhash Hst Hp.
  split; [|intros; by apply cleanup_files_abort].
  destruct (collect_best_spec d [] w Hhash) as (best & Hcol & Hbest).
  assert (Hb : forall r n, is_best r n best = is_referenced d r n).
  { intros r n. rewrite Hbest. simpl. apply orb_false_r. }
  apply (stale_doomed w dest d best p Hb) in Hst
    as (d0 & Hin & Hd & Hh & Hc & Hf & _ & Hnb).
  destruct (cleanup_rulesets_raises best (children (files w) dest) 0 w d0 p)
    as (w' & e & Hrun); try done.
  exists w', e.
  assert (Heq : cleanup_old_models json_load dest false w = (w', Raise e)).
  { unfold cleanup_old_models, bind, try_except, path_exists, lookup_node.
    rewrite Hman. simpl. rewrite (read_json_ok _ _ _ _ _ Hman Hload). simpl.
    rewrite Hcol, (iterdir_dir _ _ Hdest), Hrun. done. }
  split; [done|].
  pose proof (cleanup_only_deletes dest false w) as H. by rewrite Heq in H.
Qed.

End Cleanup.

(** ** Dictionaries *)

Lemma dict_get_set_eq {V} k (v : V) d : dict_get k (dict_set k v d) = Some v.
Proof.
  induction d as [|[k' v'] d IH]; simpl.
  - by rewrite String.eqb_refl.
  - destruct (String.eqb k' k) eqn:E; simpl; rewrite E; done.
Qed.

Lemma dict_get_set_ne {V} k k' (v : V) d :
  k <> k' -> dict_get k' (dict_set k v d) = dict_get k' d.
Proof.
  intros Hne. induction d as [|[k0 v0] d IH]; simpl.
  - destruct (String.eqb_spec k k'); done.
  - destruct (String.eqb_spec k0 k) as [->|H0]; simpl.
    + destruct (String.eqb_spec k k'); done.
    + destruct (String.eqb_spec k0 k'); done.
Qed.

Lemma upsert_all_cons now r f synced d :
  upsert_all now ((r, f) :: synced) d
  = upsert_all now synced (dict_set r (best_entry f now) d).
Proof. reflexivity. Qed.

Lemma upsert_all_other now synced : forall d k,
  k ∉ dict_keys synced ->
  dict_get k (upsert_all now synced d) = dict_get k d.
Proof.
  induction synced as [|[r f] synced IH]; intros d k Hk; [done|].
  unfold dict_keys in Hk. simpl in Hk. apply not_elem_of_cons in Hk as [Hne Hk].
  rewrite upsert_all_cons, IH by done. by apply dict_get_set_ne.
Qed.

Lemma upsert_all_synced now synced : forall d k,
  k ∈ dict_keys synced ->
  exists f, (k, f) ∈ synced /\
            dict_get k (upsert_all now synced d) = Some (best_entry f now).
Proof.
  induction synced as [|[r f] synced IH]; intros d k Hk.
  - by apply elem_of_nil in Hk.
  - rewrite upsert_all_cons.
    destruct (decide (k ∈ dict_keys synced)) as [Hin|Hnin].
    + destruct (IH (dict_set r (best_entry f now) d) k Hin) as (f' & Hf' & Hg).
      exists f'. split; [by right|done].
    + unfold dict_keys in Hk. simpl in Hk.
      apply elem_of_cons in Hk as [->|Hk]; [|done].
      exists f. split; [by left|].
      rewrite upsert_all_other by done. apply dict_get_set_eq.
Qed.

(** ** Timestamps *)

Lemma is_digit_digit n : is_digit (digit n) = true.
Proof.
  unfold digit. pose proof (Nat.mod_upper_bound n 10 ltac:(lia)) as H.
  generalize dependent (n mod 10). intros k Hk.
  do 10 (destruct k as [|k]; [reflexivity|]). exfalso. lia.
Qed.

Lemma strftime_date_format now : date_format (strftime_date now) = true.
Proof.
  unfold strftime_date, pad4, pad2, date_format.
  cbv [String.append forallb]. rewrite !is_digit_digit. reflexivity.
Qed.

Lemma strftime_time_format now : time_format (strftime_time now) = true.
Proof.
  unfold strftime_time, pad2, time_format.
  cbv [String.append forallb]. rewrite !is_digit_digit. reflexivity.
Qed.

(** ** Updating the destination manifest *)

Section Update.

Variable json_load : string -> option json.
Variable json_dump : json -> string.

Lemma upsert_loop now synced : forall d w,
  for_each synced
    (fun '(ruleset, model_filename) dest_best =>
       setitem dest_best ruleset (best_entry model_filename now))
    (JDict d) w
  = (w, Return (JDict (upsert_all now synced d))).
Proof.
  induction synced as [|[r f] synced IH]; intros d w; [done|].
  rewrite for_each_cons. simpl. unfold ret. rewrite IH. done.
Qed.

Lemma tmp_path dest :
  Path.with_suffix (dest </> BEST_MODELS_FILENAME)
    (Path.suffix (dest </> BEST_MODELS_FILENAME) ++ ".tmp")
  = dest </> "best_models.json.tmp".
Proof. reflexivity. Qed.

Lemma write_file_ok p c w :
  files w !! p <> Some Dir -> files w !! Path.parent p = Some Dir ->
  write_file p c w
  = (set_files (insert p (File c (current_time w))) w, Return tt).
Proof.
  intros Hp Hq. unfold write_file, lookup_node. rewrite Hq.
  destruct (files w !! p) as [[]|]; done.
Qed.

Lemma replace_ok p target c m w :
  files w !! p = Some (File c m) ->
  files w !! target <> Some Dir ->
  files w !! Path.parent target = Some Dir ->
  replace p target w
  = (set_files (fun fs => delete p (<[target := File c m]> fs)) w, Return tt).
Proof.
  intros Hp Ht Hq. unfold replace, lookup_node. rewrite Hp, Hq.
  destruct (files w !! target) as [[]|]; done.
Qed.

Lemma write_json_manifest dest data w :
  let manifest := dest </> BEST_MODELS_FILENAME in
  let tmp := dest </> "best_models.json.tmp" in
  files w !! dest = Some Dir ->
  files w !! manifest <> Some Dir ->
  files w !! tmp <> Some Dir ->
  exists w',
    write_json json_dump manifest data w = (w', Return tt) /\
    clock w' = clock w /\ ticks w' = ticks w /\
    files w' !! manifest
    = Some (File (json_dump data ++ String "010" "") (current_time w)) /\
    files w' !! tmp = None /\
    forall p, p <> manifest -> p <> tmp -> files w' !! p = files w !! p.
Proof.
  intros manifest tmp Hdest Hman Htmp.
  unfold write_json.
  change (Path.with_suffix manifest (Path.suffix manifest ++ ".tmp")) with tmp.
  assert (Hne : tmp <> manifest) by (intros E; inversion E).
  assert (Hnd : tmp <> dest).
  { intros E. apply (f_equal length) in E. unfold tmp in E. simpl in E. lia. }
  unfold bind. rewrite write_file_ok by done.
  erewrite replace_ok.
  - eexists. split; [reflexivity|]. simpl. split; [done|]. split; [done|].
    split; [by rewrite lookup_delete_ne, lookup_insert_eq|].
    split; [by rewrite lookup_delete_eq|].
    intros p Hp1 Hp2. by rewrite lookup_delete_ne, !lookup_insert_ne.
  - rewrite set_files_lookup. apply lookup_insert_eq.
  - rewrite set_files_lookup, lookup_insert_ne; done.
  - rewrite set_files_lookup, lookup_insert_ne; done.
Qed.

Lemma write_json_ticks p data w :
  ticks (fst (write_json json_dump p data w)) = ticks w /\
  clock (fst (write_json json_dump p data w)) = clock w.
Proof.
  unfold write_json, bind, write_file, replace, lookup_node.
  repeat (case_match; simplify_eq; simpl in *; try done).
Qed.

(** What a live update with a non-empty sync result does. *)
Lemma update_live_spec dest synced w d0 :
  let manifest := dest </> BEST_MODELS_FILENAME in
  let tmp := dest </> "best_models.json.tmp" in
  let now := current_time w in
  let d1 := upsert_all now synced d0 in
  synced <> [] ->
  existing_manifest json_load w dest = Some d0 ->
  files w !! dest = Some Dir ->
  files w !! manifest <> Some Dir ->
  files w !! tmp <> Some Dir ->
  exists w',
    update_dest_best_models json_load json_dump dest synced false w
    = (w', Return tt) /\
    clock w' = clock w /\ ticks w' = S (ticks w) /\
    files w' !! manifest
    = Some (File (json_dump (JDict d1) ++ String "010" "")
                 (clock w (S (ticks w)))) /\
    files w' !! tmp = None /\
    forall p, p <> manifest -> p <> tmp -> files w' !! p = files w !! p.
Proof.
  intros manifest tmp now d1 Hne Hex Hdest Hman Htmp.
  set (w1 := {| files := files w; clock := clock w; ticks := S (ticks w) |}).
  destruct (write_json_manifest dest (JDict d1) w1 Hdest Hman Htmp)
    as (w' & Hrun & Hc & Ht & Hm & Htm & Hfr).
  exists w'. split; [|done].
  unfold update_dest_best_models. destruct synced as [|s0 synced]; [done|].
  unfold existing_manifest in Hex. fold manifest in Hex |- *.
  unfold bind at 1. unfold path_exists, lookup_node.
  assert (Hread :
    (if match files w !! manifest with Some _ => true | None => false end
     then try_except (read_json json_load manifest) (fun _ => ret (JDict []))
     else ret (JDict [])) w = (w, Return (JDict d0))).
  { destruct (files w !! manifest) as [[text t|]|] eqn:E;
      [|by simplify_eq..].
    unfold try_except, read_json, bind, read_file, lookup_node. rewrite E.
    destruct (json_load text) as [[]|]; by simplify_eq. }
  unfold bind at 1. rewrite Hread.
  unfold bind at 1. unfold datetime_now. fold w1. fold now.
  unfold bind. rewrite upsert_loop. fold d1. exact Hrun.
Qed.

Lemma update_ticks dest synced dry w :
  synced <> [] ->
  ticks (fst (update_dest_best_models json_load json_dump dest synced dry w))
  = S (ticks w).
Proof.
  intros Hne. unfold update_dest_best_models.
  destruct synced as [|s0 synced]; [done|].
  set (manifest := dest </> BEST_MODELS_FILENAME).
  unfold bind at 1. unfold path_exists, lookup_node.
  set (rd := if match files w !! manifest with Some _ => true | None => false end
             then try_except (read_json json_load manifest) (fun _ => ret (JDict []))
             else ret (JDict [])).
  assert (Hrd : exists j, rd w = (w, Return j)).
  { unfold rd. destruct (files w !! manifest) as [[text t|]|] eqn:E.
    - unfold try_except, read_json, bind, read_file, lookup_node. rewrite E.
      destruct (json_load text); eauto.
    - unfold try_except, read_json, bind, read_file, lookup_node. rewrite E.
      eauto.
    - eauto. }
  destruct Hrd as [j Hrd]. unfold bind at 1. rewrite Hrd.
  unfold bind at 1. unfold datetime_now.
  set (w1 := {| files := files w; clock := clock w; ticks := S (ticks w) |}).
  unfold bind.
  match goal with
  | |- context [for_each ?l ?b j w1] =>
      assert (Hloop : fst (for_each l b j w1) = w1)
  end.
  { apply for_each_unchanged. intros [r f] s w0. by destruct s. }
  match goal with
  | |- context [for_each ?l ?b j w1] => destruct (for_each l b j w1) as [w2 [j2|e]]
  end; simpl in Hloop; subst w2; [|done].
  destruct dry; [done|]. by rewrite (proj1 (write_json_ticks _ _ _)).
Qed.

(** C8.  With an empty sync result [update_dest_best_models] does
    nothing.  With a non-empty one, and a destination manifest that is
    missing, unreadable or a mapping [d0], the live update rewrites the
    manifest (through its temporary sibling) and nothing else; the
    mapping [d1] it writes agrees with [d0] on every ruleset that is
    not in the sync result, and binds every ruleset of the result to
    [{model_file: filename, date: YYYY-MM-DD, time: HH:MM:SS}] for a
    filename the result gives it, stamped with the time read during
    the update.  A dry update leaves the files alone. *)
Theorem update_touches_only_synced dest synced w d0 :
  let manifest := dest </> BEST_MODELS_FILENAME in
  let tmp := dest </> "best_models.json.tmp" in
  let now := current_time w in
  (forall dry_run,
     update_dest_best_models json_load json_dump dest [] dry_run w
     = (w, Return tt)) /\
  (synced <> [] ->
   existing_manifest json_load w dest = Some d0 ->
   files w !! dest = Some Dir ->
   files w !! manifest <> Some Dir ->
   files w !! tmp <> Some Dir ->
   files (fst (update_dest_best_models json_load json_dump dest synced true w))
   = files w /\
   exists w' d1,
     update_dest_best_models json_load json_dump dest synced false w
     = (w', Return tt) /\
     files w' !! manifest
     = Some (File (json_dump (JDict d1) ++ String "010" "")
                  (clock w (S (ticks w)))) /\
     (forall p, p <> manifest -> p <> tmp -> files w' !! p = files w !! p) /\
     (forall k, k ∉ dict_keys synced -> dict_get k d1 = dict_get k d0) /\
     (forall k, k ∈ dict_keys synced ->
        exists f, (k, f) ∈ synced /\
          dict_get k d1
          = Some (JDict [("model_file", JStr f);
                         ("date", JStr (strftime_date now));
                         ("time", JStr (strftime_time now))])) /\
     date_format (strftime_date now) = true /\
     time_format (strftime_time now) = true).
Proof.
  intros manifest tmp now. split; [done|].
  intros Hne Hex Hdest Hman Htmp.
  split; [apply keeps_files_update_dry|].
  destruct (update_live_spec dest synced w d0 Hne Hex Hdest Hman Htmp)
    as (w' & Hrun & _ & _ & Hm & _ & Hfr).
  exists w', (upsert_all now synced d0).
  split; [done|]. split; [done|]. split; [done|].
  split; [intros k Hk; by apply upsert_all_other|].
  split; [intros k Hk; by apply upsert_all_synced|].
  split; [apply strftime_date_format|apply strftime_time_format].
Qed.

(** C9.  One update reads the clock once, dry or live, and every entry
    it upserts carries the same date string and the same time
    string. *)
Theorem update_single_timestamp dest synced w d0 :
  let manifest := dest </> BEST_MODELS_FILENAME in
  let tmp := dest </> "best_models.json.tmp" in
  synced <> [] ->
  existing_manifest json_load w dest = Some d0 ->
  files w !! dest = Some Dir ->
  files w !! manifest <> Some Dir ->
  files w !! tmp <> Some Dir ->
  (forall dry_run,
     ticks (fst (update_dest_best_models json_load json_dump dest synced
                   dry_run w))
     = S (ticks w)) /\
  exists w' d1 date time,
    update_dest_best_models json_load json_dump dest synced false w
    = (w', Return tt) /\
    files w' !! manifest
    = Some (File (json_dump (JDict d1) ++ String "010" "")
                 (clock w (S (ticks w)))) /\
    forall k, k ∈ dict_keys synced ->
      exists f, (k, f) ∈ synced /\
        dict_get k d1
        = Some (JDict [("model_file", JStr f);
                       ("date", JStr date);
                       ("time", JStr time)]).
Proof.
  intros manifest tmp Hne Hex Hdest Hman Htmp.
  split; [intros dry; by apply update_ticks|].
  destruct (update_live_spec dest synced w d0 Hne Hex Hdest Hman Htmp)
    as (w' & Hrun & _ & _ & Hm & _ & _).
  exists w', (upsert_all (current_time w) synced d0),
    (strftime_date (current_time w)), (strftime_time (current_time w)).
  split; [done|]. split; [done|].
  intros k Hk. by apply upsert_all_synced.
Qed.

End Update.

(** ** Sync-all: order and last-one-wins *)

Lemma for_each_sim {A S T} (f : T -> S) (l : list A)
    (body1 : A -> S -> IO S) (body2 : A -> T -> IO T) :
  (forall x t w, body1 x (f t) w = io_map f (body2 x t) w) ->
  forall t w, for_each l body1 (f t) w = io_map f (for_each l body2 t) w.
Proof.
  intros Hb. induction l as [|x l IH]; intros t w; [done|].
  rewrite for_each_cons, Hb. unfold io_map, bind. rewrite for_each_cons.
  destruct (body2 x t w) as [w1 [t1|e]]; [|done].
  unfold ret at 1. rewrite IH. done.
Qed.

Lemma record_snoc tr e s :
  record (tr ++ [e]) s
  = (let '(r, n, b) := e in
     if b : bool then dict_set r n (record tr s) else record tr s).
Proof. unfold record. rewrite fold_left_app. by destruct e as [[r n] b]. Qed.

Lemma last_copied_snoc c tr r n b :
  last_copied c (tr ++ [(r, n, b)])
  = if b && String.eqb r c then Some n else last_copied c tr.
Proof. unfold last_copied. by rewrite fold_left_app. Qed.

Lemma record_last_copied tr c :
  dict_get c (record tr []) = last_copied c tr.
Proof.
  induction tr as [|[[r n] b] tr IH] using rev_ind; [done|].
  rewrite record_snoc, last_copied_snoc. destruct b; simpl; [|done].
  destruct (String.eqb_spec r c) as [->|Hne].
  - apply dict_get_set_eq.
  - by rewrite dict_get_set_ne.
Qed.

Lemma string_le_trans a b c : string_le a b -> string_le b c -> string_le a c.
Proof.
  unfold string_le, String.leb. intros Hab Hbc.
  destruct (String.compare a b) eqn:Eab; [|clear Hab|done].
  - apply String_as_OT.cmp_eq in Eab. by subst.
  - destruct (String.compare b c) eqn:Ebc; [| |done].
    + apply String_as_OT.cmp_eq in Ebc. subst. by rewrite Eab.
    + apply String_as_OT.cmp_lt in Eab, Ebc.
      pose proof (String_as_OT.lt_trans _ _ _ Eab Ebc) as Hac.
      apply String_as_OT.cmp_lt in Hac. unfold String_as_OT.cmp in Hac.
      by rewrite Hac.
Qed.

#[global] Instance path_le_total : Total path_le.
Proof.
  intros p q. unfold path_le.
  destruct (String.leb_total (Path.name p) (Path.name q)) as [H|H];
    rewrite H; auto.
Qed.

#[global] Instance path_le_trans : Transitive path_le.
Proof. intros p q r. apply string_le_trans. Qed.

Lemma sorted_names l : StronglySorted string_le (map Path.name (sorted l)).
Proof.
  apply (StronglySorted_fmap Path.name path_le string_le).
  - by intros p q.
  - apply StronglySorted_merge_sort; apply _.
Qed.

Lemma sorted_elem_of l p : p ∈ sorted l <-> p ∈ l.
Proof. unfold sorted. by rewrite merge_sort_Permutation. Qed.

Lemma names_of_app c a b : names_of c (a ++ b) = names_of c a ++ names_of c b.
Proof. unfold names_of. by rewrite filter_app, map_app. Qed.

Lemma names_of_block c c' (evs : list (string * string * bool)) (ns : list string) :
  map (fun e => (fst (fst e), snd (fst e))) evs = map (fun n => (c, n)) ns ->
  names_of c' evs = if decide (c = c') then ns else [].
Proof.
  revert ns. induction evs as [|[[r n] b] evs IH]; intros [|n0 ns] H;
    simplify_eq/=.
  - by destruct (decide _).
  - unfold names_of in *. rewrite filter_cons. simpl.
    specialize (IH ns H0). destruct (decide (c = c')); simpl.
    + by rewrite IH.
    + done.
Qed.

Lemma NoDup_children_names fs p : NoDup (map Path.name (children fs p)).
Proof.
  apply (NoDup_fmap_2_strong Path.name); [|apply NoDup_children].
  intros q1 q2 H1 H2 E.
  apply elem_of_children in H1 as [_ H1], H2 as [_ H2].
  apply child_of_inv in H1, H2. congruence.
Qed.

Section SyncAll.

Variable md5 : string -> string.

Lemma sync_all_file_trace dest ow dry c m tr w :
  sync_all_file md5 dest ow dry c m (record tr []) w
  = io_map (fun tr' => record tr' []) (trace_file md5 dest ow dry c m tr) w.
Proof.
  unfold sync_all_file, trace_file, io_map, bind, ret.
  destruct (copy_model_file md5 m _ ow dry w) as [w1 [b|e]]; [|done].
  by rewrite record_snoc.
Qed.

Lemma sync_all_ruleset_trace dest ow dry d tr w :
  sync_all_ruleset md5 dest ow dry d (record tr []) w
  = io_map (fun tr' => record tr' []) (trace_ruleset md5 dest ow dry d tr) w.
Proof.
  unfold sync_all_ruleset, trace_ruleset, io_map, bind.
  destruct (skipped_dir d w) as [w1 [[]|e]]; [done| |done].
  destruct (glob d MODEL_GLOB w1) as [w2 [found|e]]; [|done].
  rewrite (for_each_sim (fun tr' => record tr' [])
             (sorted found) _ (trace_file md5 dest ow dry (Path.name d))).
  - done.
  - intros. apply sync_all_file_trace.
Qed.

Lemma sync_all_models_trace src dest ow dry w :
  sync_all_models md5 src dest ow dry w
  = io_map (fun tr => record tr []) (sync_all_trace md5 src dest ow dry) w.
Proof.
  unfold sync_all_models, sync_all_trace, io_map, bind.
  destruct (iterdir src w) as [w1 [dirs|e]]; [|done].
  change (@nil (string * string)) with (record [] []) at 1.
  rewrite (for_each_sim (fun tr' => record tr' [])
             dirs _ (trace_ruleset md5 dest ow dry)).
  - done.
  - intros. apply sync_all_ruleset_trace.
Qed.

Lemma trace_files_names dest ow dry c ms : forall tr w w' tr',
  for_each ms (trace_file md5 dest ow dry c) tr w = (w', Return tr') ->
  exists evs, tr' = tr ++ evs /\
    map (fun e => (fst (fst e), snd (fst e))) evs
    = map (fun n => (c, n)) (map Path.name ms).
Proof.
  induction ms as [|m ms IH]; intros tr w w' tr' Hrun.
  - simpl in Hrun. unfold ret in Hrun. simplify_eq. exists [].
    by rewrite app_nil_r.
  - rewrite for_each_cons in Hrun. unfold trace_file at 1, bind in Hrun.
    destruct (copy_model_file md5 m _ ow dry w) as [w1 [b|e]]; [|done].
    unfold ret at 1 in Hrun. apply IH in Hrun as (evs & -> & Hev).
    exists ((c, Path.name m, b) :: evs). rewrite <- app_assoc.
    split; [done|]. simpl. by rewrite Hev.
Qed.

Lemma trace_ruleset_ordered dest ow dry d ds tr w w' tr' :
  Path.name d ∉ map Path.name ds ->
  ordered_trace (d :: ds) tr ->
  trace_ruleset md5 dest ow dry d tr w = (w', Return tr') ->
  ordered_trace ds tr'.
Proof.
  intros Hnin Hinv Hrun. unfold trace_ruleset, skipped_dir in Hrun.
  io_unfold.
  destruct (negb _ || startswith (Path.name d) ".") eqn:Hskip.
  - simplify_eq. intros c. destruct (Hinv c) as (H1 & H2 & H3).
    split; [done|]. split; [|done]. intros Hc. apply H2. simpl. by right.
  - apply orb_false_iff in Hskip as [_ Hhid].
    destruct (glob_spec d MODEL_GLOB w) as (found & Hg & _ & Hfound).
    rewrite Hg in Hrun.
    apply trace_files_names in Hrun as (evs & -> & Hev).
    intros c. destruct (Hinv c) as (H1 & H2 & H3).
    rewrite names_of_app, (names_of_block _ c _ _ Hev).
    destruct (decide (Path.name d = c)) as [<-|Hne].
    + rewrite H2 by (simpl; by left). simpl.
      split; [apply sorted_names|]. split; [done|].
      intros n Hn. apply list_elem_of_fmap in Hn as (q & -> & Hq).
      apply sorted_elem_of, Hfound in Hq. by destruct Hq as (_ & _ & _ & ?).
    + rewrite app_nil_r. split; [done|]. split; [|done].
      intros Hc. apply H2. simpl. by right.
Qed.

Lemma trace_rulesets_ordered dest ow dry ds : forall tr w w' tr',
  NoDup (map Path.name ds) ->
  ordered_trace ds tr ->
  for_each ds (trace_ruleset md5 dest ow dry) tr w = (w', Return tr') ->
  ordered_trace [] tr'.
Proof.
  induction ds as [|d ds IH]; intros tr w w' tr' Hnd Hinv Hrun.
  - simpl in Hrun. unfold ret in Hrun. by simplify_eq.
  - rewrite for_each_cons in Hrun. simpl in Hnd. apply NoDup_cons in Hnd as [Hnin Hnd].
    destruct (trace_ruleset md5 dest ow dry d tr w) as [w1 [tr1|e]] eqn:Hd;
      [|done].
    eapply IH; [done| |exact Hrun].
    by eapply trace_ruleset_ordered.
Qed.

Lemma trace_files_dry dest ow c ms : forall tr w,
  for_each ms (trace_file md5 dest ow true c) tr w
  = (w, Return (tr ++ map (fun m =>
                             (c, Path.name m,
                              would_copy md5 (files w) m
                                (dest </> c </> Path.name m) ow)) ms)).
Proof.
  induction ms as [|m ms IH]; intros tr w.
  - simpl. by rewrite app_nil_r.
  - rewrite for_each_cons. unfold trace_file at 1, bind.
    rewrite copy_model_file_dry. unfold ret at 1. rewrite IH.
    by rewrite <- app_assoc.
Qed.

Lemma trace_ruleset_dry dest ow d tr w :
  trace_ruleset md5 dest ow true d tr w
  = (w, Return (tr ++ dry_events md5 (files w) dest ow d)).
Proof.
  unfold trace_ruleset, skipped_dir, dry_events, glob. io_unfold.
  destruct (files w !! d) as [[c t|]|] eqn:Hd; simpl;
    rewrite ?app_nil_r; try done.
  destruct (startswith (Path.name d) "."); simpl; [by rewrite app_nil_r|].
  rewrite Hd. apply trace_files_dry.
Qed.

Lemma trace_rulesets_dry dest ow ds : forall tr w,
  for_each ds (trace_ruleset md5 dest ow true) tr w
  = (w, Return (tr ++ flat_map (dry_events md5 (files w) dest ow) ds)).
Proof.
  induction ds as [|d ds IH]; intros tr w.
  - simpl. by rewrite app_nil_r.
  - rewrite for_each_cons, trace_ruleset_dry, IH. simpl.
    by rewrite <- app_assoc.
Qed.

(** C4.  [sync_all_models] returns what its trace of
    [copy_model_file] calls leads to, and raises when the trace does:
    the result maps every ruleset to the name of the last call for it
    that returned [true].  In a run that returns, the calls for one
    ruleset come in ascending order of the file names, every name
    matches [model_*.json] and no ruleset is hidden.  A dry run over a
    source root that is a directory never raises, and its calls are,
    for every directory of the root that is not hidden, all its
    entries matching the glob, in ascending name order.  On the sample
    tree, ruleset [C] with [model_001.json] and [model_002.json] both
    copied ends as [model_002.json]. *)
Theorem sync_all_last_wins src dest overwrite dry_run w :
  sync_all_models md5 src dest overwrite dry_run w
  = io_map (fun tr => record tr [])
      (sync_all_trace md5 src dest overwrite dry_run) w /\
  (forall tr c, dict_get c (record tr []) = last_copied c tr) /\
  (forall w' tr,
     sync_all_trace md5 src dest overwrite dry_run w = (w', Return tr) ->
     forall c,
       StronglySorted string_le (names_of c tr) /\
       forall n, n ∈ names_of c tr ->
                 fnmatch MODEL_GLOB n = true /\ startswith c "." = false) /\
  (files w !! src = Some Dir ->
   sync_all_trace md5 src dest overwrite true w
   = (w, Return (flat_map (dry_events md5 (files w) dest overwrite)
                          (children (files w) src)))) /\
  snd (sync_all_models md5 ["src"] ["dest"] overwrite false sample_all_world)
  = Return [("C", "model_002.json")].
Proof.
  split; [apply sync_all_models_trace|].
  split; [apply record_last_copied|].
  split; [|split].
  - intros w' tr Hrun c. unfold sync_all_trace, bind in Hrun.
    pose proof (iterdir_spec src w) as Hit.
    destruct (iterdir src w) as [w1 [dirs|e]]; [|done].
    destruct Hit as (-> & _ & ->).
    eapply trace_rulesets_ordered in Hrun.
    + destruct (Hrun c) as (H1 & _ & H3). done.
    + apply NoDup_children_names.
    + intros c'. unfold names_of. simpl. split; [constructor|].
      split; [done|]. intros n Hn. by apply elem_of_nil in Hn.
  - intros Hsrc. unfold sync_all_trace, bind.
    rewrite iterdir_dir by done. by rewrite trace_rulesets_dry.
  - destruct overwrite; vm_compute; reflexivity.
Qed.

End SyncAll.

(** ** Sync-best: a second run *)

Section SyncBest.

Variable md5 : string -> string.
Variable json_load : string -> option json.

Lemma quiet_step src dest ow dry item s w :
  quiet md5 (files w) src dest ow item = true ->
  sync_best_entry md5 src dest ow dry item s w = (w, Return s).
Proof.
  destruct item as [c entry]. unfold quiet, sync_best_entry.
  destruct (negb (has_model_file entry)); [done|].
  destruct (model_file_of entry) as [| | | |f| |]; try done.
  unfold bind, path_exists, lookup_node.
  destruct (files w !! (src </> c </> f)); [|done]. simpl.
  intros H. apply negb_true_iff in H. by rewrite copy_model_file_skip.
Qed.

Lemma quiet_loop src dest ow dry entries : forall s w,
  Forall (fun item => quiet md5 (files w) src dest ow item = true) entries ->
  for_each entries (sync_best_entry md5 src dest ow dry) s w = (w, Return s).
Proof.
  induction entries as [|item entries IH]; intros s w Hq; [done|].
  apply Forall_cons in Hq as [Hq Hqs].
  rewrite for_each_cons, quiet_step by done. by apply IH.
Qed.

Lemma quiet_ext fs fs' src dest ow c entry :
  (forall f, model_file_of entry = JStr f ->
     fs' !! (src </> c </> f) = fs !! (src </> c </> f) /\
     fs' !! (dest </> c </> f) = fs !! (dest </> c </> f)) ->
  quiet md5 fs' src dest ow (c, entry) = quiet md5 fs src dest ow (c, entry).
Proof.
  intros H. unfold quiet.
  destruct (negb (has_model_file entry)); [done|].
  destruct (model_file_of entry) as [| | | |f| |]; try done.
  destruct (H f eq_refl) as [Hs Hd].
  unfold would_copy, identical. by rewrite Hs, Hd.
Qed.

Lemma suffix_cons_cases {A} (l k : list A) y :
  l `suffix_of` y :: k -> l = y :: k \/ l `suffix_of` k.
Proof. destruct l; [right; apply suffix_nil|apply suffix_cons_inv]. Qed.

Lemma copy_frame_src src dest c f w w' p :
  disjoint_roots src dest ->
  copy_frame w w' (dest </> c </> f) ->
  src `suffix_of` p -> files w' !! p = files w !! p.
Proof.
  intros [Hsd Hds] Hfr Hp.
  assert (Hcd : ~ src `suffix_of` c :: dest).
  { intros H. apply suffix_cons_cases in H as [->|H]; [|done].
    apply Hds. by apply suffix_cons_r. }
  destruct (Hfr p) as [E|[[-> _]|(_ & _ & Hs & _)]]; [done| |].
  - exfalso. unfold Path.joinpath in Hp.
    apply suffix_cons_cases in Hp as [->|Hp]; [|done].
    apply Hds. by do 2 apply suffix_cons_r.
  - exfalso. apply Hcd. by etrans.
Qed.

Lemma copy_frame_target dest c f c0 f0 w w' :
  copy_frame w w' (dest </> c </> f) ->
  (c0, f0) <> (c, f) ->
  files w' !! (dest </> c0 </> f0) = files w !! (dest </> c0 </> f0).
Proof.
  intros Hfr Hne.
  destruct (Hfr (dest </> c0 </> f0)) as [E|[[E _]|(_ & _ & Hs & _)]]; [done| |].
  - unfold Path.joinpath in E. by simplify_eq.
  - apply suffix_length in Hs. unfold Path.joinpath in Hs. simpl in Hs. lia.
Qed.

Lemma copy_frame_not_dir dest c f c0 f0 w w' :
  copy_frame w w' (dest </> c </> f) ->
  files w !! (dest </> c0 </> f0) <> Some Dir ->
  files w' !! (dest </> c0 </> f0) <> Some Dir.
Proof.
  intros Hfr Hnd.
  destruct (Hfr (dest </> c0 </> f0)) as [E|[[E (c1 & m1 & F)]|(_ & _ & Hs & _)]].
  - congruence.
  - congruence.
  - apply suffix_length in Hs. unfold Path.joinpath in Hs. simpl in Hs. lia.
Qed.

(** One entry of a live run that returns: afterwards the entry is
    quiet, and the world is as before or changed by one copy. *)
Lemma sync_best_entry_live src dest ow c entry s w w' s' :
  dest_is_dir (files w) dest (c, entry) = false ->
  sync_best_entry md5 src dest ow false (c, entry) s w = (w', Return s') ->
  quiet md5 (files w') src dest ow (c, entry) = true /\
  (w' = w \/
   exists f, has_model_file entry = true /\ model_file_of entry = JStr f /\
             copy_frame w w' (dest </> c </> f)).
Proof.
  unfold dest_is_dir, sync_best_entry, quiet. simpl.
  destruct (has_model_file entry) eqn:Hhas; simpl.
  2: { intros _ Hrun. unfold ret in Hrun. simplify_eq. auto. }
  destruct (model_file_of entry) as [| | | |f| |]; try done.
  intros Hnd Hrun.
  assert (Hd : files w !! (dest </> c </> f) <> Some Dir).
  { by destruct (files w !! (dest </> c </> f)) as [[]|]. }
  unfold bind, path_exists, lookup_node in Hrun.
  destruct (files w !! (src </> c </> f)) as [nd|] eqn:Hs; simpl in Hrun.
  2: { unfold ret in Hrun. simplify_eq. rewrite Hs. auto. }
  destruct (copy_model_file md5 (src </> c </> f) (dest </> c </> f) ow false w)
    as [w1 [b|e]] eqn:Hcp; [|done].
  unfold ret in Hrun. simplify_eq.
  destruct (copy_model_file_live_effect md5 _ _ _ _ _ _ Hd Hcp)
    as (Hb & Hfalse & Htrue).
  destruct b.
  - destruct (Htrue eq_refl) as (c0 & m0 & Hsrc & Hne & Hdst & _ & _ & Hfr).
    assert (Hs' : files w' !! (src </> c </> f) = Some (File c0 m0)).
    { destruct (Hfr _ Hne) as [E|(E & _)]; congruence. }
    split.
    + rewrite Hs'. unfold would_copy, identical. rewrite Hs', Hdst.
      by rewrite String.eqb_refl.
    + right. exists f. split; [done|]. split; [done|]. intros x.
      destruct (decide (x = dest </> c </> f)) as [->|Hx]; [eauto 6|].
      destruct (Hfr x Hx) as [E|E]; auto.
  - rewrite (Hfalse eq_refl). rewrite Hs. split; [|auto].
    by rewrite <- Hb.
Qed.

Lemma dest_is_dir_frame dest c f w w' item :
  copy_frame w w' (dest </> c </> f) ->
  dest_is_dir (files w) dest item = false ->
  dest_is_dir (files w') dest item = false.
Proof.
  intros Hfr. unfold dest_is_dir.
  destruct (model_file_of item.2) as [| | | |f0| |]; try done.
  intros H.
  assert (Hn : files w !! (dest </> item.1 </> f0) <> Some Dir).
  { by destruct (files w !! (dest </> item.1 </> f0)) as [[]|]. }
  apply (copy_frame_not_dir _ _ _ _ _ _ _ Hfr) in Hn.
  by destruct (files w' !! (dest </> item.1 </> f0)) as [[]|].
Qed.

Lemma quiet_frame src dest ow c entry f w w' item :
  disjoint_roots src dest ->
  has_model_file entry = true ->
  model_file_of entry = JStr f ->
  copy_frame w w' (dest </> c </> f) ->
  quiet md5 (files w') src dest ow (c, entry) = true ->
  quiet md5 (files w) src dest ow item = true ->
  quiet md5 (files w') src dest ow item = true.
Proof.
  intros Hdis Hhas Hf Hfr Hq' Hq. destruct item as [c0 e0].
  destruct (has_model_file e0) eqn:Hm0.
  2: { unfold quiet. by rewrite Hm0. }
  destruct (model_file_of e0) as [| | | |f0| |] eqn:Hf0;
    try (unfold quiet in Hq; by rewrite Hm0, Hf0 in Hq).
  destruct (decide ((c0, f0) = (c, f))) as [E|Hne].
  - simplify_eq. unfold quiet in Hq' |- *.
    by rewrite Hm0, Hf0; rewrite Hhas, Hf in Hq'.
  - rewrite <- Hq. apply quiet_ext. intros f1 Hf1.
    rewrite Hf0 in Hf1. simplify_eq. split.
    + eapply copy_frame_src; [done|exact Hfr|].
      by do 2 apply suffix_cons_r.
    + by apply (copy_frame_target dest c f c0 f1 w w').
Qed.

Lemma no_dir_targets_Forall fs dest l :
  no_dir_targets fs dest l = true <->
  Forall (fun item => dest_is_dir fs dest item = false) l.
Proof.
  unfold no_dir_targets. induction l as [|x l IH]; simpl.
  - split; [constructor|done].
  - rewrite andb_true_iff, negb_true_iff, Forall_cons, IH. done.
Qed.

Lemma sync_best_loop_live src dest ow entries : forall done s w w1 s1,
  disjoint_roots src dest ->
  Forall (fun item => dest_is_dir (files w) dest item = false)
         (done ++ entries) ->
  Forall (fun item => quiet md5 (files w) src dest ow item = true) done ->
  for_each entries (sync_best_entry md5 src dest ow false) s w
  = (w1, Return s1) ->
  Forall (fun item => quiet md5 (files w1) src dest ow item = true)
         (done ++ entries) /\
  (forall p, src `suffix_of` p -> files w1 !! p = files w !! p).
Proof.
  induction entries as [|[c entry] entries IH];
    intros done s w w1 s1 Hdis Hnd Hq Hrun.
  - simpl in Hrun. unfold ret in Hrun. simplify_eq.
    by rewrite app_nil_r.
  - rewrite for_each_cons in Hrun.
    destruct (sync_best_entry md5 src dest ow false (c, entry) s w)
      as [w' [s'|e]] eqn:Hstep; [|done].
    assert (Hnd0 : dest_is_dir (files w) dest (c, entry) = false).
    { apply Forall_app in Hnd as [_ Hnd]. by apply Forall_cons in Hnd as [? _]. }
    destruct (sync_best_entry_live _ _ _ _ _ _ _ _ _ Hnd0 Hstep) as [Hq0 Hfr].
    assert (Hkeep :
      Forall (fun item => dest_is_dir (files w') dest item = false)
             ((done ++ [(c, entry)]) ++ entries) /\
      Forall (fun item => quiet md5 (files w') src dest ow item = true)
             (done ++ [(c, entry)]) /\
      (forall p, src `suffix_of` p -> files w' !! p = files w !! p)).
    { rewrite <- app_assoc. simpl.
      destruct Hfr as [->|(f & Hhas & Hf & Hfr)].
      - split; [done|]. split; [|done].
        apply Forall_app. split; [done|]. by constructor.
      - split; [|split].
        + eapply Forall_impl; [exact Hnd|]. intros item.
          by apply dest_is_dir_frame with (c := c) (f := f).
        + apply Forall_app. split; [|by constructor].
          eapply Forall_impl; [exact Hq|]. intros item.
          by apply quiet_frame with (c := c) (entry := entry) (f := f).
        + intros p Hp. by eapply copy_frame_src. }
    destruct Hkeep as (Hnd' & Hq' & Hsrc).
    destruct (IH (done ++ [(c, entry)]) s' w' w1 s1 Hdis Hnd' Hq' Hrun)
      as [HQ Hsrc1].
    rewrite <- app_assoc in HQ. split; [done|].
    intros p Hp. rewrite Hsrc1, Hsrc; done.
Qed.

Lemma sync_best_models_unfold src dest ow dry w :
  sync_best_models md5 json_load src dest ow dry w
  = match files w !! (src </> BEST_MODELS_FILENAME) with
    | Some (File text _) =>
        match json_load text with
        | Some (JDict d) =>
            for_each d (sync_best_entry md5 src dest ow dry) [] w
        | Some _ => (w, Raise AttributeError)
        | None => (w, Return [])
        end
    | _ => (w, Return [])
    end.
Proof.
  unfold sync_best_models.
  set (m := src </> BEST_MODELS_FILENAME).
  unfold bind, try_except, path_exists, read_json, bind, read_file,
    lookup_node.
  destruct (files w !! m) as [[text t|]|] eqn:E; simpl; rewrite ?E; try done.
  destruct (json_load text) as [[]|]; done.
Qed.

Lemma quiet_would_copy fs src dest ow c entry f :
  quiet md5 fs src dest ow (c, entry) = true ->
  has_model_file entry = true -> model_file_of entry = JStr f ->
  is_Some (fs !! (src </> c </> f)) ->
  would_copy md5 fs (src </> c </> f) (dest </> c </> f) ow = false.
Proof.
  unfold quiet. intros Hq Hhas Hf [nd Hs].
  rewrite Hhas, Hf in Hq. simpl in Hq. rewrite Hs in Hq.
  by apply negb_true_iff in Hq.
Qed.

(** C6, as the code has it.  After a live run of [sync_best_models]
    that returned (with roots that do not lie in one another, and no
    directory where a model file goes), a second run from the state
    the first one left, dry or live, changes nothing and returns the
    empty result: for every referenced file that exists at the source,
    [copy_model_file] returns [false].  The destination file exists;
    it is identical to the source when [overwrite] is set, and without
    [overwrite] it may also be a differing file that both runs skip.
    The source tree is as it was before the first run. *)
Theorem sync_best_second_run_copies_nothing src dest overwrite w0 w1 r1 :
  disjoint_roots src dest ->
  no_dir_targets (files w0) dest (source_entries json_load (files w0) src)
  = true ->
  sync_best_models md5 json_load src dest overwrite false w0
  = (w1, Return r1) ->
  (forall dry_run,
     sync_best_models md5 json_load src dest overwrite dry_run w1
     = (w1, Return [])) /\
  (forall c entry f dry_run,
     (c, entry) ∈ source_entries json_load (files w0) src ->
     has_model_file entry = true ->
     model_file_of entry = JStr f ->
     is_Some (files w1 !! (src </> c </> f)) ->
     copy_model_file md5 (src </> c </> f) (dest </> c </> f)
       overwrite dry_run w1 = (w1, Return false) /\
     is_Some (files w1 !! (dest </> c </> f)) /\
     (overwrite = true ->
      identical md5 (files w1) (src </> c </> f) (dest </> c </> f) = true)) /\
  (forall p, src `suffix_of` p -> files w1 !! p = files w0 !! p).
Proof.
  intros Hdis Hnd Hrun.
  rewrite sync_best_models_unfold in Hrun.
  assert (Hloop :
    for_each (source_entries json_load (files w0) src)
      (sync_best_entry md5 src dest overwrite false) [] w0 = (w1, Return r1) /\
    forall w, files w !! (src </> BEST_MODELS_FILENAME)
              = files w0 !! (src </> BEST_MODELS_FILENAME) ->
      forall dry,
        sync_best_models md5 json_load src dest overwrite dry w
        = for_each (source_entries json_load (files w0) src)
            (sync_best_entry md5 src dest overwrite dry) [] w).
  { unfold source_entries.
    destruct (files w0 !! (src </> BEST_MODELS_FILENAME)) as [[text t|]|] eqn:Hm.
    - destruct (json_load text) as [[]|] eqn:Hl; try done;
        (split; [done|]; intros w Hw dry;
         by rewrite sync_best_models_unfold, Hw, Hl).
    - split; [done|]. intros w Hw dry.
      by rewrite sync_best_models_unfold, Hw.
    - split; [done|]. intros w Hw dry.
      by rewrite sync_best_models_unfold, Hw. }
  destruct Hloop as [Hloop Hagain].
  apply no_dir_targets_Forall in Hnd.
  destruct (sync_best_loop_live src dest overwrite _ [] [] w0 w1 r1 Hdis Hnd
              (Forall_nil_2 _) Hloop) as [Hq Hsrc].
  simpl in Hq.
  split; [|split; [|done]].
  - intros dry. rewrite Hagain.
    + by apply quiet_loop.
    + apply Hsrc. by apply suffix_cons_r.
  - intros c entry f dry Hin Hhas Hf Hs.
    rewrite Forall_forall in Hq. specialize (Hq _ Hin).
    pose proof (quiet_would_copy _ _ _ _ _ _ _ Hq Hhas Hf Hs) as Hwc.
    split; [by apply copy_model_file_skip|].
    unfold would_copy in Hwc.
    destruct (files w1 !! (dest </> c </> f)) eqn:Hd; [|done].
    split; [eauto|]. intros ->. rewrite andb_true_r in Hwc.
    by apply negb_false_iff in Hwc.
Qed.

End SyncBest.

(** * Further properties *)

(** ** The temporary sibling of [write_json] *)

Lemma append_nil (b : string) : "" +:+ b = b.
Proof. reflexivity. Qed.

Lemma append_cons c (a b : string) : String c a +:+ b = String c (a +:+ b).
Proof. reflexivity. Qed.

Lemma append_nil_r (a : string) : a +:+ "" = a.
Proof. induction a as [|c a IH]; [done|]. by rewrite append_cons, IH. Qed.

Lemma append_assoc (a b c : string) : (a +:+ b) +:+ c = a +:+ (b +:+ c).
Proof. induction a as [|x a IH]; [done|]. by rewrite !append_cons, IH. Qed.

Lemma length_append (a b : string) :
  String.length (a +:+ b) = String.length a + String.length b.
Proof.
  induction a as [|c a IH]; [done|]. rewrite append_cons. simpl. by rewrite IH.
Qed.

Lemma substring_append_l (a b : string) :
  String.substring 0 (String.length a) (a +:+ b) = a.
Proof.
  induction a as [|c a IH]; [by destruct b|].
  rewrite append_cons. simpl. by rewrite IH.
Qed.

Lemma last_dot_split s r :
  Path.last_dot s = Some r -> exists pre, s = pre +:+ r.
Proof.
  revert r. induction s as [|c s IH]; intros r; simpl; [done|].
  destruct (Path.last_dot s) as [r'|] eqn:E.
  - intros [= <-]. destruct (IH r' eq_refl) as [pre ->].
    by exists (String c pre).
  - destruct (Ascii.eqb c "."); [|done]. intros [= <-]. by exists "".
Qed.

Lemma suffix_split p : exists stem, Path.name p = stem +:+ Path.suffix p.
Proof.
  assert (H0 : forall s : string, s = s +:+ "").
  { intros s. by rewrite append_nil_r. }
  unfold Path.suffix. destruct (Path.name p) as [|c rest]; [by exists ""|].
  destruct (Path.last_dot rest) as [r|] eqn:E.
  - destruct (String.eqb r "."); [eexists; apply H0|].
    destruct (last_dot_split _ _ E) as [pre ->]. by exists (String c pre).
  - eexists; apply H0.
Qed.

(** [path.with_suffix(path.suffix + ".tmp")] is the sibling whose name
    is the name of [path] followed by [.tmp]. *)
Lemma with_suffix_tmp p :
  Path.with_suffix p (Path.suffix p +:+ ".tmp")
  = Path.parent p </> (Path.name p +:+ ".tmp").
Proof.
  unfold Path.with_suffix. f_equal.
  destruct (suffix_split p) as [stem Hs].
  set (sfx := Path.suffix p) in *. cbv zeta. rewrite Hs.
  by rewrite length_append, Nat.add_sub, substring_append_l, append_assoc.
Qed.

Lemma tmp_name_neq (n : string) : n +:+ ".tmp" <> n.
Proof.
  intros E. apply (f_equal String.length) in E.
  rewrite length_append in E. simpl in E. lia.
Qed.

Section WriteJson.

Variable json_dump : json -> string.

Lemma write_json_cases n q data w :
  let p := q </> n in
  let tmp := q </> (n +:+ ".tmp") in
  let text := json_dump data +:+ String "010" "" in
  write_json json_dump p data w =
  match files w !! tmp, files w !! q, files w !! p with
  | Some Dir, _, _ => (w, Raise IsADirectoryError)
  | _, Some Dir, Some Dir =>
      (set_files (insert tmp (File text (current_time w))) w,
       Raise IsADirectoryError)
  | _, Some Dir, _ =>
      (set_files (fun fs => delete tmp (<[p := File text (current_time w)]>
                                          (<[tmp := File text (current_time w)]> fs))) w,
       Return tt)
  | _, Some (File _ _), _ => (w, Raise NotADirectoryError)
  | _, None, _ => (w, Raise FileNotFoundError)
  end.
Proof.
  intros p tmp text. unfold write_json.
  change (Path.suffix p ++ ".tmp")%string with (Path.suffix p +:+ ".tmp").
  rewrite with_suffix_tmp.
  change (Path.parent p </> (Path.name p +:+ ".tmp")) with tmp.
  assert (Hne : tmp <> p).
  { unfold tmp, p, Path.joinpath. intros [= E]. by apply tmp_name_neq in E. }
  assert (Hnq : tmp <> q).
  { intros E. apply (f_equal length) in E. unfold tmp in E. simpl in E. lia. }
  unfold bind, write_file, replace, lookup_node. fold text.
  change (Path.parent tmp) with q. change (Path.parent p) with q.
  destruct (files w !! tmp) as [[ct mt|]|] eqn:Ht;
    destruct (files w !! q) as [[cq mq|]|] eqn:Hq; try done;
    rewrite !set_files_lookup, lookup_insert_eq, !lookup_insert_ne, Hq by done;
    destruct (files w !! p) as [[cp mp|]|] eqn:Hp; done.
Qed.

(** X1.  [write_json] replaces the target through its temporary sibling
    [<name>.tmp]: when it returns, the directory of the target existed
    and neither the target nor the sibling was a directory, the target
    holds the serialized data followed by a newline, and the sibling is
    gone.  When it raises, the target is as before.  No other path is
    touched either way. *)
Theorem write_json_atomic q n data w :
  n <> "" ->
  let p := q </> n in
  let tmp := q </> (n +:+ ".tmp") in
  let text := json_dump data +:+ String "010" "" in
  let w' := fst (write_json json_dump p data w) in
  Path.with_suffix p (Path.suffix p +:+ ".tmp") = tmp /\
  (snd (write_json json_dump p data w) = Return tt ->
   files w !! q = Some Dir /\ files w !! p <> Some Dir /\
   files w !! tmp <> Some Dir /\
   files w' !! p = Some (File text (current_time w)) /\
   files w' !! tmp = None) /\
  ((exists e, snd (write_json json_dump p data w) = Raise e) ->
   files w' !! p = files w !! p) /\
  (forall x, x <> p -> x <> tmp -> files w' !! x = files w !! x).
Proof.
  intros _ p tmp text w'. split; [apply with_suffix_tmp|].
  assert (Hne : tmp <> p).
  { unfold tmp, p, Path.joinpath. intros [= E]. by apply tmp_name_neq in E. }
  pose proof (write_json_cases n q data w) as Hc. cbv zeta in Hc.
  fold p tmp text in Hc. unfold w'. rewrite Hc. clear Hc.
  destruct (files w !! tmp) as [[ct mt|]|] eqn:Ht;
    destruct (files w !! q) as [[cq mq|]|] eqn:Hq;
    destruct (files w !! p) as [[cp mp|]|] eqn:Hp; simpl;
    repeat split; try done;
    try (intros [e ?]; done);
    try (intros _; repeat split; try done;
         by rewrite ?lookup_delete_eq, ?lookup_delete_ne,
              ?lookup_insert_eq by done);
    try (intros; by rewrite ?lookup_delete_ne, ?lookup_insert_ne by done);
    try (intros; by rewrite ?lookup_delete_eq,
           ?lookup_delete_ne, ?lookup_insert_eq by done).
Qed.

Variable json_load : string -> option json.

(** X2.  A manifest written by [write_json] reads back through
    [read_json] as the data written, for data that the serializer and
    the parser carry there and back. *)
Theorem write_then_read_json q n data w w' :
  n <> "" ->
  json_load (json_dump data +:+ String "010" "") = Some data ->
  write_json json_dump (q </> n) data w = (w', Return tt) ->
  read_json json_load (q </> n) w' = (w', Return data).
Proof.
  intros Hn Hrt Hrun.
  assert (Hne : q </> (n +:+ ".tmp") <> q </> n).
  { unfold Path.joinpath. intros [= E]. by apply tmp_name_neq in E. }
  pose proof (write_json_cases n q data w) as Hc. cbv zeta in Hc.
  rewrite Hc in Hrun. clear Hc.
  destruct (files w !! (q </> (n +:+ ".tmp"))) as [[ct mt|]|];
    destruct (files w !! q) as [[cq mq|]|];
    destruct (files w !! (q </> n)) as [[cp mp|]|]; simplify_eq;
    unfold read_json, bind, read_file, lookup_node;
    by rewrite set_files_lookup, lookup_delete_ne, lookup_insert_eq, Hrt.
Qed.

End WriteJson.

(** ** Directory creation, completely *)

Lemma mkdir_parents_creatable p : forall w w',
  mkdir_parents p w = (w', Return tt) -> creatable (files w) p = true.
Proof.
  induction p as [|n q IH]; intros w w'; simpl mkdir_parents;
    unfold try_except.
  - pose proof (os_mkdir_spec [] w) as H.
    destruct (os_mkdir [] w) as [w1 [[]|e]].
    + destruct H as (Hp & Hq & _). simpl in Hq. congruence.
    + destruct H as [-> H]. destruct e; try done; io_unfold; simpl.
      * destruct (files w !! []) as [[]|]; done.
      * destruct (files w !! []) as [[]|]; done.
  - pose proof (os_mkdir_spec (n :: q) w) as H.
    destruct (os_mkdir (n :: q) w) as [w1 [[]|e]].
    + destruct H as (Hp & Hq & _). simpl in *. rewrite Hp.
      intros _. destruct q; simpl; by rewrite Hq.
    + destruct H as [-> H]. destruct e; try done.
      * destruct H as [Hp Hq]. unfold bind.
        destruct (mkdir_parents q w) as [w2 [[]|e2]] eqn:Hmk; [|done].
        intros _. simpl. rewrite Hp. by eapply IH.
      * io_unfold. simpl. destruct (files w !! (n :: q)) as [[]|]; done.
      * io_unfold. simpl. destruct (files w !! (n :: q)) as [[]|]; done.
Qed.

Lemma mkdir_parents_dir p w :
  files w !! p = Some Dir -> mkdir_parents p w = (w, Return tt).
Proof.
  intros Hp.
  destruct p as [|n q]; simpl; unfold try_except, os_mkdir, lookup_node;
    rewrite Hp; io_unfold; by rewrite Hp.
Qed.

(** X3.  [ensure_dir p] returns exactly when [p] is a directory or is
    missing below a chain of missing paths that ends in a directory;
    [p] is then a directory.  It raises when a regular file is in the
    way or no ancestor exists.  Whatever the outcome, every node that
    existed is as before, and what is new is a directory on the way to
    [p].  On an existing directory it does nothing. *)
Theorem ensure_dir_creates p w :
  let w' := fst (ensure_dir p w) in
  (snd (ensure_dir p w) = Return tt <-> creatable (files w) p = true) /\
  (snd (ensure_dir p w) = Return tt -> files w' !! p = Some Dir) /\
  (forall x nd, files w !! x = Some nd -> files w' !! x = Some nd) /\
  (forall x, files w !! x = None ->
     files w' !! x = None \/
     (files w' !! x = Some Dir /\ x `suffix_of` p)) /\
  (files w !! p = Some Dir -> ensure_dir p w = (w, Return tt)).
Proof.
  intros w'. unfold w', ensure_dir.
  pose proof (mkdir_parents_dir p w) as Hidem.
  pose proof (mkdir_parents_spec p w) as H.
  pose proof (mkdir_parents_creatable p w) as Hc.
  destruct (mkdir_parents p w) as [w1 r]. simpl.
  destruct H as ((_ & _ & Hf) & Hd & Hok).
  split; [|split; [done|split; [|split; [|done]]]].
  - split; [|done]. intros ->. by eapply Hc.
  - intros x nd Hx. destruct (Hf x) as [E|(E & _)]; congruence.
  - intros x Hx. destruct (Hf x) as [E|(_ & E & S & _)]; [left|right];
      [congruence|done].
Qed.

(** ** What a sync may change *)

Lemma sync_frame_refl dest w : sync_frame dest w w.
Proof. repeat split; auto. Qed.

Lemma sync_frame_trans dest w1 w2 w3 :
  sync_frame dest w1 w2 -> sync_frame dest w2 w3 -> sync_frame dest w1 w3.
Proof.
  intros (Hc1 & Ht1 & H1) (Hc2 & Ht2 & H2).
  split; [congruence|]. split; [congruence|]. intros x.
  destruct (H1 x) as [E1|[(N1 & D1 & S1)|(N1 & (c1 & m1 & F1) & P1)]],
           (H2 x) as [E2|[(N2 & D2 & S2)|(N2 & (c2 & m2 & F2) & P2)]].
  - left; congruence.
  - right; left. split; [congruence|done].
  - right; right. split; [congruence|eauto].
  - right; left. split; [done|]. split; [congruence|done].
  - congruence.
  - congruence.
  - right; right. split; [done|]. split; [|done]. exists c1, m1. congruence.
  - congruence.
  - right; right. split; [done|]. eauto.
Qed.

Lemma sync_frame_bind {A B} dest (m : IO A) (k : A -> IO B) w :
  sync_frame dest w (fst (m w)) ->
  (forall a w1, m w = (w1, Return a) -> sync_frame dest w1 (fst (k a w1))) ->
  sync_frame dest w (fst (bind m k w)).
Proof.
  intros Hm Hk. unfold bind. destruct (m w) as [w1 [a|e]]; simpl in *; [|done].
  eapply sync_frame_trans; [exact Hm|]. by apply Hk.
Qed.

Lemma sync_frame_for_each {A S} dest (l : list A) (body : A -> S -> IO S) :
  (forall x s w, sync_frame dest w (fst (body x s w))) ->
  forall s w, sync_frame dest w (fst (for_each l body s w)).
Proof.
  intros Hb. induction l as [|x l IH]; intros s w; simpl.
  - apply sync_frame_refl.
  - apply sync_frame_bind; [apply Hb|]. intros s1 w1 _. apply IH.
Qed.

Lemma copy2_frame src dst w :
  let w' := fst (copy2 src dst w) in
  clock w' = clock w /\ ticks w' = ticks w /\
  forall x,
    files w' !! x = files w !! x \/
    ((x = dst \/ x = dst </> Path.name src) /\ files w !! x <> Some Dir /\
     exists c m, files w' !! x = Some (File c m)).
Proof.
  unfold copy2, bind, is_dir, lookup_node.
  set (dst' := if match files w !! dst with Some Dir => true | _ => false end
               then dst </> Path.name src else dst).
  assert (Hd : dst' = dst \/ dst' = dst </> Path.name src).
  { unfold dst'. destruct (files w !! dst) as [[]|]; auto. }
  clearbody dst'.
  destruct (decide (src = dst')); [simpl; auto|].
  destruct (files w !! src) as [[c m|]|]; [|simpl; auto..].
  destruct (files w !! dst') as [[cd md|]|] eqn:Hdst;
    (destruct (files w !! Path.parent dst') as [[cp mp|]|];
     [simpl; auto| |simpl; auto]); try (simpl; auto; fail).
  all: simpl; split; [done|]; split; [done|]; intros x;
    (destruct (decide (x = dst')) as [->|Hx];
     [right; rewrite lookup_insert_eq, Hdst;
      split; [tauto|]; split; [done|eauto]
     |left; by rewrite lookup_insert_ne]).
Qed.

Section SyncFrame.

Variable md5 : string -> string.
Variable json_load : string -> option json.

Lemma copy_model_file_frame src dest c n ow dry w :
  Path.name src = n ->
  sync_frame dest w (fst (copy_model_file md5 src (dest </> c </> n) ow dry w)).
Proof.
  intros Hn.
  destruct (would_copy md5 (files w) src (dest </> c </> n) ow) eqn:Hwc.
  2: { rewrite copy_model_file_skip by done. apply sync_frame_refl. }
  destruct dry.
  { rewrite copy_model_file_dry. apply sync_frame_refl. }
  rewrite copy_model_file_live by done.
  apply sync_frame_bind.
  - unfold ensure_dir.
    pose proof (mkdir_parents_spec (Path.parent (dest </> c </> n)) w) as H.
    destruct (mkdir_parents _ w) as [w1 r]. simpl.
    destruct H as ((Hc & Ht & Hf) & _). split; [done|]. split; [done|].
    intros x. destruct (Hf x) as [E|(N & D & S & _)]; [by left|].
    right; left. split; [done|]. split; [done|]. by exists c.
  - intros _ w1 _. apply sync_frame_bind; [|intros; apply sync_frame_refl].
    destruct (copy2_frame src (dest </> c </> n) w1) as (Hc & Ht & Hf).
    split; [done|]. split; [done|]. intros x.
    destruct (Hf x) as [E|(Hx & Hnd & Hfile)]; [by left|].
    right; right. split; [done|]. split; [done|]. exists c, n.
    rewrite Hn in Hx. done.
Qed.

Lemma sync_best_entry_frame src dest ow dry item s w :
  sync_frame dest w (fst (sync_best_entry md5 src dest ow dry item s w)).
Proof.
  destruct item as [c entry]. unfold sync_best_entry.
  destruct (negb (has_model_file entry)); [apply sync_frame_refl|].
  destruct (model_file_of entry) as [| | | |f| |]; try apply sync_frame_refl.
  apply sync_frame_bind; [apply sync_frame_refl|]. intros e w1 _.
  destruct (negb e); [apply sync_frame_refl|].
  apply sync_frame_bind; [by apply copy_model_file_frame|].
  intros; apply sync_frame_refl.
Qed.

Lemma sync_best_models_frame src dest ow dry w :
  sync_frame dest w (fst (sync_best_models md5 json_load src dest ow dry w)).
Proof.
  rewrite sync_best_models_unfold.
  destruct (files w !! (src </> BEST_MODELS_FILENAME)) as [[text t|]|];
    try apply sync_frame_refl.
  destruct (json_load text) as [[]|]; try apply sync_frame_refl.
  apply sync_frame_for_each. intros. apply sync_best_entry_frame.
Qed.

Lemma sync_all_ruleset_frame dest ow dry d s w :
  sync_frame dest w (fst (sync_all_ruleset md5 dest ow dry d s w)).
Proof.
  unfold sync_all_ruleset.
  apply sync_frame_bind; [apply sync_frame_refl|]. intros skip w1 _.
  destruct skip; [apply sync_frame_refl|].
  apply sync_frame_bind.
  { destruct (glob_spec d MODEL_GLOB w1) as (l & -> & _). apply sync_frame_refl. }
  intros found w2 _. apply sync_frame_for_each. intros m s' w'.
  unfold sync_all_file.
  apply sync_frame_bind; [by apply copy_model_file_frame|].
  intros; apply sync_frame_refl.
Qed.

Lemma sync_all_models_frame src dest ow dry w :
  sync_frame dest w (fst (sync_all_models md5 src dest ow dry w)).
Proof.
  unfold sync_all_models. apply sync_frame_bind.
  { pose proof (iterdir_spec src w) as H.
    destruct (iterdir src w) as [w1 [l|e]]; destruct H as [-> _];
      apply sync_frame_refl. }
  intros dirs w1 _. apply sync_frame_for_each. intros.
  apply sync_all_ruleset_frame.
Qed.

(** X4.  Neither sync mode removes or retypes anything, whatever its
    flags and its outcome (for sync-best, over a source manifest of
    plain names): a directory stays a directory, and a regular
    file keeps its content and modification time unless it is a
    destination model path [dest/ruleset/name] (or, below a directory of
    that name, [dest/ruleset/name/name]), where it is replaced by a
    regular file.  A path that comes into being is such a model path, or
    a directory on the way to a ruleset directory of the destination.
    In particular an existing destination manifest and every file of a
    source root outside the destination are left alone. *)
Theorem sync_never_deletes src dest all overwrite dry_run w :
  (all = false ->
   plain_manifest (source_entries json_load (files w) src) = true) ->
  let w' :=
    fst ((if all : bool
          then sync_all_models md5 src dest overwrite dry_run
          else sync_best_models md5 json_load src dest overwrite dry_run) w) in
  let model_path (x : path) :=
    exists ruleset name,
      x = dest </> ruleset </> name \/ x = dest </> ruleset </> name </> name in
  (forall x, files w !! x = Some Dir -> files w' !! x = Some Dir) /\
  (forall x c m, files w !! x = Some (File c m) ->
     files w' !! x = Some (File c m) \/
     (model_path x /\ exists c' m', files w' !! x = Some (File c' m'))) /\
  (forall x, files w !! x = None ->
     files w' !! x = None \/
     (files w' !! x = Some Dir /\ exists ruleset, x `suffix_of` dest </> ruleset) \/
     (model_path x /\ exists c' m', files w' !! x = Some (File c' m'))) /\
  (forall nd, files w !! (dest </> BEST_MODELS_FILENAME) = Some nd ->
     files w' !! (dest </> BEST_MODELS_FILENAME) = Some nd) /\
  (forall x nd, ~ dest `suffix_of` x -> files w !! x = Some nd ->
     files w' !! x = Some nd).
Proof.
  intros _ w' model_path.
  assert (H : sync_frame dest w w').
  { unfold w'. destruct all;
      [apply sync_all_models_frame|apply sync_best_models_frame]. }
  destruct H as (_ & _ & H).
  assert (Hmodel : forall x, model_path x ->
            dest `suffix_of` x /\ length x >= 2 + length dest).
  { intros x (r & n & [-> | ->]); unfold Path.joinpath; simpl;
      (split; [|lia]); repeat apply suffix_cons_r; done. }
  assert (Hex : forall x nd, files w !! x = Some nd ->
            files w' !! x = Some nd \/
            (model_path x /\ nd <> Dir /\
             exists c' m', files w' !! x = Some (File c' m'))).
  { intros x nd Hx. destruct (H x) as [E|[(N & _)|(N & F & P)]].
    - left; congruence.
    - congruence.
    - right. split; [done|]. split; [congruence|done]. }
  split; [|split; [|split; [|split]]].
  - intros x Hx. destruct (Hex x Dir Hx) as [?|(_ & ? & _)]; done.
  - intros x c m Hx. destruct (Hex x _ Hx) as [?|(? & _ & ?)]; auto.
  - intros x Hx. destruct (H x) as [E|[(N & D & S)|(N & F & P)]].
    + left; congruence.
    + right; left. done.
    + right; right. done.
  - intros nd Hx. destruct (Hex _ _ Hx) as [?|(Hm & _)]; [done|].
    apply Hmodel in Hm as [_ Hl]. unfold Path.joinpath in Hl. simpl in Hl. lia.
  - intros x nd Hns Hx. destruct (Hex _ _ Hx) as [?|(Hm & _)]; [done|].
    apply Hmodel in Hm as [Hs _]. done.
Qed.

End SyncFrame.

(** ** A sync that copies nothing *)

Lemma dict_set_nonempty {V} k (v : V) d : dict_set k v d <> [].
Proof. destruct d as [|[k' v'] d]; simpl; [done|]. by destruct (String.eqb k' k). Qed.

Lemma for_each_quiet_or_synced {A V} (l : list A)
    (body : A -> dict V -> IO (dict V)) :
  (forall x s w w' s', body x s w = (w', Return s') ->
                       (s' = s /\ w' = w) \/ s' <> []) ->
  forall s w w' s', for_each l body s w = (w', Return s') ->
                    (s' = s /\ w' = w) \/ s' <> [].
Proof.
  intros Hb. induction l as [|x l IH]; intros s w w' s' Hrun.
  - simpl in Hrun. unfold ret in Hrun. simplify_eq. auto.
  - rewrite for_each_cons in Hrun.
    destruct (body x s w) as [w1 [s1|e]] eqn:Hx; [|done].
    destruct (Hb _ _ _ _ _ Hx) as [[-> ->]|Hne]; [by apply IH|].
    destruct (IH _ _ _ _ Hrun) as [[-> ->]|?]; auto.
Qed.

Section NothingSynced.

Variable md5 : string -> string.
Variable json_load : string -> option json.
Variable json_dump : json -> string.

Lemma copy_model_file_false src dst ow dry w w' :
  copy_model_file md5 src dst ow dry w = (w', Return false) -> w' = w.
Proof.
  destruct (would_copy md5 (files w) src dst ow) eqn:Hwc.
  - destruct dry.
    + rewrite copy_model_file_dry, Hwc. congruence.
    + rewrite copy_model_file_live by done. unfold bind.
      destruct (ensure_dir _ w) as [w1 [[]|e]]; [|done].
      destruct (copy2 src dst w1) as [w2 [[]|e]]; done.
  - rewrite copy_model_file_skip by done. congruence.
Qed.

Lemma sync_best_entry_quiet_or_synced src dest ow dry item s w w' s' :
  sync_best_entry md5 src dest ow dry item s w = (w', Return s') ->
  (s' = s /\ w' = w) \/ s' <> [].
Proof.
  destruct item as [c entry]. unfold sync_best_entry.
  destruct (negb (has_model_file entry)); [unfold ret; intros; simplify_eq; auto|].
  destruct (model_file_of entry) as [| | | |f| |]; try done.
  unfold bind, path_exists, lookup_node.
  destruct (files w !! (src </> c </> f)); simpl;
    [|unfold ret; intros; simplify_eq; auto].
  destruct (copy_model_file md5 _ _ ow dry w) as [w1 [[]|e]] eqn:Hcp; try done;
    unfold ret; intros; simplify_eq.
  - right. apply dict_set_nonempty.
  - left. split; [done|]. by eapply copy_model_file_false.
Qed.

Lemma sync_all_file_quiet_or_synced dest ow dry c m s w w' s' :
  sync_all_file md5 dest ow dry c m s w = (w', Return s') ->
  (s' = s /\ w' = w) \/ s' <> [].
Proof.
  unfold sync_all_file, bind.
  destruct (copy_model_file md5 _ _ ow dry w) as [w1 [[]|e]] eqn:Hcp; try done;
    unfold ret; intros; simplify_eq.
  - right. apply dict_set_nonempty.
  - left. split; [done|]. by eapply copy_model_file_false.
Qed.

Lemma sync_all_ruleset_quiet_or_synced dest ow dry d s w w' s' :
  sync_all_ruleset md5 dest ow dry d s w = (w', Return s') ->
  (s' = s /\ w' = w) \/ s' <> [].
Proof.
  unfold sync_all_ruleset, skipped_dir. io_unfold.
  destruct (negb _ || _); [intros; simplify_eq; auto|].
  destruct (glob_spec d MODEL_GLOB w) as (l & -> & _).
  apply for_each_quiet_or_synced. intros ? ? ? ? ?.
  apply sync_all_file_quiet_or_synced.
Qed.

Lemma sync_empty_unchanged src dest all ow dry w w' :
  (if all : bool
   then sync_all_models md5 src dest ow dry
   else sync_best_models md5 json_load src dest ow dry) w = (w', Return []) ->
  w' = w.
Proof.
  destruct all.
  - unfold sync_all_models, bind.
    pose proof (iterdir_spec src w) as H.
    destruct (iterdir src w) as [w1 [dirs|e]]; [|done].
    destruct H as (-> & _). intros Hrun.
    eapply for_each_quiet_or_synced in Hrun as [[_ ->]|?]; try done.
    intros ? ? ? ? ?. apply sync_all_ruleset_quiet_or_synced.
  - rewrite sync_best_models_unfold.
    destruct (files w !! (src </> BEST_MODELS_FILENAME)) as [[text t|]|];
      [|congruence..].
    destruct (json_load text) as [[]|]; try congruence.
    intros Hrun.
    eapply for_each_quiet_or_synced in Hrun as [[_ ->]|?]; try done.
    intros ? ? ? ? ?. apply sync_best_entry_quiet_or_synced.
Qed.

(** X5.  An empty sync result means that nothing was touched: when
    either sync mode returns the empty result, dry or live, the world
    is as it was before the call. *)
Theorem empty_result_no_change src dest all overwrite dry_run w w' :
  (if all : bool
   then sync_all_models md5 src dest overwrite dry_run
   else sync_best_models md5 json_load src dest overwrite dry_run) w
  = (w', Return []) ->
  w' = w.
Proof. apply sync_empty_unchanged. Qed.

Lemma main_unfold a w :
  main md5 json_load json_dump a w
  = match files w !! arg_src a with
    | None => (w, Return 2)
    | Some _ =>
        (synced_models <-
           (if arg_all a
            then sync_all_models md5 (arg_src a) (arg_dest a) (arg_overwrite a)
                   (arg_dry_run a)
            else sync_best_models md5 json_load (arg_src a) (arg_dest a)
                   (arg_overwrite a) (arg_dry_run a)) ;;
         match synced_models with
         | [] => ret tt
         | _ => update_dest_best_models json_load json_dump (arg_dest a)
                  synced_models (arg_dry_run a)
         end ;;;
         (if arg_cleanup a
          then cleanup_old_models json_load (arg_dest a) (arg_dry_run a)
          else ret tt) ;;;
         ret 0) w
    end.
Proof.
  unfold main. unfold bind at 1. unfold path_exists, lookup_node.
  by destruct (files w !! arg_src a).
Qed.

(** X6.  The exit code of [main], and a run that syncs nothing.  With
    a missing source root [main] returns 2 and touches nothing; in
    every other run that returns it returns 0.  When the sync step
    returns the empty result, the manifest update is skipped and the
    run is the cleanup pass alone (when [cleanup] is set) from the
    state the run started in; without [cleanup] the world is as it
    was.  A source root that exists but is a regular file passes the
    check, and the run with [all] then raises [NotADirectoryError]. *)
Theorem main_exit_code a w :
  (files w !! arg_src a = None ->
   main md5 json_load json_dump a w = (w, Return 2)) /\
  (forall w' n, main md5 json_load json_dump a w = (w', Return n) ->
     (n = 2 /\ files w !! arg_src a = None) \/
     (n = 0 /\ is_Some (files w !! arg_src a))) /\
  (forall w1, is_Some (files w !! arg_src a) ->
     (if arg_all a
      then sync_all_models md5 (arg_src a) (arg_dest a) (arg_overwrite a)
             (arg_dry_run a)
      else sync_best_models md5 json_load (arg_src a) (arg_dest a)
             (arg_overwrite a) (arg_dry_run a)) w = (w1, Return []) ->
     main md5 json_load json_dump a w
     = ((if arg_cleanup a
         then cleanup_old_models json_load (arg_dest a) (arg_dry_run a)
         else ret tt) ;;; ret 0) w) /\
  (forall content mtime,
     files w !! arg_src a = Some (File content mtime) -> arg_all a = true ->
     main md5 json_load json_dump a w = (w, Raise NotADirectoryError)).
Proof.
  rewrite main_unfold. split; [|split; [|split]].
  - by intros ->.
  - intros w' n. destruct (files w !! arg_src a) as [nd|].
    + intros Hrun. right. split; [|eauto]. unfold bind, ret in Hrun.
      repeat (case_match; simplify_eq; try done).
    + intros [= <- <-]. auto.
  - intros w1 [nd ->] Hsync.
    pose proof (sync_empty_unchanged _ _ _ _ _ _ _ Hsync) as ->.
    unfold bind at 1. rewrite Hsync. done.
  - intros c m Hsrc ->. rewrite Hsrc.
    unfold bind at 1. unfold sync_all_models, bind at 1, iterdir, lookup_node.
    by rewrite Hsrc.
Qed.

(** ** Syncing a tree onto itself *)

Lemma would_copy_same fs p ow :
  is_Some (fs !! p) -> (fs !! p = Some Dir -> ow = false) ->
  would_copy md5 fs p p ow = false.
Proof.
  intros [nd Hp] Hd. unfold would_copy, identical. rewrite Hp.
  destruct nd as [c m|].
  - by rewrite String.eqb_refl.
  - by rewrite Hd.
Qed.

Lemma sync_all_files_same root ow dry c ms : forall s w,
  (forall m, m ∈ ms ->
     m = root </> c </> Path.name m /\ is_Some (files w !! m) /\
     (files w !! m = Some Dir -> ow = false)) ->
  for_each ms (sync_all_file md5 root ow dry c) s w = (w, Return s).
Proof.
  induction ms as [|m ms IH]; intros s w Hms; [done|].
  rewrite for_each_cons. unfold sync_all_file at 1, bind.
  destruct (Hms m) as (Hm & Hex & Hd); [by left|].
  rewrite <- Hm. rewrite copy_model_file_skip by by apply would_copy_same.
  unfold ret at 1. apply IH. intros m' Hm'. apply Hms. by right.
Qed.

Lemma sync_all_rulesets_same root ow dry w ds : forall s,
  (forall d, d ∈ ds -> child_of root d) ->
  (ow = true -> forall c n, fnmatch MODEL_GLOB n = true ->
                            files w !! (root </> c </> n) <> Some Dir) ->
  for_each ds (sync_all_ruleset md5 root ow dry) s w = (w, Return s).
Proof.
  intros s Hch Hnd. revert s. induction ds as [|d ds IH]; intros s; [done|].
  rewrite for_each_cons.
  assert (Hd : sync_all_ruleset md5 root ow dry d s w = (w, Return s)).
  { unfold sync_all_ruleset, skipped_dir. io_unfold.
    destruct (negb _ || _); [done|].
    destruct (glob_spec d MODEL_GLOB w) as (l & -> & _ & Hl).
    apply sync_all_files_same. intros m Hm.
    apply sorted_elem_of, Hl in Hm as (_ & Hex & Hc & Hfn).
    assert (Hdr : d = root </> Path.name d).
    { apply child_of_inv, Hch. by left. }
    assert (Hm : m = root </> Path.name d </> Path.name m).
    { rewrite <- Hdr. by apply child_of_inv. }
    split; [done|]. split; [done|]. intros Hdir.
    destruct ow; [|done]. exfalso. rewrite Hm in Hdir.
    by apply (Hnd eq_refl) in Hdir. }
  rewrite Hd. apply IH. intros d' Hd'. apply Hch. by right.
Qed.

(** X7.  Syncing a tree onto itself copies nothing.  A regular file is
    identical to itself, so [copy_model_file] from a path to the same
    path returns [false] whatever the flags, and [shutil.copy2] is never
    asked to copy a file onto itself.  [sync_all_models] with the
    source root as destination returns the empty result and leaves the
    world as it was (with [overwrite], provided no directory is named
    like a model file). *)
Theorem sync_onto_itself root overwrite dry_run w :
  (forall p c m, files w !! p = Some (File c m) ->
     copy_model_file md5 p p overwrite dry_run w = (w, Return false)) /\
  (files w !! root = Some Dir ->
   (overwrite = true -> forall ruleset name,
      fnmatch MODEL_GLOB name = true ->
      files w !! (root </> ruleset </> name) <> Some Dir) ->
   sync_all_models md5 root root overwrite dry_run w = (w, Return [])).
Proof.
  split.
  - intros p c m Hp. apply copy_model_file_skip, would_copy_same.
    + by rewrite Hp.
    + by rewrite Hp.
  - intros Hroot Hnd. unfold sync_all_models, bind.
    rewrite iterdir_dir by done. apply sync_all_rulesets_same; [|done].
    intros d Hd. by apply elem_of_children in Hd as [_ ?].
Qed.

End NothingSynced.

(** ** Sync-best: the manifest and its entries *)

Lemma for_each_filter_skip {A S} (f : A -> bool) (body : A -> S -> IO S)
    (l : list A) :
  (forall x s w, f x = false -> body x s w = (w, Return s)) ->
  forall s w, for_each l body s w = for_each (List.filter f l) body s w.
Proof.
  intros Hskip. induction l as [|x l IH]; intros s w; [done|].
  simpl List.filter. destruct (f x) eqn:Hx.
  - rewrite !for_each_cons. destruct (body x s w) as [w1 [s1|e]]; [apply IH|done].
  - rewrite for_each_cons, Hskip by done. apply IH.
Qed.

Lemma dict_get_set_cases {V} k k' (v v' : V) d :
  dict_get k' (dict_set k v d) = Some v' ->
  (k' = k /\ v' = v) \/ (k' <> k /\ dict_get k' d = Some v').
Proof.
  destruct (decide (k = k')) as [->|Hne].
  - rewrite dict_get_set_eq. intros [= ->]. auto.
  - rewrite dict_get_set_ne by done. auto.
Qed.

Section SyncBestEntries.

Variable md5 : string -> string.
Variable json_load : string -> option json.

(** X8.  The source manifest of [sync_best_models].  When it is
    missing, is a directory or does not parse, the result is empty and
    nothing has happened; when it parses to JSON that is not a mapping,
    the call raises [AttributeError] before anything is done. *)
Theorem sync_best_manifest_unusable src dest overwrite dry_run w :
  let manifest := src </> BEST_MODELS_FILENAME in
  (files w !! manifest = None \/ files w !! manifest = Some Dir \/
   (exists text t, files w !! manifest = Some (File text t) /\
                   json_load text = None) ->
   sync_best_models md5 json_load src dest overwrite dry_run w
   = (w, Return [])) /\
  (forall text t j,
     files w !! manifest = Some (File text t) -> json_load text = Some j ->
     (forall d, j <> JDict d) ->
     sync_best_models md5 json_load src dest overwrite dry_run w
     = (w, Raise AttributeError)).
Proof.
  intros manifest. rewrite sync_best_models_unfold. fold manifest. split.
  - intros [->|[->|(text & t & -> & ->)]]; done.
  - intros text t j -> -> Hj. destruct j; try done. by destruct (Hj d).
Qed.

(** X9.  Entries of the source manifest that are no mapping, or have no
    [model_file], do not count: the run is the run over the remaining
    entries.  An entry of plain names whose model file is missing at
    the source is passed over, leaving result and world as they are.
    An entry whose [model_file] is not a string makes the loop raise
    [TypeError]. *)
Theorem sync_best_skips_malformed src dest overwrite dry_run w text t d :
  files w !! (src </> BEST_MODELS_FILENAME) = Some (File text t) ->
  json_load text = Some (JDict d) ->
  sync_best_models md5 json_load src dest overwrite dry_run w
  = for_each (List.filter (fun item => has_model_file (snd item)) d)
      (sync_best_entry md5 src dest overwrite dry_run) [] w /\
  (forall ruleset entry f s w0,
     model_file_of entry = JStr f ->
     plain_name ruleset = true -> plain_name f = true ->
     files w0 !! (src </> ruleset </> f) = None ->
     sync_best_entry md5 src dest overwrite dry_run (ruleset, entry) s w0
     = (w0, Return s)) /\
  (forall ruleset entry s w0,
     has_model_file entry = true ->
     (forall f, model_file_of entry <> JStr f) ->
     sync_best_entry md5 src dest overwrite dry_run (ruleset, entry) s w0
     = (w0, Raise TypeError)).
Proof.
  intros Hman Hload. split; [|split].
  - rewrite sync_best_models_unfold, Hman, Hload.
    apply for_each_filter_skip. intros [c entry] s w0 Hf. simpl in Hf.
    unfold sync_best_entry. by rewrite Hf.
  - intros c entry f s w0 Hf _ _ Hs. unfold sync_best_entry.
    destruct (negb (has_model_file entry)); [done|]. rewrite Hf.
    unfold bind, path_exists, lookup_node. by rewrite Hs.
  - intros c entry s w0 Hhas Hf. unfold sync_best_entry. rewrite Hhas. simpl.
    destruct (model_file_of entry); try done. by destruct (Hf s0).
Qed.

Lemma sync_best_entry_live_result src dest ow c entry s w w' s' :
  dest_is_dir (files w) dest (c, entry) = false ->
  sync_best_entry md5 src dest ow false (c, entry) s w = (w', Return s') ->
  (w' = w /\ s' = s) \/
  exists f cnt m,
    has_model_file entry = true /\ model_file_of entry = JStr f /\
    s' = dict_set c f s /\
    files w !! (src </> c </> f) = Some (File cnt m) /\
    src </> c </> f <> dest </> c </> f /\
    files w' !! (dest </> c </> f) = Some (File cnt m) /\
    copy_frame w w' (dest </> c </> f).
Proof.
  unfold dest_is_dir, sync_best_entry. simpl.
  destruct (has_model_file entry) eqn:Hhas; simpl.
  2: { intros _ Hrun. unfold ret in Hrun. simplify_eq. auto. }
  destruct (model_file_of entry) as [| | | |f| |]; try done.
  intros Hnd Hrun.
  assert (Hd : files w !! (dest </> c </> f) <> Some Dir).
  { by destruct (files w !! (dest </> c </> f)) as [[]|]. }
  unfold bind, path_exists, lookup_node in Hrun.
  destruct (files w !! (src </> c </> f)) as [nd|] eqn:Hs; simpl in Hrun.
  2: { unfold ret in Hrun. simplify_eq. auto. }
  destruct (copy_model_file md5 (src </> c </> f) (dest </> c </> f) ow false w)
    as [w1 [b|e]] eqn:Hcp; [|done].
  unfold ret in Hrun. simplify_eq.
  destruct (copy_model_file_live_effect md5 _ _ _ _ _ _ Hd Hcp)
    as (Hb & Hfalse & Htrue).
  destruct b.
  - destruct (Htrue eq_refl) as (c0 & m0 & Hsrc & Hne & Hdst & _ & _ & Hfr).
    right. exists f, c0, m0. do 6 (split; [done|]).
    intros x. destruct (decide (x = dest </> c </> f)) as [->|Hx]; [eauto 6|].
    destruct (Hfr x Hx) as [E|E]; auto.
  - left. by rewrite (Hfalse eq_refl).
Qed.

Lemma sync_best_loop_result src dest ow (all : list (string * json)) entries :
  forall s w w1 s1,
  (forall item, item ∈ entries -> item ∈ all) ->
  Forall (fun item => dest_is_dir (files w) dest item = false) entries ->
  (forall c f, dict_get c s = Some f ->
     (exists entry, (c, entry) ∈ all /\ has_model_file entry = true /\
                    model_file_of entry = JStr f) /\
     exists cnt m, files w !! (src </> c </> f) = Some (File cnt m) /\
                   files w !! (dest </> c </> f) = Some (File cnt m)) ->
  for_each entries (sync_best_entry md5 src dest ow false) s w
  = (w1, Return s1) ->
  forall c f, dict_get c s1 = Some f ->
    (exists entry, (c, entry) ∈ all /\ has_model_file entry = true /\
                   model_file_of entry = JStr f) /\
    exists cnt m, files w1 !! (src </> c </> f) = Some (File cnt m) /\
                  files w1 !! (dest </> c </> f) = Some (File cnt m).
Proof.
  induction entries as [|[c0 entry] entries IH]; intros s w w1 s1 Hall Hnd Hinv Hrun.
  - simpl in Hrun. unfold ret in Hrun. by simplify_eq.
  - rewrite for_each_cons in Hrun.
    destruct (sync_best_entry md5 src dest ow false (c0, entry) s w)
      as [w' [s'|e]] eqn:Hstep; [|done].
    apply Forall_cons in Hnd as [Hnd0 Hnd].
    assert (Hall' : forall item, item ∈ entries -> item ∈ all).
    { intros item Hin. apply Hall. by right. }
    destruct (sync_best_entry_live_result _ _ _ _ _ _ _ _ _ Hnd0 Hstep)
      as [[-> ->]|(f0 & cnt & m & Hhas & Hf & -> & Hsrc & Hne & Hdst & Hfr)].
    { by apply (IH s w w1 s1). }
    assert (Hfile : forall x c1 m1, x <> dest </> c0 </> f0 ->
              files w !! x = Some (File c1 m1) ->
              files w' !! x = Some (File c1 m1)).
    { intros x c1 m1 Hx Hw.
      destruct (Hfr x) as [E|[[E _]|(E & _)]]; congruence. }
    apply (IH (dict_set c0 f0 s) w' w1 s1 Hall').
    + eapply Forall_impl; [exact Hnd|]. intros item.
      by apply (dest_is_dir_frame dest c0 f0 w w').
    + intros c f Hget.
      apply dict_get_set_cases in Hget as [[-> ->]|[Hc Hget]].
      * split; [exists entry; split; [apply Hall; by left|done]|].
        exists cnt, m. split; [by apply Hfile|done].
      * destruct (Hinv c f Hget) as [He (cnt1 & m1 & Hs1 & Hd1)].
        split; [done|]. exists cnt1, m1.
        split; apply Hfile; try done; unfold Path.joinpath; congruence.
    + done.
Qed.

(** X10.  What a live [sync_best_models] reports as synced is synced:
    when the run returns (no directory being where a model file goes),
    every pair [ruleset -> name] of its result comes from a well-formed
    entry of the source manifest, and in the state the run leaves the
    destination file [dest/ruleset/name] is a regular file with the
    content and the modification time of the source file
    [src/ruleset/name]. *)
Theorem sync_best_result_synced src dest overwrite w w1 r :
  no_dir_targets (files w) dest (source_entries json_load (files w) src)
  = true ->
  sync_best_models md5 json_load src dest overwrite false w
  = (w1, Return r) ->
  forall ruleset name, dict_get ruleset r = Some name ->
    (exists entry,
       (ruleset, entry) ∈ source_entries json_load (files w) src /\
       has_model_file entry = true /\ model_file_of entry = JStr name) /\
    exists content mtime,
      files w1 !! (src </> ruleset </> name) = Some (File content mtime) /\
      files w1 !! (dest </> ruleset </> name) = Some (File content mtime).
Proof.
  intros Hnd Hrun. rewrite sync_best_models_unfold in Hrun.
  unfold source_entries in *.
  destruct (files w !! (src </> BEST_MODELS_FILENAME)) as [[text t|]|];
    [|by simplify_eq..].
  destruct (json_load text) as [[]|]; try by simplify_eq.
  apply no_dir_targets_Forall in Hnd.
  by eapply (sync_best_loop_result src dest overwrite d d [] w w1 r).
Qed.

End SyncBestEntries.

(** ** Cleanup: the manifest decides *)

Lemma collect_best_returns d : forall acc w w' best,
  for_each d collect_best acc w = (w', Return best) ->
  w' = w /\
  forall r n, is_best r n best = is_referenced d r n || is_best r n acc.
Proof.
  induction d as [|[r0 entry] d IH]; intros acc w w' best Hrun.
  - simpl in Hrun. unfold ret in Hrun. by simplify_eq.
  - rewrite for_each_cons in Hrun.
    assert (Hh : negb (has_model_file entry) || hashable (model_file_of entry)
                 = true).
    { unfold collect_best, add_best in Hrun.
      destruct (has_model_file entry); [|done].
      by destruct (model_file_of entry). }
    destruct (collect_best_step r0 entry acc w Hh) as (acc' & Hstep & Hacc).
    rewrite Hstep in Hrun. apply IH in Hrun as [-> Hb]. split; [done|].
    intros r n. rewrite Hb, Hacc. simpl. rewrite orb_false_r.
    rewrite !orb_assoc. f_equal. apply orb_comm.
Qed.

Lemma collect_best_raises d : forall acc w,
  manifest_hashable d = false ->
  for_each d collect_best acc w = (w, Raise TypeError).
Proof.
  induction d as [|[r0 entry] d IH]; intros acc w Hh; [done|].
  simpl in Hh. rewrite for_each_cons.
  destruct (negb (has_model_file entry) || hashable (model_file_of entry))
    eqn:Hh0.
  - destruct (collect_best_step r0 entry acc w Hh0) as (acc' & -> & _).
    by apply IH.
  - apply orb_false_iff in Hh0 as [Hm Hv]. apply negb_false_iff in Hm.
    unfold collect_best, add_best. rewrite Hm.
    by destruct (model_file_of entry).
Qed.

Lemma only_deletes_cleanup_file_nonbest (Q : path -> Prop) best dry r m cnt w :
  (is_best r (Path.name m) best = false -> Q m) ->
  only_deletes Q w (fst (cleanup_file best dry r m cnt w)).
Proof.
  intros HQ. unfold cleanup_file.
  destruct (is_best r (Path.name m) best); [apply only_deletes_refl|].
  destruct dry; [apply only_deletes_refl|].
  apply only_deletes_bind; [by apply only_deletes_unlink, HQ|].
  intros; apply only_deletes_refl.
Qed.

Lemma only_deletes_cleanup_ruleset_nonbest dest best dry c cnt w :
  only_deletes
    (fun p => exists name ruleset,
                p = dest </> ruleset </> name /\
                is_best ruleset name best = false)
    w (fst (cleanup_ruleset best dry (dest </> c) cnt w)).
Proof.
  unfold cleanup_ruleset, skipped_dir. io_unfold. simpl.
  destruct (negb _ || startswith c "."); [apply only_deletes_refl|].
  destruct (glob_spec (dest </> c) MODEL_GLOB w) as (l & -> & _ & Hl).
  apply only_deletes_for_each. intros m s w' Hm.
  apply only_deletes_cleanup_file_nonbest. intros Hb.
  apply Hl in Hm as (_ & _ & Hch & _).
  exists (Path.name m), c. split; [by apply child_of_inv|done].
Qed.

Section CleanupManifest.

Variable json_load : string -> option json.

Lemma cleanup_unfold dest dry w :
  cleanup_old_models json_load dest dry w
  = match files w !! (dest </> BEST_MODELS_FILENAME) with
    | Some (File text _) =>
        match json_load text with
        | Some (JDict d) =>
            (best_model_files <- for_each d collect_best [] ;;
             dirs <- iterdir dest ;;
             for_each dirs (cleanup_ruleset best_model_files dry) 0 ;;;
             ret tt) w
        | Some _ => (w, Raise AttributeError)
        | None => (w, Return tt)
        end
    | _ => (w, Return tt)
    end.
Proof.
  unfold cleanup_old_models.
  set (m := dest </> BEST_MODELS_FILENAME).
  unfold bind, try_except, path_exists, read_json, bind, read_file,
    lookup_node.
  destruct (files w !! m) as [[text t|]|] eqn:E; simpl; rewrite ?E; try done.
  destruct (json_load text) as [[]|]; done.
Qed.

(** X11.  The destination manifest of [cleanup_old_models].  When it is
    missing, is a directory or does not parse, the pass returns without
    touching anything.  When it parses to JSON that is not a mapping the
    pass raises [AttributeError], and when some entry has a list or a
    mapping as [model_file] it raises [TypeError]; in both cases nothing
    has been deleted. *)
Theorem cleanup_manifest_unusable dest dry_run w :
  let manifest := dest </> BEST_MODELS_FILENAME in
  (files w !! manifest = None \/ files w !! manifest = Some Dir \/
   (exists text t, files w !! manifest = Some (File text t) /\
                   json_load text = None) ->
   cleanup_old_models json_load dest dry_run w = (w, Return tt)) /\
  (forall text t j,
     files w !! manifest = Some (File text t) -> json_load text = Some j ->
     (forall d, j <> JDict d) ->
     cleanup_old_models json_load dest dry_run w = (w, Raise AttributeError)) /\
  (forall text t d,
     files w !! manifest = Some (File text t) ->
     json_load text = Some (JDict d) ->
     manifest_hashable d = false ->
     cleanup_old_models json_load dest dry_run w = (w, Raise TypeError)).
Proof.
  intros manifest. rewrite cleanup_unfold. fold manifest. split; [|split].
  - intros [->|[->|(text & t & -> & ->)]]; done.
  - intros text t j -> -> Hj. destruct j; try done. by destruct (Hj d).
  - intros text t d -> -> Hh. unfold bind. by rewrite collect_best_raises.
Qed.

Lemma cleanup_referenced_kept dest dry_run w text t d :
  files w !! (dest </> BEST_MODELS_FILENAME) = Some (File text t) ->
  json_load text = Some (JDict d) ->
  forall ruleset name,
    is_referenced d ruleset name = true ->
    files (fst (cleanup_old_models json_load dest dry_run w))
      !! (dest </> ruleset </> name)
    = files w !! (dest </> ruleset </> name).
Proof.
  intros Hman Hload c n Href. rewrite cleanup_unfold, Hman, Hload.
  unfold bind at 1.
  destruct (for_each d collect_best [] w) as [w1 [best|e]] eqn:Hcol.
  2: { pose proof (for_each_unchanged d collect_best collect_best_unchanged [] w)
         as H. rewrite Hcol in H. simpl in *. by subst. }
  apply collect_best_returns in Hcol as [-> Hbest].
  assert (Hod : only_deletes
    (fun p => exists name ruleset,
                p = dest </> ruleset </> name /\
                is_best ruleset name best = false)
    w (fst ((dirs <- iterdir dest ;;
             for_each dirs (cleanup_ruleset best dry_run) 0 ;;;
             ret tt) w))).
  { apply only_deletes_bind.
    { pose proof (iterdir_spec dest w) as H.
      destruct (iterdir dest w) as [w5 [l|ex]]; simpl;
        destruct H as [-> _]; apply only_deletes_refl. }
    intros dirs w5 Hit.
    pose proof (iterdir_spec dest w) as H. rewrite Hit in H.
    destruct H as (-> & _ & ->).
    apply only_deletes_bind; [|intros; apply only_deletes_refl].
    apply only_deletes_for_each. intros d0 s w' Hin.
    apply elem_of_children in Hin as [_ Hch].
    rewrite (child_of_inv _ _ Hch).
    apply only_deletes_cleanup_ruleset_nonbest. }
  destruct Hod as (_ & _ & H).
  destruct (H (dest </> c </> n)) as [E|((n' & c' & Hp & Hb) & _)]; [done|].
  unfold Path.joinpath in Hp. simplify_eq.
  rewrite Hbest, Href in Hb. done.
Qed.

(** X12.  Whatever its outcome, dry or live, [cleanup_old_models] leaves
    alone every path [dest/ruleset/name] whose pair a well-formed entry
    of the destination manifest references: a best model is never
    deleted, also not in a pass that fails half-way. *)
Theorem cleanup_keeps_referenced dest dry_run w text t d :
  files w !! (dest </> BEST_MODELS_FILENAME) = Some (File text t) ->
  json_load text = Some (JDict d) ->
  forall ruleset name,
    is_referenced d ruleset name = true ->
    files (fst (cleanup_old_models json_load dest dry_run w))
      !! (dest </> ruleset </> name)
    = files w !! (dest </> ruleset </> name).
Proof. apply cleanup_referenced_kept. Qed.

End CleanupManifest.

(** ** The manifest update on a bad manifest, and followed by cleanup *)


Lemma dict_get_keys {V} k (d : dict V) :
  is_Some (dict_get k d) <-> k ∈ dict_keys d.
Proof.
  unfold dict_keys. induction d as [|[k' v'] d IH]; simpl.
  - split; [by intros [? ?]|by intros ?%elem_of_nil].
  - rewrite elem_of_cons. destruct (String.eqb_spec k' k) as [->|Hne].
    + split; [auto|eauto].
    + rewrite IH. split; [auto|]. intros [?|?]; [congruence|done].
Qed.






Section UpdateManifest.

Variable md5 : string -> string.
Variable json_load : string -> option json.
Variable json_dump : json -> string.


Lemma update_not_mapping dest synced dry w text t j :
  synced <> [] ->
  files w !! (dest </> BEST_MODELS_FILENAME) = Some (File text t) ->
  json_load text = Some j -> (forall d, j <> JDict d) ->
  update_dest_best_models json_load json_dump dest synced dry w
  = ({| files := files w; clock := clock w; ticks := S (ticks w) |},
     Raise TypeError).
Proof.
  intros Hne Hman Hload Hj. unfold update_dest_best_models.
  destruct synced as [|[r f] synced]; [done|].
  unfold bind at 1. unfold path_exists, lookup_node. rewrite Hman.
  unfold bind at 1. unfold try_except.
  rewrite (read_json_ok _ _ _ _ _ _ Hman Hload).
  unfold bind at 1. unfold datetime_now. unfold bind at 1.
  rewrite for_each_cons.
  destruct j; try done. by destruct (Hj d).
Qed.

(** X13.  The manifest update on a destination manifest it cannot use.
    When the file holds JSON that is not a mapping, the update raises
    [TypeError] at the first upsert, dry or live, having read the clock
    and written nothing.  When the file does not parse, the live update
    starts from an empty mapping: the manifest it writes holds the
    rulesets of the sync result and no other, so the entries the file
    had are gone. *)
Theorem update_bad_manifest dest synced w text t :
  let manifest := dest </> BEST_MODELS_FILENAME in
  let tmp := dest </> "best_models.json.tmp" in
  let now := current_time w in
  synced <> [] ->
  files w !! manifest = Some (File text t) ->
  (forall j dry_run,
     json_load text = Some j -> (forall d, j <> JDict d) ->
     update_dest_best_models json_load json_dump dest synced dry_run w
     = ({| files := files w; clock := clock w; ticks := S (ticks w) |},
        Raise TypeError)) /\
  (json_load text = None ->
   files w !! dest = Some Dir -> files w !! tmp <> Some Dir ->
   exists w' d1,
     update_dest_best_models json_load json_dump dest synced false w
     = (w', Return tt) /\
     files w' !! manifest
     = Some (File (json_dump (JDict d1) +:+ String "010" "")
                  (clock w (S (ticks w)))) /\
     forall k, is_Some (dict_get k d1) <-> k ∈ dict_keys synced).
Proof.
  intros manifest tmp now Hne Hman. split.
  - intros j dry Hload Hj. by eapply update_not_mapping.
  - intros Hload Hdest Htmp.
    destruct (update_live_spec json_load json_dump dest synced w [] Hne)
      as (w' & Hrun & _ & _ & Hm & _); try done.
    { unfold existing_manifest. fold manifest. by rewrite Hman, Hload. }
    { fold manifest. by rewrite Hman. }
    exists w', (upsert_all now synced []). split; [done|]. split; [done|].
    intros k. destruct (decide (k ∈ dict_keys synced)) as [Hin|Hnin].
    + destruct (upsert_all_synced now synced [] k Hin) as (f & _ & ->).
      split; [done|eauto].
    + rewrite upsert_all_other by done. simpl. split; [by intros [? ?]|done].
Qed.



End UpdateManifest.

(** ** A dry run reports what the live run does *)

Lemma children_Permutation (fs fs' : gmap path node) d :
  (forall q, child_of d q -> fs' !! q = fs !! q) ->
  children fs' d ≡ₚ children fs d.
Proof.
  intros H. apply NoDup_Permutation; [apply NoDup_children..|].
  intros q. rewrite !elem_of_children.
  split; intros [Hq Hc]; (split; [|done]); [rewrite <- H|rewrite H]; done.
Qed.

Lemma sorted_Permutation_eq d l1 l2 :
  (forall q, q ∈ l1 -> child_of d q) ->
  l1 ≡ₚ l2 -> sorted l1 = sorted l2.
Proof.
  intros Hch Hperm. unfold sorted.
  apply (StronglySorted_unique_strong path_le).
  - intros x1 x2 H1 H2 H12 H21.
    rewrite merge_sort_Permutation in H1, H2. rewrite <- Hperm in H2.
    apply Hch, child_of_inv in H1, H2. rewrite H1, H2. f_equal.
    unfold path_le in *. apply Is_true_true in H12, H21.
    by apply String.leb_antisym.
  - apply StronglySorted_merge_sort; apply _.
  - apply StronglySorted_merge_sort; apply _.
  - by rewrite !merge_sort_Permutation.
Qed.

Lemma sorted_glob_agree d pat w wk :
  files wk !! d = files w !! d ->
  (forall q, child_of d q -> files wk !! q = files w !! q) ->
  exists l lk,
    glob d pat w = (w, Return l) /\ glob d pat wk = (wk, Return lk) /\
    sorted lk = sorted l.
Proof.
  intros Hd Hq. unfold glob, lookup_node. rewrite Hd.
  destruct (files w !! d) as [[c t|]|]; [by exists [], []| |by exists [], []].
  eexists _, _. split; [done|]. split; [done|].
  apply (sorted_Permutation_eq d).
  - intros q Hin. apply list_elem_of_filter in Hin as [_ Hin].
    by apply elem_of_children in Hin as [_ ?].
  - apply filter_Permutation. by apply children_Permutation.
Qed.

Section DryRunAgrees.

Variable md5 : string -> string.
Variable json_load : string -> option json.

Lemma would_copy_ext fs fs' S D ow :
  fs' !! S = fs !! S -> fs' !! D = fs !! D ->
  would_copy md5 fs' S D ow = would_copy md5 fs S D ow.
Proof. intros HS HD. unfold would_copy, identical. by rewrite HS, HD. Qed.

(** One call of [copy_model_file], live from [wk] and dry from [w],
    when the two states agree at the source and at the destination. *)
Lemma copy_live_agrees S D ow w wk wk' b :
  files wk !! S = files w !! S -> files wk !! D = files w !! D ->
  files w !! D <> Some Dir ->
  copy_model_file md5 S D ow false wk = (wk', Return b) ->
  copy_model_file md5 S D ow true w = (w, Return b) /\
  copy_frame wk wk' D.
Proof.
  intros HS HD Hnd Hrun.
  assert (Hnd' : files wk !! D <> Some Dir) by by rewrite HD.
  destruct (copy_model_file_live_effect md5 _ _ _ _ _ _ Hnd' Hrun)
    as (Hb & Hfalse & Htrue).
  split.
  - rewrite copy_model_file_dry, <- (would_copy_ext (files w) (files wk))
      by done.
    by rewrite Hb.
  - destruct b.
    + destruct (Htrue eq_refl) as (c & m & _ & _ & Hdst & _ & _ & Hfr).
      intros x. destruct (decide (x = D)) as [->|Hx]; [eauto 6|].
      destruct (Hfr x Hx) as [E|E]; auto.
    + rewrite (Hfalse eq_refl). intros x. by left.
Qed.

Lemma sync_best_loop_agrees src dest ow entries : forall s w wk w1 s1,
  disjoint_roots src dest ->
  NoDup (map fst entries) ->
  (forall c entry f, (c, entry) ∈ entries -> model_file_of entry = JStr f ->
     files wk !! (src </> c </> f) = files w !! (src </> c </> f) /\
     files wk !! (dest </> c </> f) = files w !! (dest </> c </> f) /\
     files w !! (dest </> c </> f) <> Some Dir) ->
  for_each entries (sync_best_entry md5 src dest ow false) s wk
  = (w1, Return s1) ->
  for_each entries (sync_best_entry md5 src dest ow true) s w
  = (w, Return s1).
Proof.
  induction entries as [|[c entry] entries IH];
    intros s w wk w1 s1 Hdis Hnd Hagree Hrun.
  - simpl in *. unfold ret in *. by simplify_eq.
  - simpl in Hnd. apply NoDup_cons in Hnd as [Hnin Hnd].
    rewrite for_each_cons in Hrun. rewrite for_each_cons.
    assert (Hrest : forall c0 entry0 f0,
              (c0, entry0) ∈ entries -> model_file_of entry0 = JStr f0 ->
              files wk !! (src </> c0 </> f0) = files w !! (src </> c0 </> f0) /\
              files wk !! (dest </> c0 </> f0) = files w !! (dest </> c0 </> f0) /\
              files w !! (dest </> c0 </> f0) <> Some Dir).
    { intros c0 e0 f0 Hin. apply Hagree. by right. }
    unfold sync_best_entry at 1 in Hrun. unfold sync_best_entry at 1.
    destruct (negb (has_model_file entry)).
    { unfold ret at 1 in Hrun. unfold ret at 1. by apply (IH s w wk w1 s1). }
    destruct (model_file_of entry) as [| | | |f| |] eqn:Hf; try done.
    destruct (Hagree c entry f) as (HS & HD & Hdir); [by left|done|].
    unfold bind, path_exists, lookup_node in Hrun |- *.
    rewrite HS in Hrun.
    destruct (files w !! (src </> c </> f)) as [nd|] eqn:Hsrc; simpl in *.
    2: { by apply (IH s w wk w1 s1). }
    rewrite <- Hsrc in HS.
    destruct (copy_model_file md5 _ _ ow false wk) as [wk' [b|e]] eqn:Hcp;
      [|done].
    destruct (copy_live_agrees _ _ _ _ _ _ _ HS HD Hdir Hcp) as [-> Hfr].
    unfold ret at 1 in Hrun. unfold ret at 1.
    apply (IH _ w wk' w1 s1 Hdis Hnd); [|done].
    intros c0 e0 f0 Hin Hf0.
    destruct (Hrest c0 e0 f0 Hin Hf0) as (HS0 & HD0 & Hdir0).
    assert (Hc : c0 <> c).
    { intros ->. apply Hnin. apply list_elem_of_fmap. by exists (c, e0). }
    split; [|split; [|done]].
    + rewrite <- HS0. eapply copy_frame_src; [done|exact Hfr|].
      by do 2 apply suffix_cons_r.
    + rewrite <- HD0. apply (copy_frame_target dest c f c0 f0 wk wk'); [done|].
      congruence.
Qed.

(** X15.  The dry run of [sync_best_models] is trustworthy: whenever the
    live run returns, the dry run from the same state returns the same
    result, having changed nothing.  (The rulesets of the source
    manifest are distinct, as the keys of a parsed JSON object are, and
    its names are plain; the roots do not lie in one another; no
    directory is where a model file goes.) *)
Theorem sync_best_dry_run_agrees src dest overwrite w w1 r :
  disjoint_roots src dest ->
  plain_manifest (source_entries json_load (files w) src) = true ->
  NoDup (dict_keys (source_entries json_load (files w) src)) ->
  no_dir_targets (files w) dest (source_entries json_load (files w) src)
  = true ->
  sync_best_models md5 json_load src dest overwrite false w
  = (w1, Return r) ->
  sync_best_models md5 json_load src dest overwrite true w = (w, Return r).
Proof.
  intros Hdis _ Hnd Hdir Hrun. rewrite sync_best_models_unfold in Hrun |- *.
  unfold source_entries in *.
  destruct (files w !! (src </> BEST_MODELS_FILENAME)) as [[text t|]|];
    [|by simplify_eq..].
  destruct (json_load text) as [[]|]; try by simplify_eq.
  apply (sync_best_loop_agrees src dest overwrite d [] w w w1 r); try done.
  intros c entry f Hin Hf. split; [done|]. split; [done|].
  apply no_dir_targets_Forall in Hdir. rewrite Forall_forall in Hdir.
  specialize (Hdir _ Hin). unfold dest_is_dir in Hdir. simpl in Hdir.
  rewrite Hf in Hdir. intros E. by rewrite E in Hdir.
Qed.

Lemma sync_all_files_agree src dest ow c ms : forall s w wk w1 s1,
  disjoint_roots src dest ->
  NoDup (map Path.name ms) ->
  (forall m, m ∈ ms -> src `suffix_of` m) ->
  (forall p, src `suffix_of` p -> files wk !! p = files w !! p) ->
  (forall m, m ∈ ms ->
     files wk !! (dest </> c </> Path.name m)
     = files w !! (dest </> c </> Path.name m) /\
     files w !! (dest </> c </> Path.name m) <> Some Dir) ->
  for_each ms (sync_all_file md5 dest ow false c) s wk = (w1, Return s1) ->
  for_each ms (sync_all_file md5 dest ow true c) s w = (w, Return s1) /\
  (forall p, src `suffix_of` p -> files w1 !! p = files w !! p) /\
  (forall c' n, c' <> c ->
     files w1 !! (dest </> c' </> n) = files wk !! (dest </> c' </> n)).
Proof.
  induction ms as [|m ms IH]; intros s w wk w1 s1 Hdis Hnd Hsrc Hagree Htgt Hrun.
  - simpl in *. unfold ret in *. by simplify_eq.
  - simpl in Hnd. apply NoDup_cons in Hnd as [Hnin Hnd].
    rewrite for_each_cons in Hrun. rewrite for_each_cons.
    unfold sync_all_file at 1 in Hrun. unfold sync_all_file at 1.
    unfold bind in Hrun |- *.
    destruct (Htgt m) as [HD Hdir]; [by left|].
    assert (HS : files wk !! m = files w !! m).
    { apply Hagree, Hsrc. by left. }
    destruct (copy_model_file md5 m _ ow false wk) as [wk' [b|e]] eqn:Hcp;
      [|done].
    destruct (copy_live_agrees _ _ _ _ _ _ _ HS HD Hdir Hcp) as [-> Hfr].
    unfold ret at 1 in Hrun. unfold ret at 1.
    destruct (IH (if b then dict_set c (Path.name m) s else s) w wk' w1 s1
                Hdis Hnd) as (Hdry & Hsrc1 & Hother); try done.
    + intros m' Hm'. apply Hsrc. by right.
    + intros p Hp. rewrite <- Hagree by done. by eapply copy_frame_src.
    + intros m' Hm'. destruct (Htgt m') as [HD' Hdir']; [by right|].
      split; [|done]. rewrite <- HD'.
      apply (copy_frame_target dest c (Path.name m) c (Path.name m') wk wk');
        [done|].
      intros [= E]. apply Hnin. rewrite <- E. apply list_elem_of_fmap. eauto.
    + split; [done|]. split; [done|]. intros c' n Hc'.
      rewrite Hother by done.
      apply (copy_frame_target dest c (Path.name m) c' n wk wk'); [done|].
      congruence.
Qed.

Lemma sync_all_rulesets_agree src dest ow ds : forall s w wk w1 s1,
  disjoint_roots src dest ->
  NoDup (map Path.name ds) ->
  (forall d, d ∈ ds -> child_of src d) ->
  (forall p, src `suffix_of` p -> files wk !! p = files w !! p) ->
  (forall d n, d ∈ ds ->
     files wk !! (dest </> Path.name d </> n)
     = files w !! (dest </> Path.name d </> n)) ->
  (forall c n, fnmatch MODEL_GLOB n = true ->
               files w !! (dest </> c </> n) <> Some Dir) ->
  for_each ds (sync_all_ruleset md5 dest ow false) s wk = (w1, Return s1) ->
  for_each ds (sync_all_ruleset md5 dest ow true) s w = (w, Return s1).
Proof.
  induction ds as [|d ds IH];
    intros s w wk w1 s1 Hdis Hnd Hch Hagree Htgt Hdir Hrun.
  - simpl in *. unfold ret in *. by simplify_eq.
  - simpl in Hnd. apply NoDup_cons in Hnd as [Hnin Hnd].
    rewrite for_each_cons in Hrun. rewrite for_each_cons.
    assert (Hd : src `suffix_of` d).
    { rewrite (child_of_inv src d) by (apply Hch; by left).
      by apply suffix_cons_r. }
    assert (Hstep : exists wk' s',
      sync_all_ruleset md5 dest ow false d s wk = (wk', Return s') /\
      sync_all_ruleset md5 dest ow true d s w = (w, Return s') /\
      (forall p, src `suffix_of` p -> files wk' !! p = files w !! p) /\
      (forall c' n, c' <> Path.name d ->
         files wk' !! (dest </> c' </> n) = files wk !! (dest </> c' </> n))).
    { destruct (sync_all_ruleset md5 dest ow false d s wk) as [wk' [s'|e]]
        eqn:Hlive; [|done].
      exists wk', s'. split; [done|].
      unfold sync_all_ruleset, skipped_dir in Hlive |- *.
      unfold bind at 1 2 in Hlive. unfold bind at 1 2.
      unfold is_dir, ret, lookup_node in Hlive |- *.
      rewrite (Hagree d Hd) in Hlive.
      destruct (negb _ || _).
      { simplify_eq. done. }
      destruct (sorted_glob_agree d MODEL_GLOB w wk) as (l & lk & Hg & Hgk & Hsort).
      { by apply Hagree. }
      { intros q Hq. apply Hagree. rewrite (child_of_inv d q Hq).
        by apply suffix_cons_r. }
      unfold bind in Hlive |- *. rewrite Hgk in Hlive. rewrite Hg.
      rewrite Hsort in Hlive.
      destruct (glob_spec d MODEL_GLOB w) as (l' & Hg' & Hndl & Hl).
      rewrite Hg in Hg'. simplify_eq.
      apply (sync_all_files_agree src dest ow (Path.name d) (sorted l')
               s w wk wk' s'); try done.
      - unfold sorted. rewrite merge_sort_Permutation.
        apply (NoDup_fmap_2_strong Path.name); [|done].
        intros q1 q2 H1 H2 E. apply Hl in H1 as (_ & _ & H1 & _).
        apply Hl in H2 as (_ & _ & H2 & _).
        apply child_of_inv in H1, H2. congruence.
      - intros m Hm. apply sorted_elem_of, Hl in Hm as (_ & _ & Hm & _).
        rewrite (child_of_inv d m Hm). by apply suffix_cons_r.
      - intros m Hm. apply sorted_elem_of, Hl in Hm as (_ & _ & _ & Hfn).
        split; [|by apply Hdir]. apply Htgt. by left. }
    destruct Hstep as (wk' & s' & Hlive & -> & Hsrc' & Hother).
    rewrite Hlive in Hrun.
    apply (IH s' w wk' w1 s1 Hdis Hnd); try done.
    + intros d' Hd'. apply Hch. by right.
    + intros d' n Hd'. rewrite Hother.
      * apply Htgt. by right.
      * intros E. apply Hnin. rewrite <- E. apply list_elem_of_fmap. eauto.
Qed.

(** X16.  The dry run of [sync_all_models] is trustworthy: whenever the
    live run returns, the dry run from the same state returns the same
    result, having changed nothing.  (The roots do not lie in one
    another; no directory is named like a model file in a destination
    ruleset.) *)
Theorem sync_all_dry_run_agrees src dest overwrite w w1 r :
  disjoint_roots src dest ->
  (forall ruleset name, fnmatch MODEL_GLOB name = true ->
     files w !! (dest </> ruleset </> name) <> Some Dir) ->
  sync_all_models md5 src dest overwrite false w = (w1, Return r) ->
  sync_all_models md5 src dest overwrite true w = (w, Return r).
Proof.
  intros Hdis Hdir Hrun. unfold sync_all_models, bind in *.
  pose proof (iterdir_spec src w) as H.
  destruct (iterdir src w) as [w0 [dirs|e]]; [|done].
  destruct H as (-> & _ & ->).
  apply (sync_all_rulesets_agree src dest overwrite _ [] w w w1 r); try done.
  - apply NoDup_children_names.
  - intros d Hd. by apply elem_of_children in Hd as [_ ?].
Qed.

End DryRunAgrees.

(** ** Sync-all: what the result names is at the destination *)

Section SyncAllResult.

Variable md5 : string -> string.

Lemma sync_all_file_live_result dest ow c m s w w' s' :
  files w !! (dest </> c </> Path.name m) <> Some Dir ->
  sync_all_file md5 dest ow false c m s w = (w', Return s') ->
  (w' = w /\ s' = s) \/
  exists cnt t,
    s' = dict_set c (Path.name m) s /\
    files w !! m = Some (File cnt t) /\
    m <> dest </> c </> Path.name m /\
    files w' !! (dest </> c </> Path.name m) = Some (File cnt t) /\
    copy_frame w w' (dest </> c </> Path.name m).
Proof.
  intros Hd Hrun. unfold sync_all_file, bind in Hrun.
  destruct (copy_model_file md5 m _ ow false w) as [w1 [b|e]] eqn:Hcp; [|done].
  unfold ret in Hrun. simplify_eq.
  destruct (copy_model_file_live_effect md5 _ _ _ _ _ _ Hd Hcp)
    as (Hb & Hfalse & Htrue).
  destruct b.
  - destruct (Htrue eq_refl) as (c0 & m0 & Hsrc & Hne & Hdst & _ & _ & Hfr).
    right. exists c0, m0. do 4 (split; [done|]).
    intros x.
    destruct (decide (x = dest </> c </> Path.name m)) as [->|Hx]; [eauto 6|].
    destruct (Hfr x Hx) as [E|E]; auto.
  - left. by rewrite (Hfalse eq_refl).
Qed.

Lemma sync_all_files_result src dest ow c ms : forall s w w1 s1,
  startswith c "." = false ->
  (forall m, m ∈ ms ->
     m = src </> c </> Path.name m /\ fnmatch MODEL_GLOB (Path.name m) = true) ->
  (forall c0 n0, fnmatch MODEL_GLOB n0 = true ->
     files w !! (dest </> c0 </> n0) <> Some Dir) ->
  (forall c0 n0, dict_get c0 s = Some n0 ->
     fnmatch MODEL_GLOB n0 = true /\ startswith c0 "." = false /\
     exists cnt t, files w !! (src </> c0 </> n0) = Some (File cnt t) /\
                   files w !! (dest </> c0 </> n0) = Some (File cnt t)) ->
  for_each ms (sync_all_file md5 dest ow false c) s w = (w1, Return s1) ->
  (forall c0 n0, fnmatch MODEL_GLOB n0 = true ->
     files w1 !! (dest </> c0 </> n0) <> Some Dir) /\
  (forall c0 n0, dict_get c0 s1 = Some n0 ->
     fnmatch MODEL_GLOB n0 = true /\ startswith c0 "." = false /\
     exists cnt t, files w1 !! (src </> c0 </> n0) = Some (File cnt t) /\
                   files w1 !! (dest </> c0 </> n0) = Some (File cnt t)).
Proof.
  induction ms as [|m ms IH]; intros s w w1 s1 Hvis Hms Hnd Hinv Hrun.
  - simpl in Hrun. unfold ret in Hrun. by simplify_eq.
  - rewrite for_each_cons in Hrun.
    destruct (sync_all_file md5 dest ow false c m s w) as [w' [s'|e]] eqn:Hstep;
      [|done].
    destruct (Hms m) as [Hm Hfn]; [by left|].
    assert (Hms' : forall m', m' ∈ ms ->
              m' = src </> c </> Path.name m' /\
              fnmatch MODEL_GLOB (Path.name m') = true).
    { intros m' Hm'. apply Hms. by right. }
    destruct (sync_all_file_live_result _ _ _ _ _ _ _ _ (Hnd c _ Hfn) Hstep)
      as [[-> ->]|(cnt & t & -> & Hsrc & Hne & Hdst & Hfr)].
    { by apply (IH s w w1 s1). }
    assert (Hfile : forall x c1 m1, x <> dest </> c </> Path.name m ->
              files w !! x = Some (File c1 m1) ->
              files w' !! x = Some (File c1 m1)).
    { intros x c1 m1 Hx Hw.
      destruct (Hfr x) as [E|[[E _]|(E & _)]]; congruence. }
    apply (IH (dict_set c (Path.name m) s) w' w1 s1); try done.
    + intros c0 n0 Hn0.
      apply (copy_frame_not_dir dest c (Path.name m) c0 n0 w w'); [done|].
      by apply Hnd.
    + intros c0 n0 Hget.
      apply dict_get_set_cases in Hget as [[-> ->]|[Hc Hget]].
      * split; [done|]. split; [done|]. exists cnt, t.
        split; [|done]. rewrite <- Hm. by apply Hfile.
      * destruct (Hinv c0 n0 Hget) as (Hfn0 & Hv0 & cnt1 & t1 & Hs1 & Hd1).
        split; [done|]. split; [done|]. exists cnt1, t1.
        split; apply Hfile; try done; unfold Path.joinpath; congruence.
Qed.

Lemma sync_all_rulesets_result src dest ow ds : forall s w w1 s1,
  (forall d, d ∈ ds -> child_of src d) ->
  (forall c0 n0, fnmatch MODEL_GLOB n0 = true ->
     files w !! (dest </> c0 </> n0) <> Some Dir) ->
  (forall c0 n0, dict_get c0 s = Some n0 ->
     fnmatch MODEL_GLOB n0 = true /\ startswith c0 "." = false /\
     exists cnt t, files w !! (src </> c0 </> n0) = Some (File cnt t) /\
                   files w !! (dest </> c0 </> n0) = Some (File cnt t)) ->
  for_each ds (sync_all_ruleset md5 dest ow false) s w = (w1, Return s1) ->
  forall c0 n0, dict_get c0 s1 = Some n0 ->
    fnmatch MODEL_GLOB n0 = true /\ startswith c0 "." = false /\
    exists cnt t, files w1 !! (src </> c0 </> n0) = Some (File cnt t) /\
                  files w1 !! (dest </> c0 </> n0) = Some (File cnt t).
Proof.
  induction ds as [|d ds IH]; intros s w w1 s1 Hch Hnd Hinv Hrun.
  - simpl in Hrun. unfold ret in Hrun. by simplify_eq.
  - rewrite for_each_cons in Hrun.
    destruct (sync_all_ruleset md5 dest ow false d s w) as [w' [s'|e]] eqn:Hstep;
      [|done].
    assert (Hch' : forall d', d' ∈ ds -> child_of src d').
    { intros d' Hd'. apply Hch. by right. }
    unfold sync_all_ruleset, skipped_dir in Hstep. io_unfold.
    destruct (negb _ || _) eqn:Hskip.
    { simplify_eq. by apply (IH s' w' w1 s1). }
    apply orb_false_iff in Hskip as [_ Hvis].
    destruct (glob_spec d MODEL_GLOB w) as (l & Hg & _ & Hl).
    rewrite Hg in Hstep.
    destruct (sync_all_files_result src dest ow (Path.name d) (sorted l)
                s w w' s') as [Hnd' Hinv']; try done.
    { intros m Hm. apply sorted_elem_of, Hl in Hm as (_ & _ & Hm & Hfn).
      split; [|done].
      rewrite (child_of_inv d m Hm) at 1.
      rewrite (child_of_inv src d) at 1 by (apply Hch; by left). done. }
    by apply (IH s' w' w1 s1).
Qed.

(** X17.  What a live [sync_all_models] reports as synced is synced:
    when the run returns (no directory being named like a model file in
    a destination ruleset), every pair [ruleset -> name] of its result
    has a name matching [model_*.json] and a ruleset that is not
    hidden, and in the state the run leaves the destination file
    [dest/ruleset/name] is a regular file with the content and the
    modification time of the source file [src/ruleset/name]. *)
Theorem sync_all_result_synced src dest overwrite w w1 r :
  (forall ruleset name, fnmatch MODEL_GLOB name = true ->
     files w !! (dest </> ruleset </> name) <> Some Dir) ->
  sync_all_models md5 src dest overwrite false w = (w1, Return r) ->
  forall ruleset name, dict_get ruleset r = Some name ->
    fnmatch MODEL_GLOB name = true /\ startswith ruleset "." = false /\
    exists content mtime,
      files w1 !! (src </> ruleset </> name) = Some (File content mtime) /\
      files w1 !! (dest </> ruleset </> name) = Some (File content mtime).
Proof.
  intros Hnd Hrun. unfold sync_all_models, bind in Hrun.
  pose proof (iterdir_spec src w) as H.
  destruct (iterdir src w) as [w0 [dirs|e]]; [|done].
  destruct H as (-> & _ & ->).
  apply (sync_all_rulesets_result src dest overwrite (children (files w) src)
           [] w w1 r); try done.
  intros d Hd. by apply elem_of_children in Hd as [_ ?].
Qed.

End SyncAllResult.

(** ** Cleanup, twice *)

Lemma stale_length fs dest d p :
  stale fs dest d p = true -> length p = 2 + length dest.
Proof.
  unfold stale. destruct p as [|n [|c root]]; try done.
  destruct (bool_decide_reflect (root = dest)) as [->|]; done.
Qed.

Section CleanupTwice.

Variable json_load : string -> option json.

Lemma cleanup_live_exact dest w text mtime d :
  files w !! dest = Some Dir ->
  files w !! (dest </> BEST_MODELS_FILENAME) = Some (File text mtime) ->
  json_load text = Some (JDict d) ->
  manifest_hashable d = true ->
  (forall p, stale (files w) dest d p = true -> files w !! p <> Some Dir) ->
  exists w',
    cleanup_old_models json_load dest false w = (w', Return tt) /\
    forall p,
      files w' !! p = if stale (files w) dest d p then None else files w !! p.
Proof.
  intros Hdest Hman Hload Hhash Hnodir.
  destruct (collect_best_spec d [] w Hhash) as (best & Hcol & Hbest).
  assert (Hb : forall r n, is_best r n best = is_referenced d r n).
  { intros r n. rewrite Hbest. simpl. apply orb_false_r. }
  destruct (cleanup_rulesets_live json_load dest best (children (files w) dest)
              (NoDup_children _ _)) with (cnt := 0) (w := w)
    as (w' & cnt' & Hrun & _ & _ & H).
  { intros d0 Hd0. by apply elem_of_children in Hd0 as [_ ?]. }
  { intros p Hp. apply (stale_doomed w dest d best p Hb) in Hp.
    pose proof Hp as Hst. apply Hnodir in Hp.
    unfold stale in Hst. destruct p as [|n [|c root]]; try done.
    destruct (files w !! (n :: c :: root)) as [[c0 t0|]|]; try done.
    - eauto.
    - by rewrite !andb_false_r in Hst. }
  exists w'. split.
  { rewrite cleanup_unfold, Hman, Hload. unfold bind.
    rewrite Hcol, (iterdir_dir _ _ Hdest), Hrun. done. }
  intros p. destruct (stale (files w) dest d p) eqn:Hst.
  - apply H, (stale_doomed w dest d best p Hb). done.
  - apply H. intros Hd. apply (stale_doomed w dest d best p Hb) in Hd.
    congruence.
Qed.

(** X18.  Cleanup is idempotent.  After a live pass that completed (the
    hypotheses being those under which it completes: the destination
    root a directory, the manifest a mapping with hashable [model_file]
    values, no directory among the entries to delete), the tree holds
    no stale entry any more, and a second live pass returns without
    changing any path. *)
Theorem cleanup_idempotent dest w text mtime d :
  files w !! dest = Some Dir ->
  files w !! (dest </> BEST_MODELS_FILENAME) = Some (File text mtime) ->
  json_load text = Some (JDict d) ->
  manifest_hashable d = true ->
  (forall p, stale (files w) dest d p = true -> files w !! p <> Some Dir) ->
  exists w',
    cleanup_old_models json_load dest false w = (w', Return tt) /\
    (forall p, stale (files w') dest d p = false) /\
    exists w'',
      cleanup_old_models json_load dest false w' = (w'', Return tt) /\
      forall p, files w'' !! p = files w' !! p.
Proof.
  intros Hdest Hman Hload Hhash Hnodir.
  destruct (cleanup_live_exact dest w text mtime d Hdest Hman Hload Hhash Hnodir)
    as (w' & Hrun & Hf).
  assert (Hkeep : forall p nd, files w' !! p = Some nd ->
            files w !! p = Some nd /\ stale (files w) dest d p = false).
  { intros p nd. rewrite Hf. by destruct (stale (files w) dest d p). }
  assert (Hnone : forall p, stale (files w') dest d p = false).
  { intros p. destruct (stale (files w') dest d p) eqn:Hst; [|done].
    exfalso. destruct p as [|n [|c root]]; try done.
    assert (Hw : stale (files w) dest d (n :: c :: root) = true).
    { unfold stale in Hst |- *.
      destruct (files w' !! (dest </> c)) as [[]|] eqn:Hc;
        try by rewrite ?andb_false_r in Hst.
      destruct (files w' !! (n :: c :: root)) as [nd|] eqn:Hp;
        try by rewrite ?andb_false_r in Hst.
      apply Hkeep in Hc as [-> _]. apply Hkeep in Hp as [-> _]. exact Hst. }
    unfold stale in Hst. rewrite (Hf (n :: c :: root)), Hw in Hst.
    by rewrite andb_false_r in Hst. }
  exists w'. split; [done|]. split; [done|].
  destruct (cleanup_live_exact dest w' text mtime d) as (w'' & Hrun2 & Hf2);
    try done.
  - rewrite Hf. destruct (stale (files w) dest d dest) eqn:E; [|done].
    apply stale_length in E. lia.
  - rewrite Hf.
    destruct (stale (files w) dest d (dest </> BEST_MODELS_FILENAME)) eqn:E;
      [|done].
    apply stale_length in E. simpl in E. lia.
  - intros p Hp. by rewrite Hnone in Hp.
  - exists w''. split; [done|]. intros p. by rewrite Hf2, Hnone.
Qed.

End CleanupTwice.

(** ** Sync-all: a second run *)

Section SyncAllTwice.

Variable md5 : string -> string.

(** A ruleset directory none of whose model files would be copied is
    passed over. *)
Lemma sync_all_rulesets_quiet dest ow dry w ds : forall s,
  (forall d m, d ∈ ds -> files w !! d = Some Dir ->
     startswith (Path.name d) "." = false ->
     child_of d m -> fnmatch MODEL_GLOB (Path.name m) = true ->
     is_Some (files w !! m) ->
     would_copy md5 (files w) m (dest </> Path.name d </> Path.name m) ow
     = false) ->
  for_each ds (sync_all_ruleset md5 dest ow dry) s w = (w, Return s).
Proof.
  induction ds as [|d ds IH]; intros s Hq; [done|].
  rewrite for_each_cons.
  assert (Hd : sync_all_ruleset md5 dest ow dry d s w = (w, Return s)).
  { unfold sync_all_ruleset, skipped_dir. io_unfold.
    destruct (negb _ || _) eqn:Hskip; [done|].
    apply orb_false_iff in Hskip as [Hdir Hvis].
    destruct (glob_spec d MODEL_GLOB w) as (l & -> & _ & Hl).
    assert (Hall : forall m, m ∈ sorted l ->
              would_copy md5 (files w) m (dest </> Path.name d </> Path.name m)
                ow = false).
    { intros m Hm. apply sorted_elem_of, Hl in Hm as (Hdd & Hex & Hc & Hfn).
      apply (Hq d m); try done. by left. }
    clear Hl. revert s. induction (sorted l) as [|m ms IHm]; intros s; [done|].
    rewrite for_each_cons. unfold sync_all_file at 1, bind.
    rewrite copy_model_file_skip by (apply Hall; by left).
    unfold ret at 1. apply IHm. intros m' Hm'. apply Hall. by right. }
  rewrite Hd. apply IH. intros d' m Hd'. apply Hq. by right.
Qed.

Lemma sync_all_files_live src dest ow c ms : forall s wk w1 s1,
  disjoint_roots src dest ->
  NoDup (map Path.name ms) ->
  (forall m, m ∈ ms -> src `suffix_of` m) ->
  (forall m, m ∈ ms -> files wk !! (dest </> c </> Path.name m) <> Some Dir) ->
  for_each ms (sync_all_file md5 dest ow false c) s wk = (w1, Return s1) ->
  (forall m, m ∈ ms ->
     would_copy md5 (files w1) m (dest </> c </> Path.name m) ow = false) /\
  (forall p, src `suffix_of` p -> files w1 !! p = files wk !! p) /\
  (forall c' n, c' <> c \/ n ∉ map Path.name ms ->
     files w1 !! (dest </> c' </> n) = files wk !! (dest </> c' </> n)) /\
  (forall c' n, files wk !! (dest </> c' </> n) <> Some Dir ->
     files w1 !! (dest </> c' </> n) <> Some Dir).
Proof.
  induction ms as [|m ms IH]; intros s wk w1 s1 Hdis Hnd Hsrc Hdir Hrun.
  - simpl in Hrun. unfold ret in Hrun. simplify_eq.
    split; [by intros m ?%elem_of_nil|done].
  - simpl in Hnd. apply NoDup_cons in Hnd as [Hnin Hnd].
    rewrite for_each_cons in Hrun.
    unfold sync_all_file at 1, bind in Hrun.
    set (D := dest </> c </> Path.name m) in *.
    assert (HD : files wk !! D <> Some Dir) by (apply Hdir; by left).
    destruct (copy_model_file md5 m D ow false wk) as [wk' [b|e]] eqn:Hcp;
      [|done].
    unfold ret at 1 in Hrun.
    destruct (copy_model_file_live_effect md5 _ _ _ _ _ _ HD Hcp)
      as (Hb & Hfalse & Htrue).
    assert (Hstep : would_copy md5 (files wk') m D ow = false /\
                    copy_frame wk wk' D).
    { destruct b.
      - destruct (Htrue eq_refl) as (c0 & m0 & Hs & Hne & Hdst & _ & _ & Hfr).
        split.
        + unfold would_copy, identical. rewrite Hdst.
          destruct (Hfr m Hne) as [->|(E & _)]; [|congruence].
          by rewrite Hs, String.eqb_refl.
        + intros x. destruct (decide (x = D)) as [->|Hx]; [eauto 6|].
          destruct (Hfr x Hx) as [E|E]; auto.
      - rewrite (Hfalse eq_refl). split; [done|]. intros x. by left. }
    destruct Hstep as [Hq Hfr].
    destruct (IH (if b then dict_set c (Path.name m) s else s) wk' w1 s1
                Hdis Hnd) as (Hqs & Hsrc1 & Hother & Hdir1).
    + intros m' Hm'. apply Hsrc. by right.
    + intros m' Hm'.
      apply (copy_frame_not_dir dest c (Path.name m) c (Path.name m') wk wk');
        [done|]. apply Hdir. by right.
    + exact Hrun.
    + split; [|split; [|split]].
      * intros m' Hm'. apply elem_of_cons in Hm' as [->|Hm']; [|by apply Hqs].
        rewrite <- Hq. apply would_copy_ext.
        -- apply Hsrc1, Hsrc. by left.
        -- apply Hother. by right.
      * intros p Hp. rewrite Hsrc1 by done. by eapply copy_frame_src.
      * intros c' n Hcn. rewrite Hother.
        -- apply (copy_frame_target dest c (Path.name m) c' n wk wk'); [done|].
           intros [= -> ->]. destruct Hcn as [?|Hn]; [done|].
           apply Hn. simpl. by left.
        -- destruct Hcn as [?|Hn]; [by left|right].
           intros Hin. apply Hn. simpl. by right.
      * intros c' n Hn. apply Hdir1.
        by apply (copy_frame_not_dir dest c (Path.name m) c' n wk wk').
Qed.

Lemma sync_all_rulesets_live src dest ow ds : forall s wk w1 s1,
  disjoint_roots src dest ->
  NoDup (map Path.name ds) ->
  (forall d, d ∈ ds -> child_of src d) ->
  (forall c n, fnmatch MODEL_GLOB n = true ->
               files wk !! (dest </> c </> n) <> Some Dir) ->
  for_each ds (sync_all_ruleset md5 dest ow false) s wk = (w1, Return s1) ->
  (forall p, src `suffix_of` p -> files w1 !! p = files wk !! p) /\
  (forall c n, c ∉ map Path.name ds ->
     files w1 !! (dest </> c </> n) = files wk !! (dest </> c </> n)) /\
  (forall d m, d ∈ ds -> files w1 !! d = Some Dir ->
     startswith (Path.name d) "." = false ->
     child_of d m -> fnmatch MODEL_GLOB (Path.name m) = true ->
     is_Some (files w1 !! m) ->
     would_copy md5 (files w1) m (dest </> Path.name d </> Path.name m) ow
     = false).
Proof.
  induction ds as [|d ds IH]; intros s wk w1 s1 Hdis Hnd Hch Hdir Hrun.
  - simpl in Hrun. unfold ret in Hrun. simplify_eq.
    split; [done|]. split; [done|]. by intros d m ?%elem_of_nil.
  - simpl in Hnd. apply NoDup_cons in Hnd as [Hnin Hnd].
    rewrite for_each_cons in Hrun.
    destruct (sync_all_ruleset md5 dest ow false d s wk) as [wk' [s'|e]]
      eqn:Hstep; [|done].
    assert (Hd : src `suffix_of` d).
    { rewrite (child_of_inv src d) by (apply Hch; by left).
      by apply suffix_cons_r. }
    assert (Hsub : forall m, child_of d m -> src `suffix_of` m).
    { intros m Hm. rewrite (child_of_inv d m Hm). by apply suffix_cons_r. }
    assert (Hone :
      (forall p, src `suffix_of` p -> files wk' !! p = files wk !! p) /\
      (forall c n, c <> Path.name d ->
         files wk' !! (dest </> c </> n) = files wk !! (dest </> c </> n)) /\
      (forall c n, files wk !! (dest </> c </> n) <> Some Dir ->
         files wk' !! (dest </> c </> n) <> Some Dir) /\
      (forall m, files wk !! d = Some Dir ->
         startswith (Path.name d) "." = false ->
         child_of d m -> fnmatch MODEL_GLOB (Path.name m) = true ->
         is_Some (files wk !! m) ->
         would_copy md5 (files wk') m (dest </> Path.name d </> Path.name m) ow
         = false)).
    { unfold sync_all_ruleset, skipped_dir in Hstep. io_unfold.
      destruct (negb _ || _) eqn:Hskip.
      { simplify_eq. do 3 (split; [done|]). intros m Hdd Hvis.
        rewrite Hdd, Hvis in Hskip. done. }
      destruct (glob_spec d MODEL_GLOB wk) as (l & Hg & Hndl & Hl).
      rewrite Hg in Hstep.
      destruct (sync_all_files_live src dest ow (Path.name d) (sorted l)
                  s wk wk' s' Hdis) as (Hq & Hsrc1 & Hother & Hdir1);
        try done.
      - unfold sorted. rewrite merge_sort_Permutation.
        apply (NoDup_fmap_2_strong Path.name); [|done].
        intros q1 q2 H1 H2 E. apply Hl in H1 as (_ & _ & H1 & _).
        apply Hl in H2 as (_ & _ & H2 & _).
        apply child_of_inv in H1, H2. congruence.
      - intros m Hm. apply sorted_elem_of, Hl in Hm as (_ & _ & Hm & _).
        by apply Hsub.
      - intros m Hm. apply sorted_elem_of, Hl in Hm as (_ & _ & _ & Hfn).
        by apply Hdir.
      - split; [done|]. split; [intros c n Hc; apply Hother; by left|].
        split; [done|]. intros m Hdd Hvis Hm Hfn Hex. apply Hq.
        apply sorted_elem_of, Hl. done. }
    destruct Hone as (Hsrc1 & Hother1 & Hdir1 & Hq1).
    destruct (IH s' wk' w1 s1 Hdis Hnd) as (Hsrc2 & Hother2 & Hq2); try done.
    + intros d' Hd'. apply Hch. by right.
    + intros c n Hfn. by apply Hdir1, Hdir.
    + split; [|split].
      * intros p Hp. by rewrite Hsrc2, Hsrc1.
      * intros c n Hc. apply not_elem_of_cons in Hc as [Hc1 Hc2].
        by rewrite Hother2, Hother1.
      * intros d' m Hd' Hdd Hvis Hm Hfn Hex.
        apply elem_of_cons in Hd' as [->|Hd']; [|by apply Hq2].
        rewrite <- (Hq1 m); try done.
        -- apply would_copy_ext; [by apply Hsrc2, Hsub|by apply Hother2].
        -- by rewrite <- Hsrc1, <- Hsrc2.
        -- rewrite <- Hsrc1, <- Hsrc2; [done|by apply Hsub..].
Qed.

(** X19.  [sync_all_models] is idempotent in the work it does.  After a
    live run that returned (the roots not lying in one another and no
    directory being named like a model file in a destination ruleset),
    a second run from the state the first one left, dry or live, copies
    nothing: it returns the empty result and leaves the world as it
    is; the source tree is as before the first run. *)
Theorem sync_all_second_run_copies_nothing src dest overwrite w w1 r :
  disjoint_roots src dest ->
  (forall ruleset name, fnmatch MODEL_GLOB name = true ->
     files w !! (dest </> ruleset </> name) <> Some Dir) ->
  sync_all_models md5 src dest overwrite false w = (w1, Return r) ->
  (forall dry_run,
     sync_all_models md5 src dest overwrite dry_run w1 = (w1, Return [])) /\
  (forall p, src `suffix_of` p -> files w1 !! p = files w !! p).
Proof.
  intros Hdis Hdir Hrun. unfold sync_all_models, bind in Hrun.
  pose proof (iterdir_spec src w) as H.
  destruct (iterdir src w) as [w0 [dirs|e]]; [|done].
  destruct H as (-> & Hsrc & ->).
  destruct (sync_all_rulesets_live src dest overwrite (children (files w) src)
              [] w w1 r Hdis) as (Hsame & _ & Hq); try done.
  { apply NoDup_children_names. }
  { intros d Hd. by apply elem_of_children in Hd as [_ ?]. }
  split; [|done]. intros dry. unfold sync_all_models, bind.
  rewrite iterdir_dir by (rewrite Hsame; done).
  apply sync_all_rulesets_quiet. intros d m Hd. apply Hq.
  apply elem_of_children in Hd as [Hex Hc]. apply elem_of_children.
  split; [|done]. rewrite <- Hsame; [done|].
  rewrite (child_of_inv src d Hc). by apply suffix_cons_r.
Qed.

End SyncAllTwice.

(** ** A directory at the destination path *)

Section CopyIntoDirectory.

Variable md5 : string -> string.

(** X20.  A directory where a model file goes is never up to date.  With
    a regular source file [S] and a directory at the destination path
    [D], [copy_model_file] skips without [overwrite]; with [overwrite]
    it reports a copy, and the live copy puts the file inside the
    directory, at [D/name(S)], leaving [D] a directory: the next call
    reports a copy again. *)
Theorem copy_into_directory S D w content mtime :
  files w !! S = Some (File content mtime) ->
  files w !! D = Some Dir ->
  files w !! Path.parent D = Some Dir ->
  files w !! (D </> Path.name S) <> Some Dir ->
  S <> D </> Path.name S ->
  (forall dry_run, copy_model_file md5 S D false dry_run w = (w, Return false)) /\
  copy_model_file md5 S D true true w = (w, Return true) /\
  exists w',
    copy_model_file md5 S D true false w = (w', Return true) /\
    files w' !! D = Some Dir /\
    files w' !! (D </> Path.name S) = Some (File content mtime) /\
    (forall x, x <> D </> Path.name S -> files w' !! x = files w !! x) /\
    copy_model_file md5 S D true true w' = (w', Return true).
Proof.
  intros HS HD HP Hnd Hne.
  assert (Hwc : forall fs ow, fs !! D = Some Dir ->
            would_copy md5 fs S D ow = ow).
  { intros fs ow HfD. unfold would_copy, identical. rewrite HfD.
    by destruct (fs !! S) as [[]|]. }
  split; [|split].
  - intros dry. apply copy_model_file_skip. by apply Hwc.
  - rewrite copy_model_file_dry. by rewrite Hwc.
  - assert (HDS : D <> D </> Path.name S).
    { intros E. apply (f_equal length) in E. simpl in E. lia. }
    exists (set_files (insert (D </> Path.name S) (File content mtime)) w).
    split; [|split; [|split; [|split]]].
    + rewrite copy_model_file_live by by apply Hwc.
      unfold bind, ensure_dir. rewrite mkdir_parents_dir by done.
      unfold copy2, bind, is_dir, lookup_node. rewrite HD.
      destruct (decide (S = D </> Path.name S)); [done|].
      rewrite HS. change (Path.parent (D </> Path.name S)) with D. rewrite HD.
      by destruct (files w !! (D </> Path.name S)) as [[]|].
    + by rewrite set_files_lookup, lookup_insert_ne.
    + by rewrite set_files_lookup, lookup_insert_eq.
    + intros x Hx. by rewrite set_files_lookup, lookup_insert_ne.
    + rewrite copy_model_file_dry, Hwc; [done|].
      by rewrite set_files_lookup, lookup_insert_ne.
Qed.

Lemma copy2_raises src dst w w' e :
  copy2 src dst w = (w', Raise e) -> w' = w.
Proof.
  unfold copy2, bind, is_dir, lookup_node.
  destruct (decide (src = _)); [unfold raise; congruence|].
  destruct (files w !! src) as [[c m|]|]; [|congruence..].
  repeat case_match; congruence.
Qed.

(** X21.  A live copy that fails leaves the files alone.  When
    [copy_model_file] raises, the destination path is as it was, every
    node that existed is unchanged, and whatever is new is a directory
    made on the way to the destination's directory. *)
Theorem copy_failure_keeps_files S D overwrite dry_run w w' e :
  copy_model_file md5 S D overwrite dry_run w = (w', Raise e) ->
  dry_run = false /\
  files w' !! D = files w !! D /\
  (forall x nd, files w !! x = Some nd -> files w' !! x = Some nd) /\
  (forall x, files w !! x = None ->
     files w' !! x = None \/
     (files w' !! x = Some Dir /\ x `suffix_of` Path.parent D)).
Proof.
  intros Hrun.
  destruct (would_copy md5 (files w) S D overwrite) eqn:Hwc.
  2: { by rewrite copy_model_file_skip in Hrun. }
  destruct dry_run; [by rewrite copy_model_file_dry in Hrun|].
  split; [done|].
  rewrite copy_model_file_live in Hrun by done.
  unfold bind, ensure_dir in Hrun.
  pose proof (mkdir_parents_spec (Path.parent D) w) as Hmk.
  destruct (mkdir_parents (Path.parent D) w) as [w1 [[]|e1]].
  - destruct (copy2 S D w1) as [w2 [[]|e2]] eqn:Hcp; [done|].
    apply copy2_raises in Hcp as ->. simplify_eq.
    destruct Hmk as ((_ & _ & Hf) & _). split; [|split].
    + destruct (Hf D) as [E|(_ & _ & Hs & Hnil)]; [done|].
      apply suffix_length in Hs. destruct D; simpl in *; [done|lia].
    + intros x nd Hx. destruct (Hf x) as [E|(E & _)]; congruence.
    + intros x Hx. destruct (Hf x) as [E|(_ & E & Hs & _)]; [left|right];
        [congruence|done].
  - simplify_eq. destruct Hmk as ((_ & _ & Hf) & _). split; [|split].
    + destruct (Hf D) as [E|(_ & _ & Hs & Hnil)]; [done|].
      apply suffix_length in Hs. destruct D; simpl in *; [done|lia].
    + intros x nd Hx. destruct (Hf x) as [E|(E & _)]; congruence.
    + intros x Hx. destruct (Hf x) as [E|(_ & E & Hs & _)]; [left|right];
        [congruence|done].
Qed.

End CopyIntoDirectory.

(** * The properties on the samples *)

Lemma all_nodes_check (fs : gmap path node) (P : path -> node -> bool) :
  forallb (fun kv => P (fst kv) (snd kv)) (map_to_list fs) = true ->
  forall p nd, fs !! p = Some nd -> P p nd = true.
Proof.
  intros H p nd Hp. rewrite forallb_forall in H.
  apply (H (p, nd)). apply list_elem_of_In. by apply elem_of_map_to_list.
Qed.

Lemma stale_files_check fs dest d :
  forallb (fun kv => negb (stale fs dest d (fst kv) &&
                           match snd kv with Dir => true | _ => false end))
          (map_to_list fs) = true ->
  forall p, stale fs dest d p = true -> fs !! p <> Some Dir.
Proof.
  intros H p Hst Hp.
  pose proof (all_nodes_check fs
    (fun k v => negb (stale fs dest d k &&
                      match v with Dir => true | _ => false end)) H p Dir Hp)
    as Hc.
  simpl in Hc. by rewrite Hst in Hc.
Qed.

Lemma copy_model_file_decision_witness :
  files sample_world !! ["model_001.json"; "A"; "src"]
  = Some (File "one" sample_time) /\
  files sample_world !! ["model_001.json"; "A"; "dest"] <> Some Dir /\
  creatable (files sample_world) ["A"; "dest"] = true /\
  exists w',
    copy_model_file sample_md5 ["model_001.json"; "A"; "src"]
      ["model_001.json"; "A"; "dest"] true false sample_world
    = (w', Return true) /\
    files w' !! ["model_001.json"; "A"; "dest"] = Some (File "one" sample_time).
Proof.
  split; [reflexivity|]. split; [vm_compute; discriminate|].
  split; [reflexivity|].
  destruct (copy_model_file_decision sample_md5
              ["model_001.json"; "A"; "src"] ["model_001.json"; "A"; "dest"]
              true false sample_world "one" sample_time)
    as (w' & b & Hrun & Hiff & _ & _ & _ & Hcopy).
  - reflexivity.
  - vm_compute; discriminate.
  - intros _. reflexivity.
  - assert (Hb : b = true).
    { apply Hiff. right. exists "older", sample_time.
      split; [reflexivity|]. split; [vm_compute; discriminate|reflexivity]. }
    subst b. exists w'. split; [exact Hrun|]. by apply Hcopy.
Defined.

(** C1 fails on the code for a destination that is no regular file.
    With a directory at the destination path and [overwrite] set, the
    live call returns [true] and the destination is the directory it
    was, the copy having gone inside it.  With the destination missing
    below a regular file, the live call raises instead of returning
    [true]. *)
Lemma copy_model_file_not_every_destination :
  files sample_world_dir !! ["model_001.json"; "A"; "src"]
  = Some (File "one" sample_time) /\
  files sample_world_dir !! ["model_old.json"; "A"; "dest"] = Some Dir /\
  snd (copy_model_file sample_md5 ["model_001.json"; "A"; "src"]
         ["model_old.json"; "A"; "dest"] true false sample_world_dir)
  = Return true /\
  files (fst (copy_model_file sample_md5 ["model_001.json"; "A"; "src"]
                ["model_old.json"; "A"; "dest"] true false sample_world_dir))
    !! ["model_old.json"; "A"; "dest"] = Some Dir /\
  files sample_world !! ["model_001.json"; "notes.txt"; "A"; "dest"] = None /\
  copy_model_file sample_md5 ["model_001.json"; "A"; "src"]
    ["model_001.json"; "notes.txt"; "A"; "dest"] false false sample_world
  = (sample_world, Raise FileExistsError).
Proof. repeat split; vm_compute; reflexivity. Qed.

Lemma hashing_failure_witness :
  (exists e, snd (file_md5 sample_md5 ["model_404.json"; "A"; "src"]
                    sample_world) = Raise e) /\
  files_identical sample_md5 ["model_404.json"; "A"; "src"]
    ["model_001.json"; "A"; "dest"] sample_world
  = (sample_world, Return false).
Proof.
  assert (H : exists e, snd (file_md5 sample_md5 ["model_404.json"; "A"; "src"]
                               sample_world) = Raise e).
  { exists FileNotFoundError. reflexivity. }
  split; [exact H|].
  destruct (hashing_failure_is_not_identical sample_md5
              ["model_404.json"; "A"; "src"] ["model_001.json"; "A"; "dest"]
              sample_world) as [_ Himp].
  destruct (Himp (or_introl H)) as [Hid _]. exact Hid.
Defined.

Lemma cleanup_deletes_exactly_witness :
  exists w',
    cleanup_old_models sample_json_load ["dest"] false sample_world
    = (w', Return tt) /\
    files w' !! ["model_000.json"; "A"; "dest"] = None /\
    files w' !! ["model_001.json"; "A"; "dest"]
    = Some (File "older" sample_time) /\
    files w' !! ["notes.txt"; "A"; "dest"] = Some (File "notes" sample_time).
Proof.
  destruct (cleanup_deletes_exactly sample_json_load ["dest"] sample_world
              sample_manifest_text sample_time sample_manifest)
    as (w' & Hrun & _ & _ & Hfiles).
  - reflexivity.
  - reflexivity.
  - reflexivity.
  - reflexivity.
  - apply stale_files_check. vm_compute. reflexivity.
  - exists w'. split; [exact Hrun|]. rewrite !Hfiles.
    repeat split; reflexivity.
Defined.

(** C2 fails on the code.  With a manifest that reads as a mapping and
    holds a list as [model_file], the pass raises before it has looked
    at the tree, and the stale file [model_000.json] is still there.
    With a directory named [model_old.json] among the stale entries,
    the pass raises at it and it stays. *)
Lemma cleanup_not_exactly_stale :
  read_json (sample_json_load_among [JDict sample_manifest_unhashable])
    ["best_models.json"; "dest"] sample_world_unhashable
  = (sample_world_unhashable, Return (JDict sample_manifest_unhashable)) /\
  stale (files sample_world_unhashable) ["dest"] sample_manifest_unhashable
    ["model_000.json"; "A"; "dest"] = true /\
  cleanup_old_models (sample_json_load_among [JDict sample_manifest_unhashable])
    ["dest"] false sample_world_unhashable
  = (sample_world_unhashable, Raise TypeError) /\
  files sample_world_unhashable !! ["model_000.json"; "A"; "dest"]
  = Some (File "zero" sample_time) /\
  stale (files sample_world_dir) ["dest"] sample_manifest
    ["model_old.json"; "A"; "dest"] = true /\
  snd (cleanup_old_models sample_json_load ["dest"] false sample_world_dir)
  = Raise IsADirectoryError /\
  files (fst (cleanup_old_models sample_json_load ["dest"] false
                sample_world_dir))
    !! ["model_old.json"; "A"; "dest"] = Some Dir.
Proof. repeat split; vm_compute; reflexivity. Qed.

(** C3 fails on the code: with a directory named [model_old.json] among
    the entries to delete, the pass raises, and the stale file
    [model_000.json], listed after it, is still there. *)
Lemma cleanup_failure_not_isolated :
  stale (files sample_world_dir) ["dest"] sample_manifest
    ["model_000.json"; "A"; "dest"] = true /\
  exists w',
    cleanup_old_models sample_json_load ["dest"] false sample_world_dir
    = (w', Raise IsADirectoryError) /\
    files w' !! ["model_000.json"; "A"; "dest"]
    = Some (File "zero" sample_time).
Proof.
  split; [reflexivity|]. eexists. split; [vm_compute; reflexivity|].
  reflexivity.
Qed.

Lemma cleanup_unlink_error_propagates_witness :
  stale (files sample_world_dir) ["dest"] sample_manifest
    ["model_old.json"; "A"; "dest"] = true /\
  files sample_world_dir !! ["model_old.json"; "A"; "dest"] = Some Dir /\
  exists w' e,
    cleanup_old_models sample_json_load ["dest"] false sample_world_dir
    = (w', Raise e).
Proof.
  split; [reflexivity|]. split; [reflexivity|].
  destruct (cleanup_unlink_error_propagates sample_json_load ["dest"]
              sample_world_dir sample_manifest_text sample_time
              sample_manifest ["model_old.json"; "A"; "dest"])
    as [(w' & e & Hrun & _) _]; try reflexivity.
  exists w', e. exact Hrun.
Defined.

Lemma sync_all_last_wins_witness :
  files sample_all_world !! ["src"] = Some Dir /\
  sync_all_trace sample_md5 ["src"] ["dest"] false true sample_all_world
  = (sample_all_world,
     Return [("C", "model_001.json", true); ("C", "model_002.json", true)]).
Proof.
  split; [reflexivity|].
  destruct (sync_all_last_wins sample_md5 ["src"] ["dest"] false true
              sample_all_world) as (_ & _ & _ & Hdry & _).
  rewrite Hdry by reflexivity. vm_compute. reflexivity.
Defined.

(** C6 fails on the code: without [overwrite], a destination file that
    differs from the source is skipped by the first run and by the
    second; the second run copies nothing, yet the referenced file is
    not identical at the destination. *)
Lemma sync_best_second_run_not_identical :
  exists w1 r1,
    sync_best_models sample_md5 sample_json_load ["src"] ["dest"] false false
      sample_world = (w1, Return r1) /\
    sync_best_models sample_md5 sample_json_load ["src"] ["dest"] false false
      w1 = (w1, Return []) /\
    source_entries sample_json_load (files w1) ["src"] = sample_manifest /\
    is_Some (files w1 !! ["model_001.json"; "A"; "src"]) /\
    files_identical sample_md5 ["model_001.json"; "A"; "src"]
      ["model_001.json"; "A"; "dest"] w1 = (w1, Return false).
Proof.
  exists sample_world, []. split; [vm_compute; reflexivity|].
  split; [vm_compute; reflexivity|]. split; [reflexivity|].
  split; [by eexists|]. vm_compute; reflexivity.
Qed.

Lemma sync_best_second_run_witness :
  disjoint_roots ["src"] ["dest"] /\
  no_dir_targets (files sample_world) ["dest"]
    (source_entries sample_json_load (files sample_world) ["src"]) = true /\
  exists w1 r1,
    sync_best_models sample_md5 sample_json_load ["src"] ["dest"] true false
      sample_world = (w1, Return r1) /\
    sync_best_models sample_md5 sample_json_load ["src"] ["dest"] true false w1
    = (w1, Return []).
Proof.
  assert (Hdis : disjoint_roots ["src"] ["dest"]).
  { split; by apply (bool_decide_unpack _). }
  split; [exact Hdis|]. split; [reflexivity|].
  eexists _, _. split; [vm_compute; reflexivity|].
  eapply (sync_best_second_run_copies_nothing sample_md5 sample_json_load
            ["src"] ["dest"] true sample_world).
  - exact Hdis.
  - reflexivity.
  - vm_compute. reflexivity.
Defined.

Lemma update_touches_only_synced_witness :
  existing_manifest sample_json_load sample_world ["dest"]
  = Some sample_manifest /\
  exists w' d1,
    update_dest_best_models sample_json_load sample_json_dump ["dest"]
      [("B", "model_002.json")] false sample_world = (w', Return tt) /\
    dict_get "A" d1 = dict_get "A" sample_manifest /\
    dict_get "B" d1
    = Some (JDict [("model_file", JStr "model_002.json");
                   ("date", JStr "2025-06-07");
                   ("time", JStr "08:09:00")]).
Proof.
  split; [reflexivity|].
  destruct (update_touches_only_synced sample_json_load sample_json_dump
              ["dest"] [("B", "model_002.json")] sample_world sample_manifest)
    as [_ H].
  destruct H as (_ & w' & d1 & Hrun & _ & _ & Hother & Hsynced & _).
  - discriminate.
  - reflexivity.
  - reflexivity.
  - vm_compute; discriminate.
  - vm_compute; discriminate.
  - exists w', d1. split; [exact Hrun|]. split.
    + apply Hother. by apply (bool_decide_unpack _).
    + destruct (Hsynced "B") as (f & Hf & Hget).
      * by left.
      * apply list_elem_of_singleton in Hf. by simplify_eq.
Defined.

Lemma update_single_timestamp_witness :
  [("B", "model_002.json"); ("C", "model_003.json")] <> [] /\
  exists w' d1 date time,
    update_dest_best_models sample_json_load sample_json_dump ["dest"]
      [("B", "model_002.json"); ("C", "model_003.json")] false sample_world
    = (w', Return tt) /\
    ticks w' = 1 /\
    forall k, k ∈ ["B"; "C"] ->
      exists f, dict_get k d1
                = Some (JDict [("model_file", JStr f);
                               ("date", JStr date);
                               ("time", JStr time)]).
Proof.
  split; [discriminate|].
  destruct (update_single_timestamp sample_json_load sample_json_dump
              ["dest"] [("B", "model_002.json"); ("C", "model_003.json")]
              sample_world sample_manifest)
    as (Hticks & w' & d1 & date & time & Hrun & _ & Hsame).
  - discriminate.
  - reflexivity.
  - reflexivity.
  - vm_compute; discriminate.
  - vm_compute; discriminate.
  - exists w', d1, date, time. split; [exact Hrun|]. split.
    + specialize (Hticks false). by rewrite Hrun in Hticks.
    + intros k Hk. destruct (Hsame k Hk) as (f & _ & Hget). eauto.
Defined.

Lemma cleanup_spares_witness :
  fnmatch MODEL_GLOB (Path.name ["notes.txt"; "A"; "dest"]) = false /\
  startswith ".cache" "." = true /\
  let w' := fst (cleanup_old_models sample_json_load ["dest"] false
                   sample_world) in
  files w' !! ["notes.txt"; "A"; "dest"]
  = files sample_world !! ["notes.txt"; "A"; "dest"] /\
  files w' !! ["model_009.json"; ".cache"; "dest"]
  = files sample_world !! ["model_009.json"; ".cache"; "dest"] /\
  files w' !! ["best_models.json"; "dest"]
  = files sample_world !! ["best_models.json"; "dest"].
Proof.
  split; [reflexivity|]. split; [reflexivity|]. intros w'.
  destruct (cleanup_spares sample_json_load ["dest"] false sample_world)
    as (Hman & _ & _ & _ & Hglob & Hhidden & _).
  split; [|split].
  - apply Hglob. reflexivity.
  - apply (Hhidden ".cache" "model_009.json"). reflexivity.
  - exact Hman.
Defined.

(** ** Further properties on the samples *)

Lemma sample_all_no_dir_targets ruleset name :
  files sample_all_world !! (["dest"] </> ruleset </> name) <> Some Dir.
Proof.
  intros Hd.
  pose proof (all_nodes_check (files sample_all_world)
                (fun p nd => match nd with
                             | Dir => Nat.ltb (length p) 3
                             | File _ _ => true
                             end)) as H.
  apply H in Hd; [done|]. vm_compute; reflexivity.
Qed.

Lemma write_json_atomic_witness :
  "best_models.json" <> "" /\
  snd (write_json sample_json_dump ["best_models.json"; "dest"]
         (JDict sample_updated_manifest) sample_world) = Return tt /\
  files (fst (write_json sample_json_dump ["best_models.json"; "dest"]
                (JDict sample_updated_manifest) sample_world))
    !! ["best_models.json.tmp"; "dest"] = None.
Proof.
  split; [done|].
  destruct (write_json_atomic sample_json_dump ["dest"] "best_models.json"
              (JDict sample_updated_manifest) sample_world)
    as (_ & Hok & _); [done|].
  assert (H : snd (write_json sample_json_dump ["best_models.json"; "dest"]
                     (JDict sample_updated_manifest) sample_world) = Return tt)
    by (vm_compute; reflexivity).
  split; [exact H|]. by destruct (Hok H) as (_ & _ & _ & _ & ?).
Defined.

Lemma write_then_read_json_witness :
  sample_json_load_among sample_known
    (sample_json_dump (JDict sample_updated_manifest) +:+ String "010" "")
  = Some (JDict sample_updated_manifest) /\
  let w' := fst (write_json sample_json_dump ["best_models.json"; "dest"]
                   (JDict sample_updated_manifest) sample_world) in
  read_json (sample_json_load_among sample_known)
    ["best_models.json"; "dest"] w'
  = (w', Return (JDict sample_updated_manifest)).
Proof.
  split; [reflexivity|]. intros w'.
  apply (write_then_read_json sample_json_dump
           (sample_json_load_among sample_known) ["dest"] "best_models.json"
           (JDict sample_updated_manifest) sample_world).
  - done.
  - reflexivity.
  - vm_compute; reflexivity.
Defined.

Lemma ensure_dir_creates_witness :
  creatable (files sample_world) ["C"; "B"; "dest"] = true /\
  snd (ensure_dir ["C"; "B"; "dest"] sample_world) = Return tt /\
  files (fst (ensure_dir ["C"; "B"; "dest"] sample_world))
    !! ["C"; "B"; "dest"] = Some Dir /\
  files (fst (ensure_dir ["C"; "B"; "dest"] sample_world)) !! ["B"; "dest"]
  = Some Dir.
Proof.
  split; [reflexivity|].
  destruct (ensure_dir_creates ["C"; "B"; "dest"] sample_world)
    as (Hiff & Hdir & _).
  assert (H : snd (ensure_dir ["C"; "B"; "dest"] sample_world) = Return tt).
  { apply Hiff. reflexivity. }
  split; [exact H|]. split; [exact (Hdir H)|]. vm_compute; reflexivity.
Defined.

Lemma sync_never_deletes_witness :
  plain_manifest (source_entries sample_json_load (files sample_world) ["src"])
  = true /\
  files sample_world !! ["A"; "dest"] = Some Dir /\
  files sample_world !! ["best_models.json"; "dest"]
  = Some (File sample_manifest_text sample_time) /\
  let w' := fst (sync_best_models sample_md5 sample_json_load ["src"] ["dest"]
                   true false sample_world) in
  files w' !! ["A"; "dest"] = Some Dir /\
  files w' !! ["best_models.json"; "dest"]
  = Some (File sample_manifest_text sample_time).
Proof.
  split; [reflexivity|]. split; [reflexivity|]. split; [reflexivity|].
  intros w'.
  destruct (sync_never_deletes sample_md5 sample_json_load ["src"] ["dest"]
              false true false sample_world) as (Hdir & _ & _ & Hman & _);
    [reflexivity|].
  split; [apply Hdir; reflexivity|apply Hman; reflexivity].
Defined.

Lemma empty_result_no_change_witness :
  snd (sync_best_models sample_md5 sample_json_load ["src"] ["dest"] false
         false sample_world) = Return [] /\
  fst (sync_best_models sample_md5 sample_json_load ["src"] ["dest"] false
         false sample_world) = sample_world.
Proof.
  split; [vm_compute; reflexivity|].
  apply (empty_result_no_change sample_md5 sample_json_load ["src"] ["dest"]
           false false false sample_world).
  vm_compute; reflexivity.
Defined.

Lemma main_exit_code_witness :
  files sample_world !! ["nowhere"] = None /\
  main sample_md5 sample_json_load sample_json_dump
    (Args ["nowhere"] ["dest"] false true true false) sample_world
  = (sample_world, Return 2) /\
  is_Some (files sample_world !! ["src"]) /\
  main sample_md5 sample_json_load sample_json_dump
    (Args ["src"] ["dest"] false false false false) sample_world
  = (sample_world, Return 0).
Proof.
  split; [reflexivity|].
  destruct (main_exit_code sample_md5 sample_json_load sample_json_dump
              (Args ["nowhere"] ["dest"] false true true false) sample_world)
    as [H _].
  split; [apply H; reflexivity|]. split; [by exists Dir|].
  destruct (main_exit_code sample_md5 sample_json_load sample_json_dump
              (Args ["src"] ["dest"] false false false false) sample_world)
    as (_ & _ & H0 & _).
  apply (H0 sample_world); [by exists Dir|vm_compute; reflexivity].
Defined.

Lemma sync_onto_itself_witness :
  files sample_all_world !! ["src"] = Some Dir /\
  sync_all_models sample_md5 ["src"] ["src"] false false sample_all_world
  = (sample_all_world, Return []).
Proof.
  split; [reflexivity|].
  destruct (sync_onto_itself sample_md5 ["src"] false false sample_all_world)
    as [_ H].
  apply H; [reflexivity|discriminate].
Defined.

Lemma sync_best_manifest_unusable_witness :
  files sample_all_world !! ["best_models.json"; "src"] = None /\
  sync_best_models sample_md5 sample_json_load ["src"] ["dest"] true false
    sample_all_world = (sample_all_world, Return []).
Proof.
  split; [reflexivity|].
  destruct (sync_best_manifest_unusable sample_md5 sample_json_load
              ["src"] ["dest"] true false sample_all_world) as [H _].
  apply H. left. reflexivity.
Defined.

Lemma sync_best_skips_malformed_witness :
  files sample_world !! ["best_models.json"; "src"]
  = Some (File sample_manifest_text sample_time) /\
  sample_json_load sample_manifest_text = Some (JDict sample_manifest) /\
  plain_name "A" = true /\ plain_name "model_404.json" = true /\
  files sample_world !! ["model_404.json"; "A"; "src"] = None /\
  sync_best_entry sample_md5 ["src"] ["dest"] true false
    ("A", JDict [("model_file", JStr "model_404.json")]) [] sample_world
  = (sample_world, Return []).
Proof.
  do 5 (split; [reflexivity|]).
  destruct (sync_best_skips_malformed sample_md5 sample_json_load
              ["src"] ["dest"] true false sample_world
              sample_manifest_text sample_time sample_manifest)
    as (_ & Hmissing & _); [reflexivity..|].
  apply (Hmissing "A" _ "model_404.json"); reflexivity.
Defined.

Lemma sync_best_result_synced_witness :
  let w1 := fst (sync_best_models sample_md5 sample_json_load ["src"] ["dest"]
                   true false sample_world) in
  snd (sync_best_models sample_md5 sample_json_load ["src"] ["dest"]
         true false sample_world) = Return [("A", "model_001.json")] /\
  exists content mtime,
    files w1 !! ["model_001.json"; "A"; "src"] = Some (File content mtime) /\
    files w1 !! ["model_001.json"; "A"; "dest"] = Some (File content mtime).
Proof.
  intros w1. split; [vm_compute; reflexivity|].
  apply (sync_best_result_synced sample_md5 sample_json_load ["src"] ["dest"]
           true sample_world w1 [("A", "model_001.json")]).
  - reflexivity.
  - vm_compute; reflexivity.
  - reflexivity.
Defined.

Lemma cleanup_manifest_unusable_witness :
  files sample_all_world !! ["best_models.json"; "dest"] = None /\
  cleanup_old_models sample_json_load ["dest"] false sample_all_world
  = (sample_all_world, Return tt).
Proof.
  split; [reflexivity|].
  destruct (cleanup_manifest_unusable sample_json_load ["dest"] false
              sample_all_world) as [H _].
  apply H. left. reflexivity.
Defined.

Lemma cleanup_keeps_referenced_witness :
  is_referenced sample_manifest "A" "model_001.json" = true /\
  snd (cleanup_old_models sample_json_load ["dest"] false sample_world_dir)
  = Raise IsADirectoryError /\
  files (fst (cleanup_old_models sample_json_load ["dest"] false
                sample_world_dir)) !! ["model_001.json"; "A"; "dest"]
  = Some (File "older" sample_time).
Proof.
  split; [reflexivity|]. split; [vm_compute; reflexivity|].
  etrans; [|reflexivity].
  exact (cleanup_keeps_referenced sample_json_load ["dest"] false
           sample_world_dir sample_manifest_text sample_time sample_manifest
           eq_refl eq_refl "A" "model_001.json" eq_refl).
Defined.

Lemma update_bad_manifest_witness :
  files sample_world_corrupt !! ["best_models.json"; "dest"]
  = Some (File "{" sample_time) /\
  sample_json_load "{" = None /\
  exists w' (d1 : dict json),
    update_dest_best_models sample_json_load sample_json_dump ["dest"]
      [("B", "model_002.json")] false sample_world_corrupt = (w', Return tt) /\
    is_Some (dict_get "B" d1) /\ ~ is_Some (dict_get "A" d1).
Proof.
  split; [reflexivity|]. split; [reflexivity|].
  destruct (update_bad_manifest sample_json_load sample_json_dump ["dest"]
              [("B", "model_002.json")] sample_world_corrupt "{" sample_time)
    as [_ H]; [discriminate|reflexivity|].
  destruct H as (w' & d1 & Hrun & _ & Hkeys);
    [reflexivity|reflexivity|vm_compute; discriminate|].
  exists w', d1. split; [exact Hrun|]. split.
  - apply Hkeys. by apply (bool_decide_unpack _).
  - intros H. apply Hkeys in H. by apply (bool_decide_unpack (_ ∉ _)) in H.
Defined.


(** With [all], the cleanup pass of the same run removes what the sync
    step copied before the file its result names: [model_001.json] is
    copied by the sync step and gone at the end of the run, and
    [model_002.json], which the result names, stays. *)
Lemma main_all_cleanup_removes_earlier_copy :
  snd (sync_all_models sample_md5 ["src"] ["dest"] false false sample_all_world)
  = Return [("C", "model_002.json")] /\
  files (fst (sync_all_models sample_md5 ["src"] ["dest"] false false
                sample_all_world))
    !! ["model_001.json"; "C"; "dest"] = Some (File "one" sample_time) /\
  files (fst (main sample_md5
                (sample_json_load_among [JDict sample_all_updated_manifest])
                sample_json_dump
                (Args ["src"] ["dest"] true true false false) sample_all_world))
    !! ["model_001.json"; "C"; "dest"] = None /\
  files (fst (main sample_md5
                (sample_json_load_among [JDict sample_all_updated_manifest])
                sample_json_dump
                (Args ["src"] ["dest"] true true false false) sample_all_world))
    !! ["model_002.json"; "C"; "dest"] = Some (File "two" sample_time).
Proof. repeat split; vm_compute; reflexivity. Qed.

Lemma sync_best_dry_run_agrees_witness :
  disjoint_roots ["src"] ["dest"] /\
  plain_manifest (source_entries sample_json_load (files sample_world) ["src"])
  = true /\
  snd (sync_best_models sample_md5 sample_json_load ["src"] ["dest"] true false
         sample_world) = Return [("A", "model_001.json")] /\
  sync_best_models sample_md5 sample_json_load ["src"] ["dest"] true true
    sample_world = (sample_world, Return [("A", "model_001.json")]).
Proof.
  assert (Hdis : disjoint_roots ["src"] ["dest"]).
  { split; by apply (bool_decide_unpack _). }
  split; [exact Hdis|]. split; [reflexivity|].
  split; [vm_compute; reflexivity|].
  apply (sync_best_dry_run_agrees sample_md5 sample_json_load ["src"] ["dest"]
           true sample_world
           (fst (sync_best_models sample_md5 sample_json_load ["src"] ["dest"]
                   true false sample_world))).
  - exact Hdis.
  - reflexivity.
  - apply (bool_decide_unpack _). vm_compute. exact I.
  - reflexivity.
  - vm_compute; reflexivity.
Defined.

Lemma sync_all_dry_run_agrees_witness :
  disjoint_roots ["src"] ["dest"] /\
  snd (sync_all_models sample_md5 ["src"] ["dest"] false false sample_all_world)
  = Return [("C", "model_002.json")] /\
  sync_all_models sample_md5 ["src"] ["dest"] false true sample_all_world
  = (sample_all_world, Return [("C", "model_002.json")]).
Proof.
  assert (Hdis : disjoint_roots ["src"] ["dest"]).
  { split; by apply (bool_decide_unpack _). }
  split; [exact Hdis|]. split; [vm_compute; reflexivity|].
  apply (sync_all_dry_run_agrees sample_md5 ["src"] ["dest"] false
           sample_all_world
           (fst (sync_all_models sample_md5 ["src"] ["dest"] false false
                   sample_all_world))).
  - exact Hdis.
  - intros ruleset name _. apply sample_all_no_dir_targets.
  - vm_compute; reflexivity.
Defined.

Lemma sync_all_result_synced_witness :
  let w1 := fst (sync_all_models sample_md5 ["src"] ["dest"] false false
                   sample_all_world) in
  snd (sync_all_models sample_md5 ["src"] ["dest"] false false sample_all_world)
  = Return [("C", "model_002.json")] /\
  exists content mtime,
    files w1 !! ["model_002.json"; "C"; "src"] = Some (File content mtime) /\
    files w1 !! ["model_002.json"; "C"; "dest"] = Some (File content mtime).
Proof.
  intros w1. split; [vm_compute; reflexivity|].
  apply (sync_all_result_synced sample_md5 ["src"] ["dest"] false
           sample_all_world w1 [("C", "model_002.json")]).
  - intros ruleset name _. apply sample_all_no_dir_targets.
  - vm_compute; reflexivity.
  - reflexivity.
Defined.

Lemma cleanup_idempotent_witness :
  exists w' w'',
    cleanup_old_models sample_json_load ["dest"] false sample_world
    = (w', Return tt) /\
    cleanup_old_models sample_json_load ["dest"] false w' = (w'', Return tt) /\
    files w'' !! ["model_000.json"; "A"; "dest"] = None /\
    files w'' !! ["model_001.json"; "A"; "dest"]
    = files w' !! ["model_001.json"; "A"; "dest"].
Proof.
  destruct (cleanup_idempotent sample_json_load ["dest"] sample_world
              sample_manifest_text sample_time sample_manifest)
    as (w' & Hrun & _ & w'' & Hrun2 & Hsame).
  - reflexivity.
  - reflexivity.
  - reflexivity.
  - reflexivity.
  - apply stale_files_check. vm_compute. reflexivity.
  - exists w', w''. split; [exact Hrun|]. split; [exact Hrun2|].
    split; [|apply Hsame]. rewrite Hsame.
    assert (E : w' = fst (cleanup_old_models sample_json_load ["dest"] false
                            sample_world)) by by rewrite Hrun.
    rewrite E. vm_compute; reflexivity.
Defined.

Lemma sync_all_second_run_witness :
  disjoint_roots ["src"] ["dest"] /\
  let w1 := fst (sync_all_models sample_md5 ["src"] ["dest"] false false
                   sample_all_world) in
  snd (sync_all_models sample_md5 ["src"] ["dest"] false false sample_all_world)
  = Return [("C", "model_002.json")] /\
  sync_all_models sample_md5 ["src"] ["dest"] false false w1 = (w1, Return []).
Proof.
  assert (Hdis : disjoint_roots ["src"] ["dest"]).
  { split; by apply (bool_decide_unpack _). }
  split; [exact Hdis|]. intros w1. split; [vm_compute; reflexivity|].
  destruct (sync_all_second_run_copies_nothing sample_md5 ["src"] ["dest"] false
              sample_all_world w1 [("C", "model_002.json")]) as [H _].
  - exact Hdis.
  - intros ruleset name _. apply sample_all_no_dir_targets.
  - vm_compute; reflexivity.
  - apply H.
Defined.

Lemma copy_into_directory_witness :
  files sample_world_dir !! ["model_old.json"; "A"; "dest"] = Some Dir /\
  exists w',
    copy_model_file sample_md5 ["model_001.json"; "A"; "src"]
      ["model_old.json"; "A"; "dest"] true false sample_world_dir
    = (w', Return true) /\
    files w' !! ["model_old.json"; "A"; "dest"] = Some Dir /\
    files w' !! ["model_001.json"; "model_old.json"; "A"; "dest"]
    = Some (File "one" sample_time).
Proof.
  split; [reflexivity|].
  destruct (copy_into_directory sample_md5 ["model_001.json"; "A"; "src"]
              ["model_old.json"; "A"; "dest"] sample_world_dir "one" sample_time)
    as (_ & _ & w' & Hrun & Hdir & Hfile & _).
  - reflexivity.
  - reflexivity.
  - reflexivity.
  - vm_compute; discriminate.
  - discriminate.
  - exists w'. split; [exact Hrun|]. split; [exact Hdir|exact Hfile].
Defined.

Lemma copy_failure_keeps_files_witness :
  let run := copy_model_file sample_md5 ["A"; "src"] ["A"; "new"; "dest"]
               false false sample_world in
  snd run = Raise IsADirectoryError /\
  files (fst run) !! ["A"; "new"; "dest"] = None /\
  files (fst run) !! ["new"; "dest"] = Some Dir.
Proof.
  intros run. split; [vm_compute; reflexivity|].
  destruct (copy_failure_keeps_files sample_md5 ["A"; "src"]
              ["A"; "new"; "dest"] false false sample_world (fst run)
              IsADirectoryError) as (_ & HD & _).
  - vm_compute; reflexivity.
  - split; [|vm_compute; reflexivity].
    etrans; [exact HD|]. vm_compute; reflexivity.
Defined.
